(** * blog-api: credential issuance and refresh-token sessions

    A shallow embedding of the session core of the blog API:

    - [types/permissions.ts] and [calculatePermissions]      (Permission Model)
    - [utils/jsonwebtoken.ts]                                 (Credential Codec)
    - [database/models/RefreshTokenModel.ts] and
      [controllers/RefreshTokenController.ts]                 (Refresh Session Store)
    - [routes/auth/login.ts], [routes/auth/refresh-token.ts]  (Session Issuance)

    Conventions.  [Date.now()] is an explicit argument [now], in milliseconds
    since the epoch.  A MongoDB collection is the list of its documents in
    insertion order and is passed explicitly through every operation that
    touches it.  Driver faults (a rejected promise) are inputs of the
    operation that would observe them.  JavaScript numbers that the code only
    uses as integers are [Z]. *)

From Stdlib Require Import ZArith List String Bool Lia.
Import ListNotations.

Open Scope string_scope.
Open Scope list_scope.
Open Scope Z_scope.

(* ===================================================================== *)
(** ** JavaScript helpers                                                 *)
(* ===================================================================== *)

(** [ToInt32]: the conversion the bitwise operators apply to both operands. *)
Definition ToInt32 (x : Z) : Z := (x + 2 ^ 31) mod 2 ^ 32 - 2 ^ 31.

(** [a | b] on JavaScript numbers holding integers. *)
Definition js_bitor (a b : Z) : Z := Z.lor (ToInt32 a) (ToInt32 b).

(** [a << b]. *)
Definition js_shl (a b : Z) : Z := ToInt32 (Z.shiftl (ToInt32 a) (b mod 32)).

(** [!s] for a value that is either [undefined] or a string: only a
    non-empty string is truthy. *)
Definition truthy (v : option string) : option string :=
  match v with
  | Some s => if string_dec s "" then None else Some s
  | None => None
  end.

(** [Number(b)] for a boolean. *)
Definition js_Number_of_bool (b : bool) : Z := if b then 1 else 0.

(** [new Date(ms)] is a valid Date only within 8.64e15 ms of the epoch;
    outside that range it is an Invalid Date. *)
Definition Date_valid (ms : Z) : bool :=
  (- 8640000000000000 <=? ms) && (ms <=? 8640000000000000).

(* ===================================================================== *)
(** ** types/permissions.ts                                               *)
(* ===================================================================== *)

Module PermissionsBitfield.
Definition DEFAULT : Z := Eval cbv in js_shl 1 0.
Definition MANAGE_BLOG : Z := Eval cbv in js_shl 1 1.
Definition MANAGE_USERS : Z := Eval cbv in js_shl 1 2.
End PermissionsBitfield.

Inductive RoleNames : Set :=
| USER       (* "user" *)
| MODERATOR  (* "moderator" *)
| ADMIN.     (* "admin" *)

Definition RoleNames_eq_dec (a b : RoleNames) : {a = b} + {a <> b}.
Proof. decide equality. Defined.

Definition rolePermissions (r : RoleNames) : list Z :=
  match r with
  | USER => [PermissionsBitfield.DEFAULT]
  | MODERATOR =>
      [PermissionsBitfield.DEFAULT; PermissionsBitfield.MANAGE_BLOG]
  | ADMIN =>
      [PermissionsBitfield.DEFAULT; PermissionsBitfield.MANAGE_BLOG;
       PermissionsBitfield.MANAGE_USERS]
  end.

(** [rolePermissions[role].reduce((acc, perm) => acc | perm, 0)] *)
Definition calculatePermissions (role : RoleNames) : Z :=
  fold_left (fun acc perm => js_bitor acc perm) (rolePermissions role) 0.

(* ===================================================================== *)
(** ** types/jsonwebtoken.ts and the jsonwebtoken library                 *)
(* ===================================================================== *)

(** A MongoDB ObjectId; the [id] virtual of a document is its hex string,
    which mongoose casts back to the ObjectId in query filters, so both are
    one type here. *)
Definition ObjectId := string.

Module IPayload.
Record t : Set := mk
  { id : ObjectId;
    full_name : string;
    role : RoleNames;
    permissions : Z }.

Definition eq_dec (a b : t) : {a = b} + {a <> b}.
Proof.
  decide equality;
    auto using Z.eq_dec, string_dec, RoleNames_eq_dec.
Defined.
End IPayload.

(** The claims [jwt.sign] serialises: the caller's payload with the [iat]
    and [exp] fields it adds, both in seconds since the epoch. *)
Module JwtClaims.
Record t : Set := mk
  { payload : IPayload.t;
    iat : Z;
    exp : Z }.

Definition eq_dec (a b : t) : {a = b} + {a <> b}.
Proof. decide equality; auto using Z.eq_dec, IPayload.eq_dec. Defined.
End JwtClaims.

(** The HS256 tag of a signing input under a key.  The MAC is idealised as
    a free constructor: two tags agree exactly when key and signing input
    agree (no collisions, no forgery without the key). *)
Inductive Signature : Set :=
| HS256 (key : string) (signingInput : JwtClaims.t).

Definition Signature_eq_dec (a b : Signature) : {a = b} + {a <> b}.
Proof. decide equality; auto using string_dec, JwtClaims.eq_dec. Defined.

(** A token string as a client may send it: either a compact JWS carrying
    claims and a tag (not necessarily a tag of these claims), or any other
    string, which the library reports as malformed. *)
Inductive TokenString : Set :=
| NotJws (s : string)
| Jws (claims : JwtClaims.t) (tag : Signature).

Definition TokenString_eq_dec (a b : TokenString) : {a = b} + {a <> b}.
Proof.
  decide equality;
    auto using string_dec, JwtClaims.eq_dec, Signature_eq_dec.
Defined.

(** [!token] for a token string. *)
Definition token_truthy (v : option TokenString) : option TokenString :=
  match v with
  | Some (NotJws s) => if string_dec s "" then None else Some (NotJws s)
  | Some t => Some t
  | None => None
  end.

Module jwt.
(** [jwt.sign(payload, secretOrPrivateKey, { expiresIn })] with a numeric
    [expiresIn] (seconds).  [None] stands for the call throwing, which it
    does for an empty secret.  Two things are outside this model.  The
    text of the token: a token is identified with the claims it carries
    and their tag, so the order in which a caller lists the payload's keys
    is not seen (login and the refresh flow list them differently).  And
    lifetimes that are not whole numbers of seconds, for which the library
    throws: [expiresIn] is a [Z]. *)
Definition sign (now : Z) (payload : IPayload.t)
           (secretOrPrivateKey : string) (expiresIn : Z)
  : option TokenString :=
  if string_dec secretOrPrivateKey "" then None
  else
    let timestamp := now / 1000 in
    let claims :=
      JwtClaims.mk payload timestamp (timestamp + expiresIn) in
    Some (Jws claims (HS256 secretOrPrivateKey claims)).

(** [jwt.verify(token, secretOrPublicKey)]: [None] stands for any of the
    errors it throws (malformed, missing secret, invalid signature,
    expired).  The tokens of this model are HS256 tokens, the ones the
    program issues; the library, called without an [algorithms] option,
    would take an HS384 or HS512 tag under the same secret as well. *)
Definition verify (now : Z) (token : TokenString)
           (secretOrPublicKey : string) : option JwtClaims.t :=
  match token with
  | NotJws _ => None
  | Jws claims tag =>
      if string_dec secretOrPublicKey "" then None
      else if Signature_eq_dec tag (HS256 secretOrPublicKey claims) then
        let clockTimestamp := now / 1000 in
        if JwtClaims.exp claims <=? clockTimestamp then None
        else Some claims
      else None
  end.

(** [jwt.decode(token)]: the claims a token carries, read without any
    check.  Used only to state what a token holds. *)
Definition decode (token : TokenString) : option JwtClaims.t :=
  match token with
  | NotJws _ => None
  | Jws claims _ => Some claims
  end.
End jwt.

Module ITokenResult.
Record t : Set := mk
  { accessToken : TokenString;
    expiresIn : Z }.
End ITokenResult.

Module IRefreshTokenResult.
Record t : Set := mk
  { refreshToken : TokenString }.
End IRefreshTokenResult.

(* ===================================================================== *)
(** ** utils/configuration.ts                                             *)
(* ===================================================================== *)

(** The fields of the configuration object the session core reads. *)
Module Configuration.
Record t : Set := mk
  { SECRET_KEY : string;
    EXPIRES_IN : Z;
    REFRESH_TOKEN_SECRET_KEY : string;
    REFRESH_TOKEN_EXPIRES_IN : Z }.
End Configuration.

(* ===================================================================== *)
(** ** utils/jsonwebtoken.ts                                              *)
(* ===================================================================== *)

Section Jsonwebtoken.
Variable configuration : Configuration.t.

Definition generateAccessToken (now : Z) (payload : IPayload.t)
  : option ITokenResult.t :=
  match jwt.sign now payload
          (Configuration.SECRET_KEY configuration)
          (Configuration.EXPIRES_IN configuration) with
  | Some token =>
      Some (ITokenResult.mk token (Configuration.EXPIRES_IN configuration))
  | None => None
  end.

Definition generateRefreshToken (now : Z) (payload : IPayload.t)
  : option IRefreshTokenResult.t :=
  match jwt.sign now payload
          (Configuration.REFRESH_TOKEN_SECRET_KEY configuration)
          (Configuration.REFRESH_TOKEN_EXPIRES_IN configuration) with
  | Some token => Some (IRefreshTokenResult.mk token)
  | None => None
  end.

(** The decoded object is returned under the static type [IPayload]; at
    run time it is the claims object, whose [IPayload] fields are
    [JwtClaims.payload]. *)
Definition verifyToken (now : Z) (token : TokenString) (secret_key : string)
  : option JwtClaims.t :=
  match jwt.verify now token secret_key with
  | Some decodedToken => Some decodedToken
  | None => None
  end.

Definition verifyAccessToken (now : Z) (token : TokenString)
  : option JwtClaims.t :=
  verifyToken now token (Configuration.SECRET_KEY configuration).

Definition verifyRefreshToken (now : Z) (token : TokenString)
  : option JwtClaims.t :=
  verifyToken now token
    (Configuration.REFRESH_TOKEN_SECRET_KEY configuration).
End Jsonwebtoken.

(* ===================================================================== *)
(** ** database/models/RefreshTokenModel.ts                               *)
(* ===================================================================== *)

Module IRefreshToken.
Record t : Set := mk
  { userId : ObjectId;
    refreshToken : TokenString;
    expiresAt : Z;          (* a Date: milliseconds since the epoch *)
    userAgent : string }.
End IRefreshToken.

Module IRefreshTokenDocument.
Record t : Set := mk
  { userId : ObjectId;
    refreshToken : TokenString;
    userAgent : string;
    expiresAt : Z;
    createdAt : Z }.
End IRefreshTokenDocument.

(** The "refresh_tokens" collection. *)
Definition Collection := list IRefreshTokenDocument.t.

(** Which driver calls of one request are rejected (connection loss,
    time-out, ...).  The controllers catch every such rejection. *)
Module Driver.
Record t : Set := mk
  { deleteMany_rejects : bool;
    save_rejects : bool;
    findOne_rejects : bool }.

Definition healthy : t := mk false false false.
End Driver.

Module RefreshTokenModel.
Import IRefreshTokenDocument.

(** The filter [{ $or: [{ userId }, { userAgent }] }]. *)
Definition or_userId_userAgent (uid : ObjectId) (ua : string) (d : t)
  : bool :=
  (if string_dec (userId d) uid then true else false)
  || (if string_dec (userAgent d) ua then true else false).

(** The filter [{ refreshToken: token, userAgent }]. *)
Definition refreshToken_and_userAgent (token : TokenString) (ua : string)
           (d : t) : bool :=
  (if TokenString_eq_dec (refreshToken d) token then true else false)
  && (if string_dec (userAgent d) ua then true else false).

(** [Model.deleteMany(filter)]: resolves to [deletedCount]. *)
Definition deleteMany (rejects : bool) (filter : t -> bool)
           (coll : Collection) : option Z * Collection :=
  if rejects then (None, coll)
  else
    (Some (Z.of_nat (List.length (List.filter filter coll))),
     List.filter (fun d => negb (filter d)) coll).

(** [Model.findOne(filter)]: the first matching document. *)
Definition findOne (rejects : bool) (filter : t -> bool)
           (coll : Collection) : option (option t) :=
  if rejects then None else Some (List.find filter coll).

(** Schema validation of [new RefreshTokenModel(data)]: the [required]
    string paths must hold a non-empty string, and the [required] Date
    path [expiresAt] a valid Date (an Invalid Date does not cast). *)
Definition validates (data : IRefreshToken.t) : bool :=
  match token_truthy (Some (IRefreshToken.refreshToken data)),
        truthy (Some (IRefreshToken.userAgent data)) with
  | Some _, Some _ => Date_valid (IRefreshToken.expiresAt data)
  | _, _ => false
  end.

(** The unique index the schema declares on [userAgent]. *)
Definition userAgent_taken (ua : string) (coll : Collection) : bool :=
  existsb (fun d => if string_dec (userAgent d) ua then true else false)
          coll.

(** [new RefreshTokenModel(data).save()]: the document is given its
    [createdAt] default and inserted, unless the driver rejects, validation
    fails or the unique index on [userAgent] refuses the key. *)
Definition save (rejects : bool) (now : Z) (data : IRefreshToken.t)
           (coll : Collection) : option t * Collection :=
  if rejects then (None, coll)
  else if negb (validates data) then (None, coll)
  else if userAgent_taken (IRefreshToken.userAgent data) coll
  then (None, coll)
  else
    let doc :=
      mk (IRefreshToken.userId data) (IRefreshToken.refreshToken data)
         (IRefreshToken.userAgent data) (IRefreshToken.expiresAt data)
         now in
    (Some doc, coll ++ [doc]).

(** One pass of the server's TTL monitor for the index
    [{ expiresAt: 1 }, { expireAfterSeconds: 0 }]: every document whose
    [expiresAt] has been reached is deleted.  The monitor is a background
    task of the database; no request handler triggers it. *)
Definition ttlMonitor (now : Z) (coll : Collection) : Collection :=
  List.filter (fun d => now <? expiresAt d) coll.
End RefreshTokenModel.

(* ===================================================================== *)
(** ** controllers/RefreshTokenController.ts                              *)
(* ===================================================================== *)

Module RefreshTokenController.
Definition revokeUserRefreshTokensByUserAgent
           (driver : Driver.t) (userId : ObjectId) (userAgent : string)
           (coll : Collection) : bool * Collection :=
  match RefreshTokenModel.deleteMany
          (Driver.deleteMany_rejects driver)
          (RefreshTokenModel.or_userId_userAgent userId userAgent)
          coll with
  | (Some deletedCount, coll') => (0 <? deletedCount, coll')
  | (None, coll') => (false, coll')
  end.

Definition createRefreshToken
           (driver : Driver.t) (now : Z) (refreshToken : IRefreshToken.t)
           (coll : Collection)
  : option IRefreshTokenDocument.t * Collection :=
  match RefreshTokenModel.save (Driver.save_rejects driver) now
          refreshToken coll with
  | (Some newRefreshToken, coll') => (Some newRefreshToken, coll')
  | (None, coll') => (None, coll')
  end.

Definition findRefreshToken
           (driver : Driver.t) (token : TokenString) (userAgent : string)
           (coll : Collection) : option IRefreshTokenDocument.t :=
  match RefreshTokenModel.findOne
          (Driver.findOne_rejects driver)
          (RefreshTokenModel.refreshToken_and_userAgent token userAgent)
          coll with
  | Some refreshToken => refreshToken
  | None => None
  end.
End RefreshTokenController.

(* ===================================================================== *)
(** ** database/models/UserModel.ts, controllers/UserController.ts        *)
(* ===================================================================== *)

Inductive Pronouns : Set := HE | SHE | THEY | OTHER.

Module RegisterDTO.
Record t : Set := mk
  { email : string;
    full_name : string;
    password : string }.
End RegisterDTO.

Module IUserDocument.
Record t : Set := mk
  { _id : ObjectId;
    email : string;
    email_verified : bool;
    full_name : string;
    password : string;
    about : string;
    avatar : string;
    total_follower : Z;
    total_following : Z;
    role : RoleNames;
    permissions : Z;
    pronouns : option Pronouns }.

(** The [id] virtual. *)
Definition id (u : t) : ObjectId := _id u.
End IUserDocument.

(** What a rejected promise of the user model carries: mongoose's
    validation error, or any other error; each with its message. *)
Inductive Thrown : Set :=
| ValidationError (message : string)
| OtherError (message : string).

(** What happens inside mongoose and the driver during one request on the
    users collection, each with the message of the error it raises: a
    rejected [findOne], the verdict of the schema's validators on the
    document being saved, the message of the unique index on [email] should
    it refuse the key, a rejected insert, a rejected [deleteOne].  The
    validators themselves (pattern and length bounds) are not evaluated
    here: their verdict is an input. *)
Module UserDriver.
Record t : Set := mk
  { findOne_rejects : option string;
    validation_fails : option string;
    duplicate_key : string;
    save_rejects : option string;
    deleteOne_rejects : option string }.

Definition healthy : t :=
  mk None None "E11000 duplicate key error" None None.
End UserDriver.

Module UserModel.
(** [new UserModel(user)] for a registration: the schema defaults fill
    every path the DTO leaves out. *)
Definition new (oid : ObjectId) (user : RegisterDTO.t) : IUserDocument.t :=
  IUserDocument.mk oid
    (RegisterDTO.email user) false (RegisterDTO.full_name user)
    (RegisterDTO.password user) ""
    "http://localhost:8080/images/default_avatar.jpeg" 0 0
    USER PermissionsBitfield.DEFAULT None.

(** The unique index the schema declares on [email]. *)
Definition email_taken (email : string) (users : list IUserDocument.t)
  : bool :=
  existsb
    (fun u => if string_dec (IUserDocument.email u) email
              then true else false)
    users.

(** [new UserModel(user).save()]. *)
Definition save (driver : UserDriver.t) (oid : ObjectId)
           (user : RegisterDTO.t) (users : list IUserDocument.t)
  : (Thrown + IUserDocument.t) * list IUserDocument.t :=
  match UserDriver.validation_fails driver with
  | Some message => (inl (ValidationError message), users)
  | None =>
      match UserDriver.save_rejects driver with
      | Some message => (inl (OtherError message), users)
      | None =>
          if email_taken (RegisterDTO.email user) users
          then (inl (OtherError (UserDriver.duplicate_key driver)), users)
          else
            let newUser := new oid user in
            (inr newUser, users ++ [newUser])
      end
  end.

(** [UserModel.deleteOne({ email })]: removes the first match. *)
Fixpoint deleteOne (email : string) (users : list IUserDocument.t)
  : Z * list IUserDocument.t :=
  match users with
  | [] => (0, [])
  | u :: rest =>
      if string_dec (IUserDocument.email u) email then (1, rest)
      else let (deletedCount, rest') := deleteOne email rest in
           (deletedCount, u :: rest')
  end.
End UserModel.

Module UserController.
Definition findByUserEmail (users : list IUserDocument.t) (email : string)
  : option IUserDocument.t :=
  List.find
    (fun u => if string_dec (IUserDocument.email u) email
              then true else false)
    users.

(** [createUser]: the document is built and saved; nothing is caught
    here. *)
Definition createUser (driver : UserDriver.t) (oid : ObjectId)
           (user : RegisterDTO.t) (users : list IUserDocument.t)
  : (Thrown + IUserDocument.t) * list IUserDocument.t :=
  UserModel.save driver oid user users.

(** [deleteByUserEmail]: whether a user was deleted; a rejection is not
    caught here either. *)
Definition deleteByUserEmail (driver : UserDriver.t) (email : string)
           (users : list IUserDocument.t)
  : (Thrown + bool) * list IUserDocument.t :=
  match UserDriver.deleteOne_rejects driver with
  | Some message => (inl (OtherError message), users)
  | None =>
      let (deletedCount, users') := UserModel.deleteOne email users in
      (inr (0 <? deletedCount), users')
  end.
End UserController.

(* ===================================================================== *)
(** ** errors/, types/response.ts                                         *)
(* ===================================================================== *)

Module BaseError.
Record t : Set := mk
  { message : string;
    statusCode : Z }.
End BaseError.

Definition BadRequestError (message : string) : BaseError.t :=
  BaseError.mk message 400.

Definition ServerFailedError (message : string) : BaseError.t :=
  BaseError.mk message 500.

Definition UnauthorizedError (message : string) : BaseError.t :=
  BaseError.mk message 401.

Module ITokenResponse.
Record t : Set := mk
  { message : string;
    status : string;
    access_token : TokenString;
    expires_in : Z;
    refresh_token : TokenString }.
End ITokenResponse.

Module RefreshTokenResponse.
Record t : Set := mk
  { message : string;
    status : string;
    access_token : TokenString;
    expires_in : Z }.
End RefreshTokenResponse.

(** What a route handler does with the request: hand an error to [next],
    or answer with [res.status(code).json(body)]. *)
Inductive Outcome (Body : Set) : Set :=
| next (err : BaseError.t)
| res_status_json (code : Z) (body : Body).

Arguments next {Body} err.
Arguments res_status_json {Body} code body.

(** The HTTP status the client sees (the global error middleware answers
    with the error's [statusCode]). *)
Definition http_status {Body : Set} (o : Outcome Body) : Z :=
  match o with
  | next err => BaseError.statusCode err
  | res_status_json code _ => code
  end.

(* ===================================================================== *)
(** ** routes/auth/login.ts, routes/auth/refresh-token.ts                 *)
(* ===================================================================== *)

Module LoginRequest.
Record t : Set := mk
  { email : option string;          (* req.body.email *)
    password : option string;       (* req.body.password *)
    user_agent : option string }.   (* req.headers["user-agent"] *)
End LoginRequest.

Module RefreshRequest.
Record t : Set := mk
  { refresh_token : option TokenString;  (* req.body.refresh_token *)
    user_agent : option string;          (* req.headers["user-agent"] *)
    user : IPayload.t }.                 (* req.user, set by the guard *)
End RefreshRequest.

Section Routes.
Variable configuration : Configuration.t.

(** [comparePassword] of utils/password: the password-hash comparison, an
    external primitive of the session core. *)
Variable comparePassword : string -> string -> bool.

(** The handler on a request whose two unguarded awaits (the user lookup
    and the password comparison) resolve; see [login_handler] for the
    request on which one of them rejects. *)
Definition login (driver : Driver.t) (users : list IUserDocument.t)
           (now : Z) (req : LoginRequest.t) (refresh_tokens : Collection)
  : Outcome ITokenResponse.t * Collection :=
  match truthy (LoginRequest.email req),
        truthy (LoginRequest.password req) with
  | Some email, Some password =>
      match UserController.findByUserEmail users email with
      | None =>
          (next (BadRequestError "The user is not registered."),
           refresh_tokens)
      | Some existingUser =>
          if negb (comparePassword password
                     (IUserDocument.password existingUser))
          then
            (next (BadRequestError "Password is incorrect."),
             refresh_tokens)
          else
            let payload :=
              IPayload.mk (IUserDocument.id existingUser)
                (IUserDocument.full_name existingUser)
                (IUserDocument.role existingUser)
                (IUserDocument.permissions existingUser) in
            match generateAccessToken configuration now payload with
            | None =>
                (next (ServerFailedError
                         "Failed to generate access token."),
                 refresh_tokens)
            | Some accessTokenResult =>
                match generateRefreshToken configuration now payload with
                | None =>
                    (next (ServerFailedError
                             "Failed to generate refresh token."),
                     refresh_tokens)
                | Some refreshTokenResult =>
                    match truthy (LoginRequest.user_agent req) with
                    | None =>
                        (next (BadRequestError
                                 "User-Agent header is missing"),
                         refresh_tokens)
                    | Some userAgent =>
                        let (_, revoked) :=
                          RefreshTokenController.revokeUserRefreshTokensByUserAgent
                            driver (IUserDocument.id existingUser)
                            userAgent refresh_tokens in
                        let (_, created) :=
                          RefreshTokenController.createRefreshToken
                            driver now
                            (IRefreshToken.mk
                               (IUserDocument._id existingUser)
                               (IRefreshTokenResult.refreshToken
                                  refreshTokenResult)
                               (now
                                + Configuration.REFRESH_TOKEN_EXPIRES_IN
                                    configuration)
                               userAgent)
                            revoked in
                        (res_status_json 201
                           (ITokenResponse.mk "Login successful" "success"
                              (ITokenResult.accessToken accessTokenResult)
                              (ITokenResult.expiresIn accessTokenResult)
                              (IRefreshTokenResult.refreshToken
                                 refreshTokenResult)),
                         created)
                    end
                end
            end
      end
  | _, _ =>
      (next (BadRequestError "Email and password are required fields."),
       refresh_tokens)
  end.

(** The handler only reads the collection. *)
Definition refreshToken (driver : Driver.t) (now : Z)
           (req : RefreshRequest.t) (refresh_tokens : Collection)
  : Outcome RefreshTokenResponse.t :=
  match token_truthy (RefreshRequest.refresh_token req) with
  | None => next (BadRequestError "refresh_token required field.")
  | Some refresh_token =>
      match verifyRefreshToken configuration now refresh_token with
      | None => next (BadRequestError "Invalid refresh token.")
      | Some verifiedToken =>
          match truthy (RefreshRequest.user_agent req) with
          | None => next (BadRequestError "user agent missing")
          | Some userAgent =>
              match RefreshTokenController.findRefreshToken
                      driver refresh_token userAgent refresh_tokens with
              | None => next (BadRequestError "Invalid refresh token.")
              | Some foundToken =>
                  match generateAccessToken configuration now
                          (IPayload.mk
                             (IPayload.id (RefreshRequest.user req))
                             (IPayload.full_name (RefreshRequest.user req))
                             (IPayload.role (RefreshRequest.user req))
                             (IPayload.permissions
                                (RefreshRequest.user req))) with
                  | None =>
                      next (ServerFailedError "Failed to generate token.")
                  | Some accessTokenResult =>
                      res_status_json 201
                        (RefreshTokenResponse.mk
                           "Created a access token" "success"
                           (ITokenResult.accessToken accessTokenResult)
                           (ITokenResult.expiresIn accessTokenResult))
                  end
              end
          end
      end
  end.
End Routes.

(** Whether the two awaits that [login] does not guard with a [try] are
    rejected during one request. *)
Module LoginAwaits.
Record t : Set := mk
  { findByUserEmail_rejects : bool;
    comparePassword_rejects : bool }.

Definition resolved : t := mk false false.
End LoginAwaits.

Section LoginHandler.
Variable configuration : Configuration.t.
Variable comparePassword : string -> string -> bool.

(** The login handler with those rejections: [None] is the handler's own
    promise rejecting, at the await that raised, with neither [next] nor
    [res] called and the collection not yet touched.  The lookup is
    awaited only once e-mail and password are present, the comparison
    only once a user is found. *)
Definition login_handler (awaits : LoginAwaits.t) (driver : Driver.t)
           (users : list IUserDocument.t) (now : Z) (req : LoginRequest.t)
           (refresh_tokens : Collection)
  : option (Outcome ITokenResponse.t * Collection) :=
  match truthy (LoginRequest.email req),
        truthy (LoginRequest.password req) with
  | Some email, Some password =>
      if LoginAwaits.findByUserEmail_rejects awaits then None
      else
        match UserController.findByUserEmail users email with
        | Some existingUser =>
            if LoginAwaits.comparePassword_rejects awaits then None
            else Some (login configuration comparePassword driver users
                         now req refresh_tokens)
        | None =>
            Some (login configuration comparePassword driver users now req
                    refresh_tokens)
        end
  | _, _ =>
      Some (login configuration comparePassword driver users now req
              refresh_tokens)
  end.
End LoginHandler.

(* ===================================================================== *)
(** ** routes/auth/register.ts                                             *)
(* ===================================================================== *)

Module IMessageResponse.
Record t : Set := mk
  { message : string;
    status : string }.
End IMessageResponse.

Module RegisterRequest.
Record t : Set := mk
  { email : option string;        (* req.body.email *)
    password : option string;     (* req.body.password *)
    full_name : option string }.  (* req.body.full_name *)
End RegisterRequest.

Section Register.
(** [hashPassword] of utils/password: the password-hash primitive, which
    gives nothing when hashing fails. *)
Variable hashPassword : string -> option string.

(** The [catch] of the handler. *)
Definition register_catch (err : Thrown) : BaseError.t :=
  match err with
  | ValidationError message => BadRequestError message
  | OtherError message => ServerFailedError message
  end.

Definition register (driver : UserDriver.t) (oid : ObjectId)
           (req : RegisterRequest.t) (users : list IUserDocument.t)
  : Outcome IMessageResponse.t * list IUserDocument.t :=
  match truthy (RegisterRequest.email req),
        truthy (RegisterRequest.password req),
        truthy (RegisterRequest.full_name req) with
  | Some email, Some password, Some full_name =>
      match UserDriver.findOne_rejects driver with
      | Some message =>
          (* the awaited findByUserEmail rejects *)
          (next (register_catch (OtherError message)), users)
      | None =>
          match UserController.findByUserEmail users email with
          | Some existingUser =>
              (next (BadRequestError "User is already registered"), users)
          | None =>
              match truthy (hashPassword password) with
              | None =>
                  (next (ServerFailedError "Hashing password failed"),
                   users)
              | Some hashedPassword =>
                  match UserController.createUser driver oid
                          (RegisterDTO.mk email full_name hashedPassword)
                          users with
                  | (inr _, users') =>
                      (res_status_json 201
                         (IMessageResponse.mk
                            "Created a user successfully" "success"),
                       users')
                  | (inl err, users') =>
                      (next (register_catch err), users')
                  end
              end
          end
      end
  | _, _, _ =>
      (next (BadRequestError
               "Email, password, and full name are required fields"),
       users)
  end.
End Register.

(** The e-mails of the users collection are pairwise distinct. *)
Definition email_unique (users : list IUserDocument.t) : Prop :=
  NoDup (map IUserDocument.email users).

(* ===================================================================== *)
(** ** utils/configuration.ts: loading                                    *)
(* ===================================================================== *)

(** [process.env]. *)
Definition ProcessEnv := string -> option string.

(** The two error classes of the module, with the variable they name. *)
Inductive StartupError : Set :=
| MissingVariableError (variable : string)
| NotNumberError (variable : string).

(** The [message] the constructors build; an unset [NODE_ENV] prints as
    "undefined" in the template. *)
Definition StartupError_message (env : ProcessEnv) (e : StartupError)
  : string :=
  match e with
  | MissingVariableError variable =>
      (variable ++ " is not defined. Please add it to your .env."
       ++ match env "NODE_ENV" with
          | Some v => v
          | None => "undefined"
          end
       ++ " file.")%string
  | NotNumberError variable => (variable ++ " must be a valid number.")%string
  end.

Definition requiredVariables : list string :=
  ["PORT"; "ALLOW_LIST"; "API_VERSION"; "MONGO_CONNECTION_URI";
   "MONGO_DATABASE_NAME"; "SALT_ROUNDS"; "SECRET_KEY"; "EXPIRES_IN";
   "REFRESH_TOKEN_SECRET_KEY"; "REFRESH_TOKEN_EXPIRES_IN"].

(** The [forEach] over [requiredVariables]: the first variable that is
    unset or empty is the one thrown. *)
Fixpoint checkRequired (env : ProcessEnv) (variables : list string)
  : option StartupError :=
  match variables with
  | [] => None
  | variable :: rest =>
      match truthy (env variable) with
      | None => Some (MissingVariableError variable)
      | Some _ => checkRequired env rest
      end
  end.

(** The separator "," (character 44). *)
Definition comma : Ascii.ascii := Ascii.ascii_of_nat 44.

(** [s.split(",")], reading the string from the left; [current] is the
    piece being read, back to front. *)
Fixpoint split_comma_from (current : list Ascii.ascii) (s : string)
  : list string :=
  match s with
  | EmptyString => [string_of_list_ascii (rev current)]
  | String c rest =>
      if Ascii.ascii_dec c comma
      then string_of_list_ascii (rev current) :: split_comma_from [] rest
      else split_comma_from (c :: current) rest
  end.

Definition split_comma (s : string) : list string := split_comma_from [] s.

(** The configuration object with all its fields. *)
Module LoadedConfiguration.
Record t : Set := mk
  { NODE_ENV : option string;
    PORT : Z;
    ALLOW_LIST : list string;
    API_VERSION : Z;
    MONGO_CONNECTION_URI : string;
    MONGO_DATABASE_NAME : string;
    SALT_ROUNDS : Z;
    SECRET_KEY : string;
    EXPIRES_IN : Z;
    REFRESH_TOKEN_SECRET_KEY : string;
    REFRESH_TOKEN_EXPIRES_IN : Z }.

(** The part of it the session core reads. *)
Definition session (c : t) : Configuration.t :=
  Configuration.mk (SECRET_KEY c) (EXPIRES_IN c)
    (REFRESH_TOKEN_SECRET_KEY c) (REFRESH_TOKEN_EXPIRES_IN c).
End LoadedConfiguration.

Section LoadConfiguration.
(** [Number(s)] on the strings the environment holds: the number a string
    denotes, nothing when it is [NaN].  The numeric variables are taken to
    denote whole numbers. *)
Variable Number : string -> option Z.

(** A variable read as a string: checked to be set, so never undefined. *)
Definition env_string (env : ProcessEnv) (variable : string) : string :=
  match env variable with
  | Some v => v
  | None => ""
  end.

(** [const x = Number(process.env.X); if (isNaN(x)) throw ...]. *)
Definition env_number (env : ProcessEnv) (variable : string)
  : StartupError + Z :=
  match Number (env_string env variable) with
  | Some n => inr n
  | None => inl (NotNumberError variable)
  end.

(** The module body, top to bottom: [inl] is the error it throws. *)
Definition loadConfiguration (env : ProcessEnv)
  : StartupError + LoadedConfiguration.t :=
  match checkRequired env requiredVariables with
  | Some e => inl e
  | None =>
      match env_number env "PORT" with
      | inl e => inl e
      | inr port =>
          let allowArray := split_comma (env_string env "ALLOW_LIST") in
          match env_number env "API_VERSION" with
          | inl e => inl e
          | inr apiVersion =>
              match env_number env "SALT_ROUNDS" with
              | inl e => inl e
              | inr saltRounds =>
                  match env_number env "EXPIRES_IN" with
                  | inl e => inl e
                  | inr expiresIn =>
                      match env_number env "REFRESH_TOKEN_EXPIRES_IN" with
                      | inl e => inl e
                      | inr refreshTokenExpiresIn =>
                          inr (LoadedConfiguration.mk
                                 (env "NODE_ENV") port allowArray
                                 apiVersion
                                 (env_string env "MONGO_CONNECTION_URI")
                                 (env_string env "MONGO_DATABASE_NAME")
                                 saltRounds
                                 (env_string env "SECRET_KEY") expiresIn
                                 (env_string env
                                    "REFRESH_TOKEN_SECRET_KEY")
                                 refreshTokenExpiresIn)
                      end
                  end
              end
          end
      end
  end.
End LoadConfiguration.

(** The order of the three roles by privilege. *)
Definition role_rank (r : RoleNames) : Z :=
  match r with
  | USER => 0
  | MODERATOR => 1
  | ADMIN => 2
  end.

(* ===================================================================== *)
(** ** The collection over time                                           *)
(* ===================================================================== *)

(** Every state of the "refresh_tokens" collection the program can bring
    about: it starts empty, the controller is its only writer, and the
    database's TTL monitor may run between any two requests. *)
Inductive reachable : Collection -> Prop :=
| reachable_empty : reachable []
| reachable_revoke driver userId userAgent coll :
    reachable coll ->
    reachable
      (snd (RefreshTokenController.revokeUserRefreshTokensByUserAgent
              driver userId userAgent coll))
| reachable_create driver now data coll :
    reachable coll ->
    reachable
      (snd (RefreshTokenController.createRefreshToken driver now data coll))
| reachable_ttl now coll :
    reachable coll ->
    reachable (RefreshTokenModel.ttlMonitor now coll).

(** Every state of the collection that logins and TTL sweeps alone bring
    about, whatever the configuration, the users and the driver at each
    login. *)
Inductive written_by_logins : Collection -> Prop :=
| written_empty : written_by_logins []
| written_login cfg cmp driver users now req coll :
    written_by_logins coll ->
    written_by_logins (snd (login cfg cmp driver users now req coll))
| written_ttl now coll :
    written_by_logins coll ->
    written_by_logins (RefreshTokenModel.ttlMonitor now coll).

(** A record is live at a time before its [expiresAt]. *)
Definition live_at (t : Z) (d : IRefreshTokenDocument.t) : bool :=
  t <? IRefreshTokenDocument.expiresAt d.

(** Number of stored records of one (user, client-context) pair. *)
Definition records_of (uid : ObjectId) (ua : string) (coll : Collection)
  : list IRefreshTokenDocument.t :=
  List.filter
    (fun d =>
       (if string_dec (IRefreshTokenDocument.userId d) uid
        then true else false)
       && (if string_dec (IRefreshTokenDocument.userAgent d) ua
           then true else false))
    coll.

(** The live records of one (user, client-context) pair at a time. *)
Definition live_records_of (uid : ObjectId) (ua : string) (t : Z)
           (coll : Collection) : list IRefreshTokenDocument.t :=
  List.filter (live_at t) (records_of uid ua coll).

(** The records [revokeUserRefreshTokensByUserAgent] is meant to remove. *)
Definition revocable (uid : ObjectId) (ua : string)
           (d : IRefreshTokenDocument.t) : Prop :=
  IRefreshTokenDocument.userId d = uid
  \/ IRefreshTokenDocument.userAgent d = ua.

(** The two uniqueness properties a collection may have. *)
Definition userAgent_unique (coll : Collection) : Prop :=
  NoDup (map IRefreshTokenDocument.userAgent coll).

Definition user_and_userAgent_unique (coll : Collection) : Prop :=
  NoDup (map (fun d => (IRefreshTokenDocument.userId d,
                        IRefreshTokenDocument.userAgent d)) coll).

(** The principal [login] builds from a user record. *)
Definition principal_of (u : IUserDocument.t) : IPayload.t :=
  IPayload.mk (IUserDocument.id u) (IUserDocument.full_name u)
    (IUserDocument.role u) (IUserDocument.permissions u).

(** The refresh record [login] asks the store to create. *)
Definition refresh_record (cfg : Configuration.t) (now : Z)
           (u : IUserDocument.t) (token : TokenString) (ua : string)
  : IRefreshToken.t :=
  IRefreshToken.mk (IUserDocument._id u) token
    (now + Configuration.REFRESH_TOKEN_EXPIRES_IN cfg) ua.

(* ===================================================================== *)
(** ** A concrete deployment, used by the examples                        *)
(* ===================================================================== *)

Module Sample.
(** One hour for access tokens, one week for refresh tokens. *)
Definition configuration : Configuration.t :=
  Configuration.mk "access-secret" 3600 "refresh-secret" 604800.

(** A stand-in for the hash comparison: the stored hash is the password
    with a fixed prefix. *)
Definition comparePassword (password hashed : string) : bool :=
  if string_dec ("bcrypt:" ++ password)%string hashed then true else false.

Definition testUser : RegisterDTO.t :=
  RegisterDTO.mk "testuser@gmail.com" "Test User" "bcrypt:testuser123?".

Definition users : list IUserDocument.t :=
  [UserModel.new "66f0c0ffee00000000000001" testUser].

Definition loginRequest : LoginRequest.t :=
  LoginRequest.mk (Some "testuser@gmail.com") (Some "testuser123?")
    (Some "Jest").

Definition testPayload : IPayload.t :=
  IPayload.mk "66f0c0ffee00000000000001" "Test User" USER 1.

(** A user promoted in the database by editing [role] only. *)
Definition promoted : IUserDocument.t :=
  IUserDocument.mk "66f0c0ffee00000000000002" "root@gmail.com" true
    "Site Admin" "bcrypt:s3cretPass!" ""
    "http://localhost:8080/images/default_avatar.jpeg" 0 0
    ADMIN PermissionsBitfield.DEFAULT None.

Definition promotedLogin : LoginRequest.t :=
  LoginRequest.mk (Some "root@gmail.com") (Some "s3cretPass!")
    (Some "Firefox").

(** The refresh token a login answered with. *)
Definition refresh_token_of (o : Outcome ITokenResponse.t)
  : option TokenString :=
  match o with
  | res_status_json _ body => Some (ITokenResponse.refresh_token body)
  | next _ => None
  end.

(** The access token a login answered with. *)
Definition access_token_of (o : Outcome ITokenResponse.t)
  : option TokenString :=
  match o with
  | res_status_json _ body => Some (ITokenResponse.access_token body)
  | next _ => None
  end.

(** The test suite's scenario: the same user logs in twice from the same
    client, half a second apart, on an initially empty collection. *)
Definition firstLogin :=
  login configuration comparePassword Driver.healthy users
    1000000 loginRequest [].

Definition secondLogin :=
  login configuration comparePassword Driver.healthy users
    1000500 loginRequest (snd firstLogin).

(** A refresh request carrying the first login's refresh token. *)
Definition refreshWithFirstToken : RefreshRequest.t :=
  RefreshRequest.mk (refresh_token_of (fst firstLogin)) (Some "Jest")
    testPayload.

(** A driver whose [save] is rejected. *)
Definition saveDown : Driver.t := Driver.mk false true false.

(** A driver whose [deleteMany] is rejected. *)
Definition deleteDown : Driver.t := Driver.mk true false false.

(** Two sessions of one user, on two clients. *)
Definition twoSessions : Collection :=
  [IRefreshTokenDocument.mk "66f0c0ffee00000000000001" (NotJws "t1")
     "Jest" 5000 1000;
   IRefreshTokenDocument.mk "66f0c0ffee00000000000001" (NotJws "t2")
     "Firefox" 6000 2000;
   IRefreshTokenDocument.mk "66f0c0ffee00000000000002" (NotJws "t3")
     "Safari" 7000 3000].
End Sample.

(* ===================================================================== *)
(** ** A concrete environment, used by the examples                       *)
(* ===================================================================== *)

Module Deployment.
(** The value of a string of decimal digits. *)
Fixpoint digits_value (acc : Z) (s : string) : option Z :=
  match s with
  | EmptyString => Some acc
  | String c rest =>
      let n := Z.of_nat (Ascii.nat_of_ascii c) in
      if (48 <=? n) && (n <=? 57)
      then digits_value (10 * acc + (n - 48)) rest
      else None
  end.

(** A stand-in for [Number] that reads the plain decimal numerals. *)
Definition Number (s : string) : option Z := digits_value 0 s.

(** The variables of an environment file. *)
Definition variables : list (string * string) :=
  [("NODE_ENV", "test"); ("PORT", "8080");
   ("ALLOW_LIST", "http://localhost:3000,http://localhost:5173");
   ("API_VERSION", "1");
   ("MONGO_CONNECTION_URI", "mongodb://localhost:27017/");
   ("MONGO_DATABASE_NAME", "blog"); ("SALT_ROUNDS", "10");
   ("SECRET_KEY", "access-secret"); ("EXPIRES_IN", "3600");
   ("REFRESH_TOKEN_SECRET_KEY", "refresh-secret");
   ("REFRESH_TOKEN_EXPIRES_IN", "604800")].

Definition env : ProcessEnv :=
  fun variable =>
    match List.find
            (fun entry => if string_dec (fst entry) variable
                          then true else false)
            variables with
    | Some entry => Some (snd entry)
    | None => None
    end.

(** What that environment loads to. *)
Definition loaded : LoadedConfiguration.t :=
  LoadedConfiguration.mk (Some "test") 8080
    ["http://localhost:3000"; "http://localhost:5173"] 1
    "mongodb://localhost:27017/" "blog" 10
    "access-secret" 3600 "refresh-secret" 604800.

(** A stand-in for the hashing primitive, matching
    [Sample.comparePassword]. *)
Definition hashPassword (password : string) : option string :=
  Some ("bcrypt:" ++ password)%string.
End Deployment.

(* ===================================================================== *)
(** * Properties                                                          *)
(* ===================================================================== *)

(** ** Permission Model *)

(** On the table's constants the reduction is the plain bitwise OR. *)
Lemma calculatePermissions_lor (role : RoleNames) :
  calculatePermissions role = fold_right Z.lor 0 (rolePermissions role).
Proof. destruct role; reflexivity. Qed.

Lemma calculatePermissions_values :
  calculatePermissions USER = 1
  /\ calculatePermissions MODERATOR = 3
  /\ calculatePermissions ADMIN = 7.
Proof. repeat split; reflexivity. Qed.

(** C9.  For each of the three role names, the bitfield the Permission
    Model computes has bit 0, the baseline capability [DEFAULT], set. *)
Theorem calculatePermissions_includes_baseline (role : RoleNames) :
  Z.testbit (calculatePermissions role) 0 = true
  /\ Z.land (calculatePermissions role) PermissionsBitfield.DEFAULT
     = PermissionsBitfield.DEFAULT.
Proof. destruct role; split; reflexivity. Qed.

(** ** Credential Codec *)

Lemma sign_Some now payload secret expiresIn :
  secret <> "" ->
  jwt.sign now payload secret expiresIn
  = Some (Jws (JwtClaims.mk payload (now / 1000) (now / 1000 + expiresIn))
              (HS256 secret
                 (JwtClaims.mk payload (now / 1000)
                    (now / 1000 + expiresIn)))).
Proof.
  intros Hkey. unfold jwt.sign.
  destruct (string_dec secret ""); [contradiction | reflexivity].
Qed.

Lemma sign_inv now payload secret expiresIn token :
  jwt.sign now payload secret expiresIn = Some token ->
  secret <> ""
  /\ token
     = Jws (JwtClaims.mk payload (now / 1000) (now / 1000 + expiresIn))
           (HS256 secret
              (JwtClaims.mk payload (now / 1000)
                 (now / 1000 + expiresIn))).
Proof.
  unfold jwt.sign. destruct (string_dec secret ""); [discriminate |].
  intros H; inversion H; auto.
Qed.

(** Verification of a token under the key that signed it only depends on
    the clock. *)
Lemma verify_signed now secret claims :
  secret <> "" ->
  jwt.verify now (Jws claims (HS256 secret claims)) secret
  = if JwtClaims.exp claims <=? now / 1000 then None else Some claims.
Proof.
  intros Hkey. unfold jwt.verify.
  destruct (string_dec secret ""); [contradiction |].
  destruct (Signature_eq_dec _ _) as [_ | Hne];
    [reflexivity | now destruct Hne].
Qed.

(** Verification under any other key fails. *)
Lemma verify_other_key now secret secret' claims :
  secret <> secret' ->
  jwt.verify now (Jws claims (HS256 secret claims)) secret' = None.
Proof.
  intros Hne. unfold jwt.verify.
  destruct (string_dec secret' ""); [reflexivity |].
  destruct (Signature_eq_dec _ _) as [Heq | _]; [| reflexivity].
  inversion Heq; contradiction.
Qed.

(** The clock in milliseconds against an expiry in seconds. *)
Lemma seconds_before (t e : Z) : t / 1000 < e <-> t < 1000 * e.
Proof.
  split; intros H.
  - pose proof (Z.mul_div_le t 1000 ltac:(lia)).
    pose proof (Z.mod_pos_bound t 1000 ltac:(lia)).
    pose proof (Z.div_mod t 1000 ltac:(lia)). lia.
  - apply Z.div_lt_upper_bound; lia.
Qed.

(** C7.  With a non-empty access secret, issuing an access token for a
    principal [p] succeeds, and verifying that token against the access
    secret gives back claims whose principal fields are [p] at every time
    before the token's expiry ([exp] seconds, i.e. [1000 * exp] on the
    millisecond clock), and the invalid outcome at every time from the
    expiry on. *)
Theorem access_token_round_trip
        (cfg : Configuration.t) (p : IPayload.t) (now : Z)
        (Hkey : Configuration.SECRET_KEY cfg <> "") :
  exists res claims,
    generateAccessToken cfg now p = Some res
    /\ jwt.decode (ITokenResult.accessToken res) = Some claims
    /\ JwtClaims.exp claims = now / 1000 + Configuration.EXPIRES_IN cfg
    /\ (forall t, t < 1000 * JwtClaims.exp claims ->
          exists decoded,
            verifyAccessToken cfg t (ITokenResult.accessToken res)
            = Some decoded
            /\ JwtClaims.payload decoded = p)
    /\ (forall t, 1000 * JwtClaims.exp claims <= t ->
          verifyAccessToken cfg t (ITokenResult.accessToken res) = None).
Proof.
  unfold generateAccessToken, verifyAccessToken, verifyToken.
  rewrite (sign_Some now p _ (Configuration.EXPIRES_IN cfg) Hkey).
  eexists; eexists. split; [reflexivity |].
  split; [reflexivity |]. split; [reflexivity |].
  cbn [ITokenResult.accessToken JwtClaims.exp].
  split; intros t Ht.
  - rewrite (verify_signed t _ _ Hkey).
    cbn [ITokenResult.accessToken JwtClaims.exp].
    apply seconds_before in Ht.
    destruct (Z.leb_spec (now / 1000 + Configuration.EXPIRES_IN cfg)
                (t / 1000)); [lia |].
    eexists; split; reflexivity.
  - rewrite (verify_signed t _ _ Hkey).
    cbn [ITokenResult.accessToken JwtClaims.exp].
    destruct (Z.leb_spec (now / 1000 + Configuration.EXPIRES_IN cfg)
                (t / 1000)) as [| Hlt]; [reflexivity |].
    apply seconds_before in Hlt. lia.
Qed.

Lemma access_token_round_trip_witness :
  Configuration.SECRET_KEY Sample.configuration <> ""
  /\ exists res claims,
      generateAccessToken Sample.configuration 1000000 Sample.testPayload
      = Some res
      /\ jwt.decode (ITokenResult.accessToken res) = Some claims
      /\ JwtClaims.exp claims
         = 1000000 / 1000 + Configuration.EXPIRES_IN Sample.configuration
      /\ (forall t, t < 1000 * JwtClaims.exp claims ->
            exists decoded,
              verifyAccessToken Sample.configuration t
                (ITokenResult.accessToken res)
              = Some decoded
              /\ JwtClaims.payload decoded = Sample.testPayload)
      /\ (forall t, 1000 * JwtClaims.exp claims <= t ->
            verifyAccessToken Sample.configuration t
              (ITokenResult.accessToken res) = None).
Proof.
  split; [discriminate |].
  apply (access_token_round_trip Sample.configuration Sample.testPayload
           1000000).
  discriminate.
Defined.

(** C8.  When the two configured secrets differ, a token issued with the
    access secret is invalid for [verifyRefreshToken], and a token issued
    with the refresh secret is invalid for [verifyAccessToken], for every
    principal and at every time. *)
Theorem secret_isolation
        (cfg : Configuration.t) (p : IPayload.t) (now t : Z)
        (Hdistinct : Configuration.SECRET_KEY cfg
                     <> Configuration.REFRESH_TOKEN_SECRET_KEY cfg) :
  (forall res,
      generateAccessToken cfg now p = Some res ->
      verifyRefreshToken cfg t (ITokenResult.accessToken res) = None)
  /\ (forall res,
         generateRefreshToken cfg now p = Some res ->
         verifyAccessToken cfg t (IRefreshTokenResult.refreshToken res)
         = None).
Proof.
  unfold generateAccessToken, generateRefreshToken,
    verifyRefreshToken, verifyAccessToken, verifyToken.
  split; intros res Hgen.
  - destruct (jwt.sign now p _ _) as [token |] eqn:Hsign; [| discriminate].
    inversion Hgen; subst; clear Hgen. simpl.
    apply sign_inv in Hsign as [_ ->].
    rewrite verify_other_key; [reflexivity | assumption].
  - destruct (jwt.sign now p _ _) as [token |] eqn:Hsign; [| discriminate].
    inversion Hgen; subst; clear Hgen. simpl.
    apply sign_inv in Hsign as [_ ->].
    rewrite verify_other_key; [reflexivity | congruence].
Qed.

Lemma secret_isolation_witness :
  Configuration.SECRET_KEY Sample.configuration
  <> Configuration.REFRESH_TOKEN_SECRET_KEY Sample.configuration
  /\ (exists res,
         generateAccessToken Sample.configuration 1000000 Sample.testPayload
         = Some res
         /\ verifyRefreshToken Sample.configuration 1000200
              (ITokenResult.accessToken res) = None)
  /\ (exists res,
         generateRefreshToken Sample.configuration 1000000 Sample.testPayload
         = Some res
         /\ verifyAccessToken Sample.configuration 1000200
              (IRefreshTokenResult.refreshToken res) = None).
Proof.
  assert (Hd : Configuration.SECRET_KEY Sample.configuration
               <> Configuration.REFRESH_TOKEN_SECRET_KEY Sample.configuration)
    by discriminate.
  split; [exact Hd |].
  destruct (secret_isolation Sample.configuration Sample.testPayload
              1000000 1000200 Hd)
    as [Ha Hr].
  split; eexists; (split; [reflexivity |]).
  - apply Ha. reflexivity.
  - apply Hr. reflexivity.
Defined.

(** ** Refresh Session Store *)

Section ListFacts.
Context {A B : Type}.

Lemma NoDup_map_filter (f : A -> B) (g : A -> bool) (l : list A) :
  NoDup (map f l) -> NoDup (map f (List.filter g l)).
Proof.
  induction l as [| a l IH]; simpl; intros H; [constructor |].
  inversion H as [| ? ? Hnotin Hnodup]; subst.
  destruct (g a); simpl; auto.
  constructor; auto.
  intros Hin. apply Hnotin.
  apply in_map_iff in Hin as [x [Hx Hin]].
  apply in_map_iff. exists x. split; [assumption |].
  apply filter_In in Hin. tauto.
Qed.

Lemma NoDup_map_snoc (f : A -> B) (l : list A) (a : A) :
  NoDup (map f l) -> ~ In (f a) (map f l) -> NoDup (map f (l ++ [a])).
Proof.
  induction l as [| x l IH]; simpl; intros H Hnotin.
  - constructor; [intros [] | constructor].
  - inversion H as [| ? ? Hx Hl]; subst.
    constructor.
    + rewrite map_app, in_app_iff. simpl. intros [Hin | [Heq | []]].
      * contradiction.
      * apply Hnotin. left. congruence.
    + apply IH; [assumption |]. intros Hin. apply Hnotin. now right.
Qed.

Lemma filter_none (g : A -> bool) (l : list A) :
  (forall x, In x l -> g x = false) -> List.filter g l = [].
Proof.
  induction l as [| a l IH]; simpl; intros H; [reflexivity |].
  rewrite (H a) by now left. apply IH. intros x Hx. apply H. now right.
Qed.
End ListFacts.

Lemma or_userId_userAgent_spec uid ua d :
  RefreshTokenModel.or_userId_userAgent uid ua d = true
  <-> revocable uid ua d.
Proof.
  unfold RefreshTokenModel.or_userId_userAgent, revocable.
  destruct (string_dec (IRefreshTokenDocument.userId d) uid);
    destruct (string_dec (IRefreshTokenDocument.userAgent d) ua);
    simpl; intuition congruence.
Qed.

Lemma refreshToken_and_userAgent_spec token ua d :
  RefreshTokenModel.refreshToken_and_userAgent token ua d = true
  <-> IRefreshTokenDocument.refreshToken d = token
      /\ IRefreshTokenDocument.userAgent d = ua.
Proof.
  unfold RefreshTokenModel.refreshToken_and_userAgent.
  destruct (TokenString_eq_dec (IRefreshTokenDocument.refreshToken d) token);
    destruct (string_dec (IRefreshTokenDocument.userAgent d) ua);
    simpl; intuition congruence.
Qed.

Lemma userAgent_taken_spec ua coll :
  RefreshTokenModel.userAgent_taken ua coll = true
  <-> In ua (map IRefreshTokenDocument.userAgent coll).
Proof.
  unfold RefreshTokenModel.userAgent_taken.
  rewrite existsb_exists, in_map_iff.
  split; intros [d [H1 H2]]; exists d.
  - destruct (string_dec (IRefreshTokenDocument.userAgent d) ua);
      [tauto | discriminate].
  - split; [assumption |].
    destruct (string_dec (IRefreshTokenDocument.userAgent d) ua);
      [reflexivity | contradiction].
Qed.

(** What the revocation does to the collection, by driver outcome. *)
Lemma revoke_eq driver uid ua coll :
  RefreshTokenController.revokeUserRefreshTokensByUserAgent
    driver uid ua coll
  = if Driver.deleteMany_rejects driver then (false, coll)
    else
      (0 <? Z.of_nat
              (List.length
                 (List.filter
                    (RefreshTokenModel.or_userId_userAgent uid ua) coll)),
       List.filter
         (fun d => negb (RefreshTokenModel.or_userId_userAgent uid ua d))
         coll).
Proof.
  unfold RefreshTokenController.revokeUserRefreshTokensByUserAgent,
    RefreshTokenModel.deleteMany.
  destruct (Driver.deleteMany_rejects driver); reflexivity.
Qed.

(** What the creation does to the collection: it either leaves it as it is
    or appends one document built from the data. *)
Lemma create_cases driver now data coll :
  let doc :=
    IRefreshTokenDocument.mk
      (IRefreshToken.userId data) (IRefreshToken.refreshToken data)
      (IRefreshToken.userAgent data) (IRefreshToken.expiresAt data) now in
  (RefreshTokenController.createRefreshToken driver now data coll
   = (None, coll)
   /\ (Driver.save_rejects driver = true
       \/ RefreshTokenModel.validates data = false
       \/ In (IRefreshToken.userAgent data)
             (map IRefreshTokenDocument.userAgent coll)))
  \/ (RefreshTokenController.createRefreshToken driver now data coll
      = (Some doc, coll ++ [doc])
      /\ Driver.save_rejects driver = false
      /\ RefreshTokenModel.validates data = true
      /\ ~ In (IRefreshToken.userAgent data)
              (map IRefreshTokenDocument.userAgent coll)).
Proof.
  intros doc.
  unfold RefreshTokenController.createRefreshToken, RefreshTokenModel.save.
  destruct (Driver.save_rejects driver); [left; auto |].
  destruct (RefreshTokenModel.validates data); simpl; [| left; auto].
  destruct (RefreshTokenModel.userAgent_taken _ coll) eqn:Htaken.
  - left. split; [reflexivity |]. right; right.
    now apply userAgent_taken_spec.
  - right. repeat split; try reflexivity.
    intros Hin. apply userAgent_taken_spec in Hin. congruence.
Qed.

(** C6 (as the code has it).  When the delete is not rejected,
    [revokeUserRefreshTokensByUserAgent] removes exactly the records whose
    owner is [uid] or whose client-context is [ua]: the survivors are the
    other records, in their order, and the number removed is the number of
    such records.  What it returns is a boolean, [true] exactly when at
    least one record was removed. *)
Theorem revoke_deletes_user_or_context
        (driver : Driver.t) (uid : ObjectId) (ua : string)
        (coll : Collection)
        (Hok : Driver.deleteMany_rejects driver = false) :
  let result :=
    fst (RefreshTokenController.revokeUserRefreshTokensByUserAgent
           driver uid ua coll) in
  let coll' :=
    snd (RefreshTokenController.revokeUserRefreshTokensByUserAgent
           driver uid ua coll) in
  let revoked := List.filter
                   (RefreshTokenModel.or_userId_userAgent uid ua) coll in
  (forall d, In d coll' <-> In d coll /\ ~ revocable uid ua d)
  /\ (forall d, In d revoked <-> In d coll /\ revocable uid ua d)
  /\ coll'
     = List.filter
         (fun d => negb (RefreshTokenModel.or_userId_userAgent uid ua d))
         coll
  /\ (List.length coll' + List.length revoked = List.length coll)%nat
  /\ result = (0 <? Z.of_nat (List.length revoked)).
Proof.
  rewrite revoke_eq, Hok. cbn [fst snd].
  split; [| split; [| split; [reflexivity | split; [| reflexivity]]]].
  - intros d. rewrite filter_In, negb_true_iff.
    rewrite <- or_userId_userAgent_spec.
    destruct (RefreshTokenModel.or_userId_userAgent uid ua d);
      intuition congruence.
  - intros d. rewrite filter_In, or_userId_userAgent_spec. reflexivity.
  - rewrite Nat.add_comm. apply filter_length.
Qed.

Lemma revoke_deletes_user_or_context_witness :
  Driver.deleteMany_rejects Driver.healthy = false
  /\ snd (RefreshTokenController.revokeUserRefreshTokensByUserAgent
            Driver.healthy "66f0c0ffee00000000000001" "Safari"
            Sample.twoSessions)
     = []
  /\ fst (RefreshTokenController.revokeUserRefreshTokensByUserAgent
            Driver.healthy "66f0c0ffee00000000000001" "Safari"
            Sample.twoSessions)
     = (0 <? Z.of_nat
               (List.length
                  (List.filter
                     (RefreshTokenModel.or_userId_userAgent
                        "66f0c0ffee00000000000001" "Safari")
                     Sample.twoSessions))).
Proof.
  split; [reflexivity |]. split; [reflexivity |].
  apply (revoke_deletes_user_or_context Driver.healthy
           "66f0c0ffee00000000000001" "Safari" Sample.twoSessions).
  reflexivity.
Defined.

(** C6 (as stated) fails: with two records of the user stored, the call
    removes both and returns [true], which is not the number 2, not even
    after conversion to a number. *)
Lemma revoke_returns_boolean_not_count :
  let call :=
    RefreshTokenController.revokeUserRefreshTokensByUserAgent
      Driver.healthy "66f0c0ffee00000000000001" "Jest" Sample.twoSessions in
  (List.length Sample.twoSessions - List.length (snd call) = 2)%nat
  /\ fst call = true
  /\ js_Number_of_bool (fst call) <> 2.
Proof. repeat split. discriminate. Qed.

(** A rejected delete is caught: nothing is removed, and the result is the
    same [false] as for a delete that matched nothing. *)
Lemma revoke_rejected driver uid ua coll :
  Driver.deleteMany_rejects driver = true ->
  RefreshTokenController.revokeUserRefreshTokensByUserAgent
    driver uid ua coll
  = (false, coll).
Proof. intros H. rewrite revoke_eq, H. reflexivity. Qed.

Lemma findRefreshToken_eq driver token ua coll :
  RefreshTokenController.findRefreshToken driver token ua coll
  = if Driver.findOne_rejects driver then None
    else List.find
           (RefreshTokenModel.refreshToken_and_userAgent token ua) coll.
Proof.
  unfold RefreshTokenController.findRefreshToken, RefreshTokenModel.findOne.
  destruct (Driver.findOne_rejects driver); reflexivity.
Qed.

(** C3 (as the code has it).  [findRefreshToken] returns a record only when
    that record is stored and matches both the token string and the
    client-context exactly.  It does not look at [expiresAt]: expiry is
    left to the TTL index, so it is only on a collection the TTL monitor
    has just swept that the record returned is sure to be unexpired. *)
Theorem findRefreshToken_exact_match
        (driver : Driver.t) (token : TokenString) (ua : string)
        (coll : Collection) :
  (forall d,
      RefreshTokenController.findRefreshToken driver token ua coll = Some d ->
      In d coll
      /\ IRefreshTokenDocument.refreshToken d = token
      /\ IRefreshTokenDocument.userAgent d = ua)
  /\ (forall now d,
         RefreshTokenController.findRefreshToken driver token ua
           (RefreshTokenModel.ttlMonitor now coll) = Some d ->
         In d coll /\ now < IRefreshTokenDocument.expiresAt d).
Proof.
  split.
  - intros d. rewrite findRefreshToken_eq.
    destruct (Driver.findOne_rejects driver); [discriminate |].
    intros H. apply find_some in H as [Hin Hm].
    apply refreshToken_and_userAgent_spec in Hm. tauto.
  - intros now d. rewrite findRefreshToken_eq.
    destruct (Driver.findOne_rejects driver); [discriminate |].
    intros H. apply find_some in H as [Hin _].
    unfold RefreshTokenModel.ttlMonitor in Hin.
    apply filter_In in Hin as [Hin Hlive].
    apply Z.ltb_lt in Hlive. tauto.
Qed.

Lemma findRefreshToken_exact_match_witness :
  RefreshTokenController.findRefreshToken Driver.healthy (NotJws "t2")
    "Firefox" Sample.twoSessions
  = Some (IRefreshTokenDocument.mk "66f0c0ffee00000000000001" (NotJws "t2")
            "Firefox" 6000 2000)
  /\ IRefreshTokenDocument.userAgent
       (IRefreshTokenDocument.mk "66f0c0ffee00000000000001" (NotJws "t2")
          "Firefox" 6000 2000)
     = "Firefox".
Proof.
  split; [reflexivity |].
  apply (proj1 (findRefreshToken_exact_match Driver.healthy (NotJws "t2")
                  "Firefox" Sample.twoSessions)).
  reflexivity.
Defined.

(** C3 (as stated) fails.  The record the first sample login stores expires at
    1604800 ms.  Five seconds later, before the TTL monitor has run, the
    lookup still returns it, and the refresh flow answers 201. *)
Lemma findRefreshToken_returns_expired_record :
  let coll := snd Sample.firstLogin in
  let lookup_time := 1609800 in
  exists token d,
    Sample.refresh_token_of (fst Sample.firstLogin) = Some token
    /\ reachable coll
    /\ RefreshTokenController.findRefreshToken Driver.healthy token "Jest"
         coll = Some d
    /\ IRefreshTokenDocument.expiresAt d = 1604800
    /\ IRefreshTokenDocument.expiresAt d < lookup_time
    /\ http_status
         (refreshToken Sample.configuration Driver.healthy lookup_time
            Sample.refreshWithFirstToken coll)
       = 201.
Proof.
  cbv zeta. eexists; eexists.
  split; [reflexivity |].
  split.
  - apply (reachable_create Driver.healthy 1000000
             (IRefreshToken.mk "66f0c0ffee00000000000001"
                (Jws (JwtClaims.mk Sample.testPayload 1000 605800)
                   (HS256 "refresh-secret"
                      (JwtClaims.mk Sample.testPayload 1000 605800)))
                1604800 "Jest") []).
    constructor.
  - split; [reflexivity |]. repeat split.
Qed.

(** *** The unique index on [userAgent] *)

Lemma revoke_keeps_unique driver uid ua coll :
  userAgent_unique coll ->
  userAgent_unique
    (snd (RefreshTokenController.revokeUserRefreshTokensByUserAgent
            driver uid ua coll)).
Proof.
  unfold userAgent_unique. intros H. rewrite revoke_eq.
  destruct (Driver.deleteMany_rejects driver); cbn [snd];
    [assumption | now apply NoDup_map_filter].
Qed.

Lemma create_keeps_unique driver now data coll :
  userAgent_unique coll ->
  userAgent_unique
    (snd (RefreshTokenController.createRefreshToken driver now data coll)).
Proof.
  unfold userAgent_unique. intros H.
  destruct (create_cases driver now data coll)
    as [[-> _] | [-> [_ [_ Hfree]]]]; cbn [snd]; [assumption |].
  apply NoDup_map_snoc; assumption.
Qed.

Lemma ttlMonitor_keeps_unique now coll :
  userAgent_unique coll ->
  userAgent_unique (RefreshTokenModel.ttlMonitor now coll).
Proof. unfold userAgent_unique. apply NoDup_map_filter. Qed.

Lemma userAgent_unique_pairs coll :
  userAgent_unique coll -> user_and_userAgent_unique coll.
Proof.
  unfold userAgent_unique, user_and_userAgent_unique.
  induction coll as [| d coll IH]; simpl; intros H; [constructor |].
  inversion H as [| ? ? Hnotin Hnodup]; subst.
  constructor; [| auto].
  intros Hin. apply Hnotin.
  apply in_map_iff in Hin as [x [Hx Hin]].
  apply in_map_iff. exists x. split; [congruence | assumption].
Qed.

(** C10.  In every state of the collection the program can reach, the
    unique index on [userAgent] keeps all stored records on distinct
    client-context strings, whatever their owners: two positions holding
    the same [userAgent] are one position.  This implies uniqueness per
    (user, client-context) pair and is strictly stronger: two users on one
    client-context string have distinct pairs but clash on the index. *)
Theorem userAgent_unique_across_users :
  (forall coll, reachable coll ->
     userAgent_unique coll
     /\ forall i j d1 d2,
         nth_error coll i = Some d1 ->
         nth_error coll j = Some d2 ->
         IRefreshTokenDocument.userAgent d1
         = IRefreshTokenDocument.userAgent d2 ->
         i = j)
  /\ (forall coll, userAgent_unique coll -> user_and_userAgent_unique coll)
  /\ (exists coll,
         user_and_userAgent_unique coll /\ ~ userAgent_unique coll).
Proof.
  split; [| split].
  - intros coll Hreach.
    assert (Hu : userAgent_unique coll).
    { induction Hreach.
      - constructor.
      - now apply revoke_keeps_unique.
      - now apply create_keeps_unique.
      - now apply ttlMonitor_keeps_unique. }
    split; [assumption |].
    intros i j d1 d2 Hi Hj Heq.
    unfold userAgent_unique in Hu.
    apply (proj1 (NoDup_nth_error _) Hu).
    + apply nth_error_Some. rewrite nth_error_map, Hi. discriminate.
    + rewrite !nth_error_map, Hi, Hj. simpl. congruence.
  - apply userAgent_unique_pairs.
  - exists [IRefreshTokenDocument.mk "u1" (NotJws "a") "Jest" 10 0;
            IRefreshTokenDocument.mk "u2" (NotJws "b") "Jest" 10 0].
    split.
    + unfold user_and_userAgent_unique. simpl.
      constructor; [| constructor; [intros [] | constructor]].
      intros [H | []]. discriminate.
    + unfold userAgent_unique. simpl. intros H.
      inversion H as [| ? ? Hnotin _]. apply Hnotin. now left.
Qed.

Lemma userAgent_unique_across_users_witness :
  reachable Sample.twoSessions
  /\ List.length Sample.twoSessions = 3%nat
  /\ userAgent_unique Sample.twoSessions
  /\ (forall i j d1 d2,
         nth_error Sample.twoSessions i = Some d1 ->
         nth_error Sample.twoSessions j = Some d2 ->
         IRefreshTokenDocument.userAgent d1
         = IRefreshTokenDocument.userAgent d2 ->
         i = j)
  /\ RefreshTokenController.createRefreshToken Driver.healthy 4000
       (IRefreshToken.mk "66f0c0ffee00000000000002" (NotJws "t4") 8000
          "Jest")
       Sample.twoSessions
     = (None, Sample.twoSessions).
Proof.
  assert (Hreach : reachable Sample.twoSessions).
  { apply (reachable_create Driver.healthy 3000
             (IRefreshToken.mk "66f0c0ffee00000000000002" (NotJws "t3")
                7000 "Safari")
             [IRefreshTokenDocument.mk "66f0c0ffee00000000000001"
                (NotJws "t1") "Jest" 5000 1000;
              IRefreshTokenDocument.mk "66f0c0ffee00000000000001"
                (NotJws "t2") "Firefox" 6000 2000]).
    apply (reachable_create Driver.healthy 2000
             (IRefreshToken.mk "66f0c0ffee00000000000001" (NotJws "t2")
                6000 "Firefox")
             [IRefreshTokenDocument.mk "66f0c0ffee00000000000001"
                (NotJws "t1") "Jest" 5000 1000]).
    apply (reachable_create Driver.healthy 1000
             (IRefreshToken.mk "66f0c0ffee00000000000001" (NotJws "t1")
                5000 "Jest")
             []).
    constructor. }
  destruct (proj1 userAgent_unique_across_users Sample.twoSessions Hreach)
    as [Hunique Hindex].
  split; [exact Hreach |].
  split; [reflexivity |].
  split; [exact Hunique |].
  split; [exact Hindex | reflexivity].
Defined.

(** The index at work: a second user on the same client-context string
    cannot be stored next to the first. *)
Example unique_index_refuses_second_user :
  RefreshTokenController.createRefreshToken Driver.healthy 1000900
    (IRefreshToken.mk "66f0c0ffee00000000000002" (NotJws "other") 2000000
       "Jest")
    (snd Sample.firstLogin)
  = (None, snd Sample.firstLogin).
Proof. reflexivity. Qed.

(** ** Session Issuance Protocol *)

(** The steps a login that answers (rather than calling [next]) has gone
    through. *)
Lemma login_answer_inv cfg cmp driver users now req coll code body coll' :
  login cfg cmp driver users now req coll
  = (res_status_json code body, coll') ->
  exists email password u access refresh ua,
    truthy (LoginRequest.email req) = Some email
    /\ truthy (LoginRequest.password req) = Some password
    /\ UserController.findByUserEmail users email = Some u
    /\ cmp password (IUserDocument.password u) = true
    /\ generateAccessToken cfg now (principal_of u) = Some access
    /\ generateRefreshToken cfg now (principal_of u) = Some refresh
    /\ truthy (LoginRequest.user_agent req) = Some ua
    /\ code = 201
    /\ body
       = ITokenResponse.mk "Login successful" "success"
           (ITokenResult.accessToken access)
           (ITokenResult.expiresIn access)
           (IRefreshTokenResult.refreshToken refresh)
    /\ coll'
       = snd (RefreshTokenController.createRefreshToken driver now
                (refresh_record cfg now u
                   (IRefreshTokenResult.refreshToken refresh) ua)
                (snd (RefreshTokenController.revokeUserRefreshTokensByUserAgent
                        driver (IUserDocument.id u) ua coll))).
Proof.
  unfold login. fold (principal_of).
  destruct (truthy (LoginRequest.email req)) as [email |];
    [| discriminate].
  destruct (truthy (LoginRequest.password req)) as [password |];
    [| discriminate].
  destruct (UserController.findByUserEmail users email) as [u |] eqn:Hfind;
    [| discriminate].
  change (IPayload.mk (IUserDocument.id u) (IUserDocument.full_name u)
            (IUserDocument.role u) (IUserDocument.permissions u))
    with (principal_of u).
  destruct (cmp password (IUserDocument.password u)) eqn:Hcmp;
    simpl negb; cbv iota; [| discriminate].
  destruct (generateAccessToken cfg now (principal_of u)) as [access |]
    eqn:Haccess; [| discriminate].
  destruct (generateRefreshToken cfg now (principal_of u)) as [refresh |]
    eqn:Hrefresh; [| discriminate].
  destruct (truthy (LoginRequest.user_agent req)) as [ua |];
    [| discriminate].
  destruct (RefreshTokenController.revokeUserRefreshTokensByUserAgent
              driver (IUserDocument.id u) ua coll) as [r1 c1] eqn:Hrev.
  change (IRefreshToken.mk (IUserDocument._id u)
            (IRefreshTokenResult.refreshToken refresh)
            (now + Configuration.REFRESH_TOKEN_EXPIRES_IN cfg) ua)
    with (refresh_record cfg now u
            (IRefreshTokenResult.refreshToken refresh) ua).
  destruct (RefreshTokenController.createRefreshToken driver now _ c1)
    as [r2 c2] eqn:Hcre.
  intros H. inversion H; subst; clear H.
  exists email, password, u, access, refresh, ua.
  rewrite Hrev. cbn [snd]. rewrite Hcre. cbn [snd].
  repeat split; assumption.
Qed.

(** Once both tokens are minted and the client-context is present, login
    answers 201 with the minted pair whatever the two store calls did. *)
Lemma login_answers_regardless_of_store
      cfg cmp driver users now req coll email password u access refresh ua :
  truthy (LoginRequest.email req) = Some email ->
  truthy (LoginRequest.password req) = Some password ->
  UserController.findByUserEmail users email = Some u ->
  cmp password (IUserDocument.password u) = true ->
  generateAccessToken cfg now (principal_of u) = Some access ->
  generateRefreshToken cfg now (principal_of u) = Some refresh ->
  truthy (LoginRequest.user_agent req) = Some ua ->
  fst (login cfg cmp driver users now req coll)
  = res_status_json 201
      (ITokenResponse.mk "Login successful" "success"
         (ITokenResult.accessToken access)
         (ITokenResult.expiresIn access)
         (IRefreshTokenResult.refreshToken refresh)).
Proof.
  intros He Hp Hu Hc Ha Hr Hua. unfold login.
  rewrite He, Hp, Hu, Hc. cbn [negb].
  change (IPayload.mk (IUserDocument.id u) (IUserDocument.full_name u)
            (IUserDocument.role u) (IUserDocument.permissions u))
    with (principal_of u).
  rewrite Ha, Hr, Hua.
  destruct (RefreshTokenController.revokeUserRefreshTokensByUserAgent _ _ _ _).
  destruct (RefreshTokenController.createRefreshToken _ _ _ _).
  reflexivity.
Qed.

(** Login writes to the collection only through the controller. *)
Lemma login_reachable cfg cmp driver users now req coll :
  reachable coll ->
  reachable (snd (login cfg cmp driver users now req coll)).
Proof.
  intros Hreach.
  destruct (login cfg cmp driver users now req coll) as [[err | code body] c]
    eqn:Hlogin.
  - (* every [next] leaves the collection as it was or as the store calls
       left it *)
    revert Hlogin. unfold login.
    repeat match goal with
           | |- context [match ?x with _ => _ end] =>
               lazymatch x with
               | RefreshTokenController.revokeUserRefreshTokensByUserAgent
                   _ _ _ _ => fail
               | RefreshTokenController.createRefreshToken _ _ _ _ => fail
               | _ => destruct x
               end
           end;
      try (intros H; inversion H; subst; assumption).
    destruct (RefreshTokenController.revokeUserRefreshTokensByUserAgent
                _ _ _ _).
    destruct (RefreshTokenController.createRefreshToken _ _ _ _).
    discriminate.
  - apply login_answer_inv in Hlogin
      as (email & password & u & access & refresh & ua & H).
    destruct H as (_ & _ & _ & _ & _ & _ & _ & _ & _ & ->).
    cbn [snd]. apply reachable_create. apply reachable_revoke. assumption.
Qed.

Lemma truthy_Some v s : truthy v = Some s -> truthy (Some s) = Some s.
Proof.
  destruct v as [s' |]; simpl; [| discriminate].
  destruct (string_dec s' ""); [discriminate |].
  intros H; inversion H; subst.
  destruct (string_dec s ""); [contradiction | reflexivity].
Qed.

Lemma find_all_false {A : Type} (f : A -> bool) (l : list A) :
  (forall x, In x l -> f x = false) -> List.find f l = None.
Proof.
  induction l as [| a l IH]; simpl; intros H; [reflexivity |].
  rewrite (H a) by now left. apply IH. intros x Hx. apply H. now right.
Qed.

Lemma generateRefreshToken_inv cfg now p res :
  generateRefreshToken cfg now p = Some res ->
  IRefreshTokenResult.refreshToken res
  = Jws (JwtClaims.mk p (now / 1000)
           (now / 1000 + Configuration.REFRESH_TOKEN_EXPIRES_IN cfg))
        (HS256 (Configuration.REFRESH_TOKEN_SECRET_KEY cfg)
           (JwtClaims.mk p (now / 1000)
              (now / 1000 + Configuration.REFRESH_TOKEN_EXPIRES_IN cfg))).
Proof.
  unfold generateRefreshToken.
  destruct (jwt.sign now p _ _) as [token |] eqn:Hsign; [| discriminate].
  intros H; inversion H; subst; clear H. simpl.
  now apply sign_inv in Hsign as [_ ->].
Qed.

Lemma generateAccessToken_inv cfg now p res :
  generateAccessToken cfg now p = Some res ->
  ITokenResult.accessToken res
  = Jws (JwtClaims.mk p (now / 1000)
           (now / 1000 + Configuration.EXPIRES_IN cfg))
        (HS256 (Configuration.SECRET_KEY cfg)
           (JwtClaims.mk p (now / 1000)
              (now / 1000 + Configuration.EXPIRES_IN cfg))).
Proof.
  unfold generateAccessToken.
  destruct (jwt.sign now p _ _) as [token |] eqn:Hsign; [| discriminate].
  intros H; inversion H; subst; clear H. simpl.
  now apply sign_inv in Hsign as [_ ->].
Qed.

(** With both store calls going through, a login that answers has replaced
    every record of the user or of the client-context by one new record. *)
Lemma login_store_effect
      cfg cmp driver users now req coll code body coll' :
  login cfg cmp driver users now req coll
  = (res_status_json code body, coll') ->
  Driver.deleteMany_rejects driver = false ->
  Driver.save_rejects driver = false ->
  Date_valid (now + Configuration.REFRESH_TOKEN_EXPIRES_IN cfg) = true ->
  exists email u ua,
    truthy (LoginRequest.email req) = Some email
    /\ UserController.findByUserEmail users email = Some u
    /\ truthy (LoginRequest.user_agent req) = Some ua
    /\ coll'
       = List.filter
           (fun d =>
              negb (RefreshTokenModel.or_userId_userAgent
                      (IUserDocument.id u) ua d))
           coll
         ++ [IRefreshTokenDocument.mk (IUserDocument._id u)
               (ITokenResponse.refresh_token body) ua
               (now + Configuration.REFRESH_TOKEN_EXPIRES_IN cfg) now].
Proof.
  intros Hlogin Hdel Hsave Hdate.
  apply login_answer_inv in Hlogin
    as (email & password & u & access & refresh & ua & H).
  destruct H as (He & _ & Hu & _ & _ & Hr & Hua & _ & -> & ->).
  exists email, u, ua. repeat (split; [assumption |]).
  rewrite revoke_eq, Hdel. cbn [snd].
  destruct (create_cases driver now
              (refresh_record cfg now u
                 (IRefreshTokenResult.refreshToken refresh) ua)
              (List.filter
                 (fun d =>
                    negb (RefreshTokenModel.or_userId_userAgent
                            (IUserDocument.id u) ua d))
                 coll))
    as [[_ Hwhy] | [-> _]]; [exfalso | reflexivity].
  destruct Hwhy as [Hrej | [Hval | Htaken]].
  - congruence.
  - unfold RefreshTokenModel.validates, refresh_record in Hval.
    cbn [IRefreshToken.refreshToken IRefreshToken.userAgent
           IRefreshToken.expiresAt] in Hval.
    rewrite (generateRefreshToken_inv _ _ _ _ Hr) in Hval.
    rewrite (truthy_Some _ _ Hua) in Hval. cbn [token_truthy] in Hval.
    congruence.
  - cbn [refresh_record IRefreshToken.userAgent] in Htaken.
    apply in_map_iff in Htaken as [d [Hd Hin]].
    apply filter_In in Hin as [_ Hkeep].
    apply negb_true_iff in Hkeep.
    assert (Hrev : revocable (IUserDocument.id u) ua d) by now right.
    apply or_userId_userAgent_spec in Hrev. congruence.
Qed.

(** C1 (what the code does).  Both store calls are caught and their results
    dropped.  With [save] rejected, the sample login still answers 201 with
    the minted pair while nothing is stored; with [deleteMany] rejected on
    the collection the first login left, the unique index then refuses the
    new record, and the login answers 201 all the same.  In both cases the
    refresh token handed out is one the refresh flow turns down. *)
Theorem login_answers_201_when_store_fails :
  let create_failed :=
    login Sample.configuration Sample.comparePassword Sample.saveDown
      Sample.users 1000000 Sample.loginRequest [] in
  let revoke_failed :=
    login Sample.configuration Sample.comparePassword Sample.deleteDown
      Sample.users 1005000 Sample.loginRequest (snd Sample.firstLogin) in
  (http_status (fst create_failed) = 201
   /\ snd create_failed = []
   /\ exists token,
       Sample.refresh_token_of (fst create_failed) = Some token
       /\ refreshToken Sample.configuration Driver.healthy 1002000
            (RefreshRequest.mk (Some token) (Some "Jest") Sample.testPayload)
            (snd create_failed)
          = next (BadRequestError "Invalid refresh token."))
  /\ (http_status (fst revoke_failed) = 201
      /\ snd revoke_failed = snd Sample.firstLogin
      /\ exists token,
          Sample.refresh_token_of (fst revoke_failed) = Some token
          /\ refreshToken Sample.configuration Driver.healthy 1006000
               (RefreshRequest.mk (Some token) (Some "Jest")
                  Sample.testPayload)
               (snd revoke_failed)
             = next (BadRequestError "Invalid refresh token.")).
Proof.
  cbv zeta. split; (split; [reflexivity |]); (split; [reflexivity |]);
    eexists; split; reflexivity.
Qed.

(** C4 (what the code does).  The sample login at 1000000 ms with a
    configured refresh lifetime of 604800 stores a record whose [expiresAt]
    is 1000000 + 604800 ms, the lifetime having been added to the
    millisecond clock as it is; creation time plus 604800 seconds would be
    1000000 + 604800000 ms, which is also where the token's own [exp]
    (605800 s) lies. *)
Theorem login_record_expiry_adds_lifetime_as_milliseconds :
  exists d claims,
    snd Sample.firstLogin = [d]
    /\ IRefreshTokenDocument.createdAt d = 1000000
    /\ Configuration.REFRESH_TOKEN_EXPIRES_IN Sample.configuration = 604800
    /\ IRefreshTokenDocument.expiresAt d = 1000000 + 604800
    /\ IRefreshTokenDocument.expiresAt d
       <> IRefreshTokenDocument.createdAt d + 1000 * 604800
    /\ jwt.decode (IRefreshTokenDocument.refreshToken d) = Some claims
    /\ 1000 * JwtClaims.exp claims = 1000 * (1000000 / 1000) + 1000 * 604800.
Proof.
  eexists; eexists. split; [reflexivity |].
  repeat split. discriminate.
Qed.

(** The same for every login whose store calls go through. *)
Lemma login_record_expiresAt
      cfg cmp driver users now req coll code body coll' :
  login cfg cmp driver users now req coll
  = (res_status_json code body, coll') ->
  Driver.deleteMany_rejects driver = false ->
  Driver.save_rejects driver = false ->
  Date_valid (now + Configuration.REFRESH_TOKEN_EXPIRES_IN cfg) = true ->
  exists d,
    In d coll'
    /\ IRefreshTokenDocument.refreshToken d
       = ITokenResponse.refresh_token body
    /\ IRefreshTokenDocument.createdAt d = now
    /\ IRefreshTokenDocument.expiresAt d
       = now + Configuration.REFRESH_TOKEN_EXPIRES_IN cfg.
Proof.
  intros Hlogin Hdel Hsave Hdate.
  destruct (login_store_effect _ _ _ _ _ _ _ _ _ _ Hlogin Hdel Hsave Hdate)
    as (email & u & ua & _ & _ & _ & ->).
  eexists. split; [apply in_app_iff; right; left; reflexivity |].
  repeat split.
Qed.

Lemma records_of_after_login uid ua coll doc :
  IRefreshTokenDocument.userId doc = uid ->
  IRefreshTokenDocument.userAgent doc = ua ->
  records_of uid ua
    (List.filter
       (fun d => negb (RefreshTokenModel.or_userId_userAgent uid ua d)) coll
     ++ [doc])
  = [doc].
Proof.
  intros Huid Hua. unfold records_of. rewrite filter_app.
  rewrite filter_none.
  - simpl. rewrite Huid, Hua.
    destruct (string_dec uid uid); [| contradiction].
    destruct (string_dec ua ua); [reflexivity | contradiction].
  - intros x Hx. apply filter_In in Hx as [_ Hkeep].
    apply negb_true_iff in Hkeep.
    unfold RefreshTokenModel.or_userId_userAgent in Hkeep.
    destruct (string_dec (IRefreshTokenDocument.userId x) uid);
      [discriminate | reflexivity].
Qed.

(** A token that is not the stored one finds nothing on the client-context
    a login has just renewed. *)
Lemma find_superseded_token driver token uid ua coll doc :
  IRefreshTokenDocument.refreshToken doc <> token ->
  RefreshTokenController.findRefreshToken driver token ua
    (List.filter
       (fun d => negb (RefreshTokenModel.or_userId_userAgent uid ua d)) coll
     ++ [doc])
  = None.
Proof.
  intros Hne. rewrite findRefreshToken_eq.
  destruct (Driver.findOne_rejects driver); [reflexivity |].
  apply find_all_false. intros x Hx.
  unfold RefreshTokenModel.refreshToken_and_userAgent.
  apply in_app_iff in Hx as [Hx | [<- | []]].
  - apply filter_In in Hx as [_ Hkeep].
    apply negb_true_iff in Hkeep.
    unfold RefreshTokenModel.or_userId_userAgent in Hkeep.
    destruct (string_dec (IRefreshTokenDocument.userAgent x) ua).
    + rewrite orb_true_r in Hkeep. discriminate.
    + apply andb_false_r.
  - destruct (TokenString_eq_dec (IRefreshTokenDocument.refreshToken doc)
                token); [contradiction | reflexivity].
Qed.

(** The collection after a login is the one before it, or the one the
    revoke and create calls made of it for a user the lookup found. *)
Lemma login_collection_cases cfg cmp driver users now req coll :
  snd (login cfg cmp driver users now req coll) = coll
  \/ exists u refresh ua,
      generateRefreshToken cfg now (principal_of u) = Some refresh
      /\ snd (login cfg cmp driver users now req coll)
         = snd (RefreshTokenController.createRefreshToken driver now
                  (refresh_record cfg now u
                     (IRefreshTokenResult.refreshToken refresh) ua)
                  (snd (RefreshTokenController.revokeUserRefreshTokensByUserAgent
                          driver (IUserDocument.id u) ua coll))).
Proof.
  destruct (login cfg cmp driver users now req coll) as [[err | code body] c]
    eqn:Hlogin.
  - left. revert Hlogin. unfold login.
    repeat match goal with
           | |- context [match ?x with _ => _ end] =>
               lazymatch x with
               | RefreshTokenController.revokeUserRefreshTokensByUserAgent
                   _ _ _ _ => fail
               | RefreshTokenController.createRefreshToken _ _ _ _ => fail
               | _ => destruct x
               end
           end;
      try (intros H; inversion H; subst; reflexivity).
    destruct (RefreshTokenController.revokeUserRefreshTokensByUserAgent
                _ _ _ _).
    destruct (RefreshTokenController.createRefreshToken _ _ _ _).
    discriminate.
  - right. apply login_answer_inv in Hlogin
      as (email & password & u & access & refresh & ua & H).
    destruct H as (_ & _ & _ & _ & _ & Hr & _ & _ & _ & ->).
    exists u, refresh, ua. split; [exact Hr | reflexivity].
Qed.

(** In a collection written by logins, every record holds a token issued
    to its owner. *)
Lemma written_tokens_owned coll :
  written_by_logins coll ->
  forall d, In d coll ->
    exists claims tag,
      IRefreshTokenDocument.refreshToken d = Jws claims tag
      /\ IPayload.id (JwtClaims.payload claims)
         = IRefreshTokenDocument.userId d.
Proof.
  induction 1 as [| cfg cmp driver users now req coll Hw IH
                  | now coll Hw IH]; intros d Hd.
  - destruct Hd.
  - destruct (login_collection_cases cfg cmp driver users now req coll)
      as [Hsame | (u & refresh & ua & Hr & Hnew)].
    + rewrite Hsame in Hd. auto.
    + rewrite Hnew in Hd. clear Hnew.
      destruct (create_cases driver now
                  (refresh_record cfg now u
                     (IRefreshTokenResult.refreshToken refresh) ua)
                  (snd (RefreshTokenController.revokeUserRefreshTokensByUserAgent
                          driver (IUserDocument.id u) ua coll)))
        as [[Hc _] | [Hc _]]; rewrite Hc in Hd; cbn [snd] in Hd.
      * rewrite revoke_eq in Hd.
        destruct (Driver.deleteMany_rejects driver); cbn [snd] in Hd;
          [auto |]. apply filter_In in Hd as [Hd _]. auto.
      * apply in_app_iff in Hd as [Hd | [<- | []]].
        -- rewrite revoke_eq in Hd.
           destruct (Driver.deleteMany_rejects driver); cbn [snd] in Hd;
             [auto |]. apply filter_In in Hd as [Hd _]. auto.
        -- cbn [refresh_record IRefreshToken.userId
                  IRefreshToken.refreshToken
                  IRefreshTokenDocument.refreshToken
                  IRefreshTokenDocument.userId].
           rewrite (generateRefreshToken_inv _ _ _ _ Hr).
           eexists; eexists. split; reflexivity.
  - unfold RefreshTokenModel.ttlMonitor in Hd.
    apply filter_In in Hd as [Hd _]. auto.
Qed.

(** C2 (as the code has it).  Take a login that answered, and a later login
    with the same credentials and client-context whose revoke and create
    calls both succeeded (the driver took them and the expiry is a valid
    Date), on whatever the collection held by then.  Afterwards exactly
    one record is stored for that (user, client-context) pair; it holds
    the second login's refresh token, and with a positive refresh lifetime
    it is live, so exactly one live record exists for the pair.  If the
    two logins fell in different seconds of the token clock, the first
    login's refresh token is refused as an invalid token on that
    client-context; and when the collection the second login ran on was
    written by logins and TTL sweeps, it is refused on every User-Agent (a
    request with no User-Agent at all gets the missing-header error
    instead). *)
Theorem second_login_supersedes_first
        (cfg : Configuration.t) (cmp : string -> string -> bool)
        (users : list IUserDocument.t) (req : LoginRequest.t)
        (driver1 : Driver.t) (now1 : Z) (coll0 : Collection)
        (code1 : Z) (body1 : ITokenResponse.t) (coll1 : Collection)
        (driver2 : Driver.t) (now2 : Z) (coll : Collection)
        (code2 : Z) (body2 : ITokenResponse.t) (coll2 : Collection)
        (Hfirst : login cfg cmp driver1 users now1 req coll0
                  = (res_status_json code1 body1, coll1))
        (Hdel : Driver.deleteMany_rejects driver2 = false)
        (Hsave : Driver.save_rejects driver2 = false)
        (Hdate : Date_valid
                   (now2 + Configuration.REFRESH_TOKEN_EXPIRES_IN cfg)
                 = true)
        (Hsecond : login cfg cmp driver2 users now2 req coll
                   = (res_status_json code2 body2, coll2)) :
  exists email u ua d,
    truthy (LoginRequest.email req) = Some email
    /\ UserController.findByUserEmail users email = Some u
    /\ truthy (LoginRequest.user_agent req) = Some ua
    /\ records_of (IUserDocument._id u) ua coll2 = [d]
    /\ IRefreshTokenDocument.refreshToken d
       = ITokenResponse.refresh_token body2
    /\ (0 < Configuration.REFRESH_TOKEN_EXPIRES_IN cfg ->
        live_records_of (IUserDocument._id u) ua now2 coll2 = [d])
    /\ (now1 / 1000 <> now2 / 1000 ->
        forall driver3 now3 principal,
          refreshToken cfg driver3 now3
            (RefreshRequest.mk (Some (ITokenResponse.refresh_token body1))
               (Some ua) principal)
            coll2
          = next (BadRequestError "Invalid refresh token."))
    /\ (written_by_logins coll ->
        now1 / 1000 <> now2 / 1000 ->
        forall driver3 now3 rreq,
          RefreshRequest.refresh_token rreq
          = Some (ITokenResponse.refresh_token body1) ->
          refreshToken cfg driver3 now3 rreq coll2
          = next (BadRequestError "Invalid refresh token.")
          \/ (truthy (RefreshRequest.user_agent rreq) = None
              /\ refreshToken cfg driver3 now3 rreq coll2
                 = next (BadRequestError "user agent missing"))).
Proof.
  destruct (login_store_effect _ _ _ _ _ _ _ _ _ _ Hsecond Hdel Hsave Hdate)
    as (email & u & ua & He & Hu & Hua & Hcoll2).
  apply login_answer_inv in Hfirst
    as (email1 & password1 & u1 & access1 & refresh1 & ua1 & He1 & _ & Hu1
        & _ & _ & Hr1 & _ & _ & Hbody1 & _).
  apply login_answer_inv in Hsecond
    as (email2 & password2 & u2 & access2 & refresh2 & ua2 & He2 & _ & Hu2
        & _ & _ & Hr2 & _ & _ & Hbody2 & _).
  assert (email1 = email) by congruence. subst email1.
  assert (email2 = email) by congruence. subst email2.
  assert (u1 = u) by congruence. subst u1.
  assert (u2 = u) by congruence. subst u2.
  assert (Htok1 : ITokenResponse.refresh_token body1
                  = Jws (JwtClaims.mk (principal_of u) (now1 / 1000)
                           (now1 / 1000
                            + Configuration.REFRESH_TOKEN_EXPIRES_IN cfg))
                        (HS256 (Configuration.REFRESH_TOKEN_SECRET_KEY cfg)
                           (JwtClaims.mk (principal_of u) (now1 / 1000)
                              (now1 / 1000
                               + Configuration.REFRESH_TOKEN_EXPIRES_IN
                                   cfg)))).
  { rewrite Hbody1. cbn [ITokenResponse.refresh_token].
    apply (generateRefreshToken_inv _ _ _ _ Hr1). }
  assert (Htok2 : ITokenResponse.refresh_token body2
                  = Jws (JwtClaims.mk (principal_of u) (now2 / 1000)
                           (now2 / 1000
                            + Configuration.REFRESH_TOKEN_EXPIRES_IN cfg))
                        (HS256 (Configuration.REFRESH_TOKEN_SECRET_KEY cfg)
                           (JwtClaims.mk (principal_of u) (now2 / 1000)
                              (now2 / 1000
                               + Configuration.REFRESH_TOKEN_EXPIRES_IN
                                   cfg)))).
  { rewrite Hbody2. cbn [ITokenResponse.refresh_token].
    apply (generateRefreshToken_inv _ _ _ _ Hr2). }
  assert (Hne : now1 / 1000 <> now2 / 1000 ->
                ITokenResponse.refresh_token body2
                <> ITokenResponse.refresh_token body1).
  { intros Hsec. rewrite Htok1, Htok2. intros Heq. inversion Heq.
    congruence. }
  assert (Hrecords :
            records_of (IUserDocument._id u) ua coll2
            = [IRefreshTokenDocument.mk (IUserDocument._id u)
                 (ITokenResponse.refresh_token body2) ua
                 (now2 + Configuration.REFRESH_TOKEN_EXPIRES_IN cfg) now2]).
  { rewrite Hcoll2. apply records_of_after_login; reflexivity. }
  exists email, u, ua.
  exists (IRefreshTokenDocument.mk (IUserDocument._id u)
            (ITokenResponse.refresh_token body2) ua
            (now2 + Configuration.REFRESH_TOKEN_EXPIRES_IN cfg) now2).
  repeat (split; [assumption |]).
  split; [reflexivity |].
  split; [| split].
  - intros Hpos. unfold live_records_of. rewrite Hrecords. simpl.
    unfold live_at. cbn [IRefreshTokenDocument.expiresAt].
    destruct (Z.ltb_spec now2
                (now2 + Configuration.REFRESH_TOKEN_EXPIRES_IN cfg));
      [reflexivity | lia].
  - intros Hsec driver3 now3 principal.
    unfold refreshToken.
    cbn [RefreshRequest.refresh_token RefreshRequest.user_agent].
    rewrite Htok1 at 1. cbn [token_truthy].
    destruct (verifyRefreshToken cfg now3 _); [| reflexivity].
    rewrite (truthy_Some _ _ Hua).
    rewrite Hcoll2, <- Htok1.
    rewrite find_superseded_token; [reflexivity | exact (Hne Hsec)].
  - intros Hwritten Hsec driver3 now3 rreq Hcarried.
    assert (Hnone : forall ua',
               RefreshTokenController.findRefreshToken driver3
                 (ITokenResponse.refresh_token body1) ua' coll2 = None).
    { intros ua'. rewrite findRefreshToken_eq.
      destruct (Driver.findOne_rejects driver3); [reflexivity |].
      apply find_all_false. intros x Hx.
      destruct (RefreshTokenModel.refreshToken_and_userAgent _ ua' x)
        eqn:E; [| reflexivity].
      apply refreshToken_and_userAgent_spec in E as [Etok _].
      exfalso. rewrite Hcoll2 in Hx.
      apply in_app_iff in Hx as [Hx | [<- | []]].
      - apply filter_In in Hx as [Hin Hkeep].
        apply negb_true_iff in Hkeep.
        destruct (written_tokens_owned coll Hwritten x Hin)
          as (claims & tag & Hjws & Howner).
        rewrite Etok, Htok1 in Hjws. inversion Hjws; subst claims.
        cbn [JwtClaims.payload principal_of IPayload.id] in Howner.
        assert (Hrev : revocable (IUserDocument.id u) ua x)
          by (left; symmetry; exact Howner).
        apply or_userId_userAgent_spec in Hrev. congruence.
      - cbn [IRefreshTokenDocument.refreshToken] in Etok.
        exact (Hne Hsec Etok). }
    assert (Htruthy : token_truthy
                        (Some (ITokenResponse.refresh_token body1))
                      = Some (ITokenResponse.refresh_token body1))
      by (rewrite Htok1; reflexivity).
    unfold refreshToken. rewrite Hcarried, Htruthy.
    destruct (verifyRefreshToken cfg now3 _); [| left; reflexivity].
    destruct (truthy (RefreshRequest.user_agent rreq)) as [ua' |];
      [| right; split; reflexivity].
    rewrite Hnone. left. reflexivity.
Qed.

Lemma second_login_supersedes_first_witness :
  exists d,
    live_records_of "66f0c0ffee00000000000001" "Jest" 1002500
      (snd (login Sample.configuration Sample.comparePassword Driver.healthy
              Sample.users 1002500 Sample.loginRequest
              (snd Sample.firstLogin)))
    = [d]
    /\ refreshToken Sample.configuration Driver.healthy 1003000
         Sample.refreshWithFirstToken
         (snd (login Sample.configuration Sample.comparePassword
                 Driver.healthy Sample.users 1002500 Sample.loginRequest
                 (snd Sample.firstLogin)))
       = next (BadRequestError "Invalid refresh token.")
    /\ refreshToken Sample.configuration Driver.healthy 1003000
         (RefreshRequest.mk
            (Sample.refresh_token_of (fst Sample.firstLogin))
            (Some "Firefox") Sample.testPayload)
         (snd (login Sample.configuration Sample.comparePassword
                 Driver.healthy Sample.users 1002500 Sample.loginRequest
                 (snd Sample.firstLogin)))
       = next (BadRequestError "Invalid refresh token.").
Proof.
  destruct (second_login_supersedes_first
              Sample.configuration Sample.comparePassword Sample.users
              Sample.loginRequest
              Driver.healthy 1000000 []
              201
              (ITokenResponse.mk "Login successful" "success"
                 (Jws (JwtClaims.mk Sample.testPayload 1000 4600)
                    (HS256 "access-secret"
                       (JwtClaims.mk Sample.testPayload 1000 4600)))
                 3600
                 (Jws (JwtClaims.mk Sample.testPayload 1000 605800)
                    (HS256 "refresh-secret"
                       (JwtClaims.mk Sample.testPayload 1000 605800))))
              (snd Sample.firstLogin)
              Driver.healthy 1002500 (snd Sample.firstLogin)
              201
              (ITokenResponse.mk "Login successful" "success"
                 (Jws (JwtClaims.mk Sample.testPayload 1002 4602)
                    (HS256 "access-secret"
                       (JwtClaims.mk Sample.testPayload 1002 4602)))
                 3600
                 (Jws (JwtClaims.mk Sample.testPayload 1002 605802)
                    (HS256 "refresh-secret"
                       (JwtClaims.mk Sample.testPayload 1002 605802))))
              (snd (login Sample.configuration Sample.comparePassword
                      Driver.healthy Sample.users 1002500
                      Sample.loginRequest (snd Sample.firstLogin)))
              eq_refl eq_refl eq_refl eq_refl eq_refl)
    as (email & u & ua & d & He & Hu & Hua & _ & _ & Hlive & Hold & Hany).
  inversion He; subst email.
  inversion Hu; subst u.
  inversion Hua; subst ua.
  exists d. split; [apply Hlive; reflexivity |].
  split; [apply (Hold ltac:(discriminate) Driver.healthy 1003000
                   Sample.testPayload) |].
  assert (Hw : written_by_logins (snd Sample.firstLogin)).
  { apply (written_login Sample.configuration Sample.comparePassword
             Driver.healthy Sample.users 1000000 Sample.loginRequest []).
    constructor. }
  destruct (Hany Hw ltac:(discriminate) Driver.healthy 1003000
              (RefreshRequest.mk
                 (Sample.refresh_token_of (fst Sample.firstLogin))
                 (Some "Firefox") Sample.testPayload)
              eq_refl) as [Hinvalid | [Hmissing _]].
  - exact Hinvalid.
  - discriminate Hmissing.
Defined.

(** C2 (as stated) fails.  In the sample scenario the two logins are half a
    second apart: [jwt.sign] stamps both tokens with the same [iat] and
    [exp], the two refresh tokens are the same string, and the first
    login's refresh token is accepted after the second login. *)
Lemma same_second_logins_share_refresh_token :
  http_status (fst Sample.firstLogin) = 201
  /\ http_status (fst Sample.secondLogin) = 201
  /\ Sample.refresh_token_of (fst Sample.firstLogin)
     = Sample.refresh_token_of (fst Sample.secondLogin)
  /\ List.length
       (records_of "66f0c0ffee00000000000001" "Jest"
          (snd Sample.secondLogin))
     = 1%nat
  /\ http_status
       (refreshToken Sample.configuration Driver.healthy 1001000
          Sample.refreshWithFirstToken (snd Sample.secondLogin))
     = 201
  /\ refreshToken Sample.configuration Driver.healthy 1001000
       Sample.refreshWithFirstToken (snd Sample.secondLogin)
     <> next (BadRequestError "Invalid refresh token.").
Proof. repeat split. discriminate. Qed.

(** C5 (as the code has it).  In every login that answers, the principal
    carried by both tokens is built field by field from the user record
    found by e-mail: its capability bitfield is the [permissions] value
    stored on that record, and its role the stored role.  Login does not
    call [calculatePermissions]; the two agree whenever the stored value
    does, as for every document registration creates (role "user",
    permissions [DEFAULT]). *)
Theorem login_payload_carries_stored_permissions :
  (forall cfg cmp driver users now req coll code body coll',
      login cfg cmp driver users now req coll
      = (res_status_json code body, coll') ->
      exists email u access_claims refresh_claims,
        truthy (LoginRequest.email req) = Some email
        /\ UserController.findByUserEmail users email = Some u
        /\ jwt.decode (ITokenResponse.access_token body)
           = Some access_claims
        /\ jwt.decode (ITokenResponse.refresh_token body)
           = Some refresh_claims
        /\ JwtClaims.payload access_claims = principal_of u
        /\ JwtClaims.payload refresh_claims = principal_of u
        /\ IPayload.permissions (JwtClaims.payload access_claims)
           = IUserDocument.permissions u
        /\ IPayload.role (JwtClaims.payload access_claims)
           = IUserDocument.role u
        /\ (IUserDocument.permissions u
            = calculatePermissions (IUserDocument.role u) ->
            IPayload.permissions (JwtClaims.payload access_claims)
            = calculatePermissions
                (IPayload.role (JwtClaims.payload access_claims))))
  /\ (forall oid dto,
         IUserDocument.permissions (UserModel.new oid dto)
         = calculatePermissions (IUserDocument.role (UserModel.new oid dto))).
Proof.
  split; [| reflexivity].
  intros cfg cmp driver users now req coll code body coll' Hlogin.
  apply login_answer_inv in Hlogin
    as (email & password & u & access & refresh & ua & He & _ & Hu & _
        & Ha & Hr & _ & _ & -> & _).
  exists email, u. eexists; eexists.
  split; [exact He |]. split; [exact Hu |].
  cbn [ITokenResponse.access_token ITokenResponse.refresh_token].
  rewrite (generateAccessToken_inv _ _ _ _ Ha),
    (generateRefreshToken_inv _ _ _ _ Hr).
  split; [reflexivity |]. split; [reflexivity |].
  cbn [JwtClaims.payload principal_of IPayload.permissions IPayload.role].
  repeat split. intros H; exact H.
Qed.

Lemma login_payload_carries_stored_permissions_witness :
  exists access_claims,
    Sample.access_token_of (fst Sample.firstLogin)
    = Some (Jws access_claims (HS256 "access-secret" access_claims))
    /\ IPayload.permissions (JwtClaims.payload access_claims)
       = calculatePermissions USER.
Proof.
  destruct (proj1 login_payload_carries_stored_permissions
              Sample.configuration Sample.comparePassword Driver.healthy
              Sample.users 1000000 Sample.loginRequest []
              201
              (ITokenResponse.mk "Login successful" "success"
                 (Jws (JwtClaims.mk Sample.testPayload 1000 4600)
                    (HS256 "access-secret"
                       (JwtClaims.mk Sample.testPayload 1000 4600)))
                 3600
                 (Jws (JwtClaims.mk Sample.testPayload 1000 605800)
                    (HS256 "refresh-secret"
                       (JwtClaims.mk Sample.testPayload 1000 605800))))
              (snd Sample.firstLogin) eq_refl)
    as (email & u & a & r & He & Hu & Ha & _ & _ & _ & _ & _ & Hcalc).
  inversion He; subst email.
  inversion Hu; subst u.
  inversion Ha; subst a.
  eexists. split; [reflexivity |].
  apply Hcalc. reflexivity.
Defined.

(** C5 (as stated) fails.  A user whose stored role is "admin" while the
    stored [permissions] is still [DEFAULT] logs in: the principal in the
    access token carries role "admin" with bitfield 1, where the Permission
    Model computes 7 for that role. *)
Lemma login_payload_ignores_permission_model :
  exists body claims,
    fst (login Sample.configuration Sample.comparePassword Driver.healthy
           [Sample.promoted] 1000000 Sample.promotedLogin [])
    = res_status_json 201 body
    /\ jwt.decode (ITokenResponse.access_token body) = Some claims
    /\ IPayload.role (JwtClaims.payload claims) = ADMIN
    /\ IPayload.permissions (JwtClaims.payload claims) = 1
    /\ calculatePermissions (IPayload.role (JwtClaims.payload claims)) = 7
    /\ IPayload.permissions (JwtClaims.payload claims)
       <> calculatePermissions (IPayload.role (JwtClaims.payload claims)).
Proof.
  eexists; eexists. split; [reflexivity |]. split; [reflexivity |].
  repeat split. discriminate.
Qed.

(* ===================================================================== *)
(** * Further properties                                                  *)
(* ===================================================================== *)

(** ** Credential Codec: what verification accepts *)

Lemma seconds_monotone (t t' : Z) : t <= t' -> t / 1000 <= t' / 1000.
Proof. intros H. apply Z.div_le_mono; lia. Qed.

(** What an accepted token looks like. *)
Lemma verifyToken_Some_inv now token key decoded :
  verifyToken now token key = Some decoded ->
  key <> ""
  /\ token = Jws decoded (HS256 key decoded)
  /\ now / 1000 < JwtClaims.exp decoded.
Proof.
  unfold verifyToken, jwt.verify.
  destruct token as [s | claims tag]; [discriminate |].
  destruct (string_dec key ""); [discriminate |].
  destruct (Signature_eq_dec tag (HS256 key claims)); [| discriminate].
  destruct (Z.leb_spec (JwtClaims.exp claims) (now / 1000));
    [discriminate |].
  intros Heq; inversion Heq; subst. auto.
Qed.

(** X2.  The refresh token round trip: with a non-empty refresh secret
    and a refresh lifetime that is a whole number of seconds (as the
    configuration record has it), [generateRefreshToken] succeeds, the
    token expires
    [REFRESH_TOKEN_EXPIRES_IN] seconds after the second it was issued in,
    [verifyRefreshToken] gives back the principal at every time before that
    and [null] from then on. *)
Theorem refresh_token_round_trip
        (cfg : Configuration.t) (p : IPayload.t) (now : Z)
        (Hkey : Configuration.REFRESH_TOKEN_SECRET_KEY cfg <> "") :
  exists res claims,
    generateRefreshToken cfg now p = Some res
    /\ jwt.decode (IRefreshTokenResult.refreshToken res) = Some claims
    /\ JwtClaims.exp claims
       = now / 1000 + Configuration.REFRESH_TOKEN_EXPIRES_IN cfg
    /\ (forall t, t < 1000 * JwtClaims.exp claims ->
          exists decoded,
            verifyRefreshToken cfg t (IRefreshTokenResult.refreshToken res)
            = Some decoded
            /\ JwtClaims.payload decoded = p)
    /\ (forall t, 1000 * JwtClaims.exp claims <= t ->
          verifyRefreshToken cfg t (IRefreshTokenResult.refreshToken res)
          = None).
Proof.
  unfold generateRefreshToken, verifyRefreshToken, verifyToken.
  rewrite (sign_Some now p _
             (Configuration.REFRESH_TOKEN_EXPIRES_IN cfg) Hkey).
  eexists; eexists. split; [reflexivity |].
  split; [reflexivity |]. split; [reflexivity |].
  cbn [IRefreshTokenResult.refreshToken JwtClaims.exp].
  split; intros t Ht; rewrite (verify_signed t _ _ Hkey);
    cbn [JwtClaims.exp].
  - apply seconds_before in Ht.
    destruct (Z.leb_spec
                (now / 1000 + Configuration.REFRESH_TOKEN_EXPIRES_IN cfg)
                (t / 1000)); [lia |].
    eexists; split; reflexivity.
  - destruct (Z.leb_spec
                (now / 1000 + Configuration.REFRESH_TOKEN_EXPIRES_IN cfg)
                (t / 1000)) as [| Hlt]; [reflexivity |].
    apply seconds_before in Hlt. lia.
Qed.

Lemma refresh_token_round_trip_witness :
  exists res,
    generateRefreshToken Sample.configuration 1000000 Sample.testPayload
    = Some res
    /\ (exists decoded,
           verifyRefreshToken Sample.configuration 605799999
             (IRefreshTokenResult.refreshToken res)
           = Some decoded
           /\ JwtClaims.payload decoded = Sample.testPayload)
    /\ verifyRefreshToken Sample.configuration 605800000
         (IRefreshTokenResult.refreshToken res)
       = None.
Proof.
  destruct (refresh_token_round_trip Sample.configuration
              Sample.testPayload 1000000 ltac:(discriminate))
    as (res & claims & Hgen & Hdec & Hexp & Hlive & Hdead).
  exists res. split; [exact Hgen |].
  split; [apply Hlive | apply Hdead]; rewrite Hexp; reflexivity.
Defined.

(** X3.  Equal tokens, equal issue: two access tokens that are the same
    string were issued for the same principal in the same second of the
    clock.  And at one call site nothing else varies: two logins with the
    same request against the same users, answered within one second of
    the clock, return the same access token and the same refresh token,
    whatever the driver and the collection did. *)
Theorem equal_tokens_same_principal_and_second :
  (forall cfg now1 now2 p1 p2 res1 res2,
      generateAccessToken cfg now1 p1 = Some res1 ->
      generateAccessToken cfg now2 p2 = Some res2 ->
      ITokenResult.accessToken res1 = ITokenResult.accessToken res2 ->
      p1 = p2 /\ now1 / 1000 = now2 / 1000)
  /\ (forall cfg cmp users req driver1 driver2 now1 now2 coll1 coll2
             code1 code2 body1 body2 coll1' coll2',
         login cfg cmp driver1 users now1 req coll1
         = (res_status_json code1 body1, coll1') ->
         login cfg cmp driver2 users now2 req coll2
         = (res_status_json code2 body2, coll2') ->
         now1 / 1000 = now2 / 1000 ->
         ITokenResponse.access_token body1
         = ITokenResponse.access_token body2
         /\ ITokenResponse.refresh_token body1
            = ITokenResponse.refresh_token body2).
Proof.
  split.
  - intros cfg now1 now2 p1 p2 res1 res2 H1 H2.
    rewrite (generateAccessToken_inv _ _ _ _ H1),
      (generateAccessToken_inv _ _ _ _ H2).
    intros H; inversion H; auto.
  - intros cfg cmp users req driver1 driver2 now1 now2 coll1 coll2
           code1 code2 body1 body2 coll1' coll2' H1 H2 Hsec.
    apply login_answer_inv in H1
      as (email1 & password1 & u1 & access1 & refresh1 & ua1 & He1 & _
          & Hu1 & _ & Ha1 & Hr1 & _ & _ & -> & _).
    apply login_answer_inv in H2
      as (email2 & password2 & u2 & access2 & refresh2 & ua2 & He2 & _
          & Hu2 & _ & Ha2 & Hr2 & _ & _ & -> & _).
    assert (email2 = email1) by congruence. subst email2.
    assert (u2 = u1) by congruence. subst u2.
    cbn [ITokenResponse.access_token ITokenResponse.refresh_token].
    rewrite (generateAccessToken_inv _ _ _ _ Ha1),
      (generateAccessToken_inv _ _ _ _ Ha2),
      (generateRefreshToken_inv _ _ _ _ Hr1),
      (generateRefreshToken_inv _ _ _ _ Hr2), Hsec.
    split; reflexivity.
Qed.

Lemma equal_tokens_same_principal_and_second_witness :
  Sample.access_token_of (fst Sample.firstLogin)
  = Sample.access_token_of (fst Sample.secondLogin)
  /\ Sample.refresh_token_of (fst Sample.firstLogin)
     = Sample.refresh_token_of (fst Sample.secondLogin).
Proof.
  destruct (proj2 equal_tokens_same_principal_and_second
              Sample.configuration Sample.comparePassword Sample.users
              Sample.loginRequest Driver.healthy Driver.healthy
              1000000 1000500 [] (snd Sample.firstLogin) 201 201
              (ITokenResponse.mk "Login successful" "success"
                 (Jws (JwtClaims.mk Sample.testPayload 1000 4600)
                    (HS256 "access-secret"
                       (JwtClaims.mk Sample.testPayload 1000 4600)))
                 3600
                 (Jws (JwtClaims.mk Sample.testPayload 1000 605800)
                    (HS256 "refresh-secret"
                       (JwtClaims.mk Sample.testPayload 1000 605800))))
              (ITokenResponse.mk "Login successful" "success"
                 (Jws (JwtClaims.mk Sample.testPayload 1000 4600)
                    (HS256 "access-secret"
                       (JwtClaims.mk Sample.testPayload 1000 4600)))
                 3600
                 (Jws (JwtClaims.mk Sample.testPayload 1000 605800)
                    (HS256 "refresh-secret"
                       (JwtClaims.mk Sample.testPayload 1000 605800))))
              (snd Sample.firstLogin) (snd Sample.secondLogin)
              eq_refl eq_refl eq_refl) as [Ha Hr].
  split; [exact (f_equal Some Ha) | exact (f_equal Some Hr)].
Defined.

(** Rejection is permanent: a token [verifyToken] turns down at some
    time is turned down at every later time, under the same key. *)
Theorem verifyToken_rejection_is_permanent
        (t t' : Z) (token : TokenString) (key : string)
        (Hrejected : verifyToken t token key = None)
        (Hlater : t <= t') :
  verifyToken t' token key = None.
Proof.
  revert Hrejected. unfold verifyToken, jwt.verify.
  destruct token as [s | claims tag]; [reflexivity |].
  destruct (string_dec key ""); [reflexivity |].
  destruct (Signature_eq_dec tag (HS256 key claims)); [| reflexivity].
  pose proof (seconds_monotone t t' Hlater).
  destruct (Z.leb_spec (JwtClaims.exp claims) (t / 1000));
    [| discriminate].
  destruct (Z.leb_spec (JwtClaims.exp claims) (t' / 1000));
    [reflexivity | lia].
Qed.

(** X4.  A configured lifetime of zero or less gives tokens that are dead
    on arrival: whenever such a token is issued, no verification at or
    after the time of issue accepts it. *)
Theorem nonpositive_lifetime_token_never_valid
        (cfg : Configuration.t) (p : IPayload.t) (now t : Z)
        (res : ITokenResult.t)
        (Hlifetime : Configuration.EXPIRES_IN cfg <= 0)
        (Hissued : generateAccessToken cfg now p = Some res)
        (Hafter : now <= t) :
  verifyAccessToken cfg t (ITokenResult.accessToken res) = None.
Proof.
  rewrite (generateAccessToken_inv _ _ _ _ Hissued).
  unfold verifyAccessToken, verifyToken, jwt.verify.
  destruct (string_dec (Configuration.SECRET_KEY cfg) ""); [reflexivity |].
  destruct (Signature_eq_dec _ _); [| reflexivity].
  cbn [JwtClaims.exp].
  pose proof (seconds_monotone now t Hafter).
  destruct (Z.leb_spec (now / 1000 + Configuration.EXPIRES_IN cfg)
              (t / 1000)); [reflexivity | lia].
Qed.

Lemma nonpositive_lifetime_token_never_valid_witness :
  exists res,
    generateAccessToken
      (Configuration.mk "access-secret" 0 "refresh-secret" 604800)
      1000000 Sample.testPayload
    = Some res
    /\ verifyAccessToken
         (Configuration.mk "access-secret" 0 "refresh-secret" 604800)
         1000000 (ITokenResult.accessToken res)
       = None.
Proof.
  eexists. split; [reflexivity |].
  apply (nonpositive_lifetime_token_never_valid
           (Configuration.mk "access-secret" 0 "refresh-secret" 604800)
           Sample.testPayload 1000000 1000000 _
           ltac:(cbn; lia) eq_refl ltac:(lia)).
Defined.

(** ** Refresh Session Store: how the operations compose *)

Lemma find_app {A : Type} (f : A -> bool) (l l' : list A) :
  List.find f (l ++ l')
  = match List.find f l with
    | Some x => Some x
    | None => List.find f l'
    end.
Proof.
  induction l as [| a l IH]; simpl; [reflexivity |].
  destruct (f a); [reflexivity | exact IH].
Qed.

Lemma filter_filter {A : Type} (f g : A -> bool) (l : list A) :
  List.filter f (List.filter g l)
  = List.filter (fun x => g x && f x) l.
Proof.
  induction l as [| a l IH]; simpl; [reflexivity |].
  destruct (g a); simpl; [destruct (f a) |]; rewrite IH; reflexivity.
Qed.

Lemma reachable_userAgent_unique coll :
  reachable coll -> userAgent_unique coll.
Proof.
  induction 1.
  - constructor.
  - now apply revoke_keeps_unique.
  - now apply create_keeps_unique.
  - now apply ttlMonitor_keeps_unique.
Qed.

(** On a collection with pairwise distinct client-contexts, a lookup by a
    stored record's own token and client-context lands on that record. *)
Lemma find_own_record token ua coll d :
  userAgent_unique coll ->
  In d coll ->
  IRefreshTokenDocument.refreshToken d = token ->
  IRefreshTokenDocument.userAgent d = ua ->
  List.find (RefreshTokenModel.refreshToken_and_userAgent token ua) coll
  = Some d.
Proof.
  unfold userAgent_unique.
  induction coll as [| x coll IH]; simpl; intros Hu Hin Htok Hua;
    [contradiction |].
  inversion Hu as [| ? ? Hnotin Hrest]; subst.
  destruct Hin as [-> | Hin].
  - replace (RefreshTokenModel.refreshToken_and_userAgent
               (IRefreshTokenDocument.refreshToken d)
               (IRefreshTokenDocument.userAgent d) d) with true;
      [reflexivity |].
    symmetry. now apply refreshToken_and_userAgent_spec.
  - destruct (RefreshTokenModel.refreshToken_and_userAgent
                (IRefreshTokenDocument.refreshToken d)
                (IRefreshTokenDocument.userAgent d) x) eqn:Hx.
    + apply refreshToken_and_userAgent_spec in Hx as [_ Hx].
      exfalso. apply Hnotin. rewrite Hx. now apply in_map.
    + now apply IH.
Qed.

(** X5.  Create, then look up: when [createRefreshToken] returns a
    document, the collection has grown by exactly that document, which
    carries the given fields and the creation time, and a lookup by its
    token and client-context returns it (whenever the lookup itself is not
    rejected). *)
Theorem create_then_find
        (driver driver' : Driver.t) (now : Z) (data : IRefreshToken.t)
        (coll coll' : Collection) (doc : IRefreshTokenDocument.t)
        (Hcreated :
           RefreshTokenController.createRefreshToken driver now data coll
           = (Some doc, coll'))
        (Hlookup : Driver.findOne_rejects driver' = false) :
  coll' = coll ++ [doc]
  /\ doc
     = IRefreshTokenDocument.mk
         (IRefreshToken.userId data) (IRefreshToken.refreshToken data)
         (IRefreshToken.userAgent data) (IRefreshToken.expiresAt data) now
  /\ RefreshTokenController.findRefreshToken driver'
       (IRefreshToken.refreshToken data) (IRefreshToken.userAgent data)
       coll'
     = Some doc.
Proof.
  destruct (create_cases driver now data coll)
    as [[Hnone _] | [Hsome (_ & _ & Hfree)]];
    rewrite Hcreated in *; [discriminate |].
  inversion Hsome; subst. split; [reflexivity |]. split; [reflexivity |].
  rewrite findRefreshToken_eq, Hlookup, find_app.
  rewrite find_all_false.
  - simpl.
    replace (RefreshTokenModel.refreshToken_and_userAgent _ _ _) with true;
      [reflexivity |].
    symmetry. now apply refreshToken_and_userAgent_spec.
  - intros x Hx.
    destruct (RefreshTokenModel.refreshToken_and_userAgent _ _ x) eqn:E;
      [| reflexivity].
    apply refreshToken_and_userAgent_spec in E as [_ E].
    exfalso. apply Hfree. rewrite <- E. now apply in_map.
Qed.

Lemma create_then_find_witness :
  exists doc coll',
    RefreshTokenController.createRefreshToken Driver.healthy 4000
      (IRefreshToken.mk "66f0c0ffee00000000000003" (NotJws "t4") 9000
         "Chrome")
      Sample.twoSessions
    = (Some doc, coll')
    /\ RefreshTokenController.findRefreshToken Driver.healthy (NotJws "t4")
         "Chrome" coll'
       = Some doc.
Proof.
  eexists; eexists. split; [reflexivity |].
  apply (create_then_find Driver.healthy Driver.healthy 4000
           (IRefreshToken.mk "66f0c0ffee00000000000003" (NotJws "t4") 9000
              "Chrome")
           Sample.twoSessions _ _ eq_refl eq_refl).
Defined.

(** X6.  [createRefreshToken] is all or nothing, and fails for five
    reasons only: it returns [null] exactly when the driver rejects the
    save, the token string is empty, the client-context is empty, the
    expiry is not a valid Date, or the client-context is already stored
    (by any user); and whenever it returns [null] the collection is as it
    was. *)
Theorem create_fails_iff
        (driver : Driver.t) (now : Z) (data : IRefreshToken.t)
        (coll : Collection) :
  (fst (RefreshTokenController.createRefreshToken driver now data coll)
   = None
   <-> Driver.save_rejects driver = true
       \/ IRefreshToken.refreshToken data = NotJws ""
       \/ IRefreshToken.userAgent data = ""
       \/ Date_valid (IRefreshToken.expiresAt data) = false
       \/ In (IRefreshToken.userAgent data)
             (map IRefreshTokenDocument.userAgent coll))
  /\ (fst (RefreshTokenController.createRefreshToken driver now data coll)
      = None ->
      snd (RefreshTokenController.createRefreshToken driver now data coll)
      = coll).
Proof.
  assert (Hval : RefreshTokenModel.validates data = false
                 <-> IRefreshToken.refreshToken data = NotJws ""
                     \/ IRefreshToken.userAgent data = ""
                     \/ Date_valid (IRefreshToken.expiresAt data) = false).
  { unfold RefreshTokenModel.validates, token_truthy, truthy.
    destruct (IRefreshToken.refreshToken data) as [s | c tg].
    - destruct (string_dec s "") as [-> | Hs].
      + intuition.
      + destruct (string_dec (IRefreshToken.userAgent data) "");
          intuition (try discriminate; try congruence).
    - destruct (string_dec (IRefreshToken.userAgent data) "");
        intuition (try discriminate; try congruence). }
  destruct (create_cases driver now data coll)
    as [[-> Hwhy] | [-> (Hsave & Hok & Hfree)]]; cbn [fst snd].
  - split; [| reflexivity]. split; [| reflexivity]. intros _.
    destruct Hwhy as [H | [H | H]]; [tauto | | tauto].
    apply Hval in H. tauto.
  - split; [| discriminate]. split; [discriminate |].
    assert (Hnot : ~ (IRefreshToken.refreshToken data = NotJws ""
                      \/ IRefreshToken.userAgent data = ""
                      \/ Date_valid (IRefreshToken.expiresAt data) = false))
      by (rewrite <- Hval; congruence).
    intros [H | [H | [H | [H | H]]]];
      [congruence | tauto | tauto | tauto | contradiction].
Qed.

Lemma create_fails_iff_witness :
  fst (RefreshTokenController.createRefreshToken Driver.healthy 1000
         (IRefreshToken.mk "66f0c0ffee00000000000003" (NotJws "t4")
            8640000000000001 "Chrome")
         Sample.twoSessions)
  = None.
Proof.
  apply (proj1 (create_fails_iff Driver.healthy 1000
                  (IRefreshToken.mk "66f0c0ffee00000000000003"
                     (NotJws "t4") 8640000000000001 "Chrome")
                  Sample.twoSessions)).
  right; right; right; left. reflexivity.
Defined.

(** X7.  Revocation is idempotent: after a revoke that went through, a
    second one for the same user and client-context finds nothing, returns
    [false] and leaves the collection as the first left it, whether or not
    the driver takes the second call. *)
Theorem revoke_idempotent
        (driver driver' : Driver.t) (uid : ObjectId) (ua : string)
        (coll : Collection)
        (Hok : Driver.deleteMany_rejects driver = false) :
  RefreshTokenController.revokeUserRefreshTokensByUserAgent
    driver' uid ua
    (snd (RefreshTokenController.revokeUserRefreshTokensByUserAgent
            driver uid ua coll))
  = (false,
     snd (RefreshTokenController.revokeUserRefreshTokensByUserAgent
            driver uid ua coll)).
Proof.
  rewrite (revoke_eq driver), Hok. cbn [snd]. rewrite revoke_eq.
  destruct (Driver.deleteMany_rejects driver'); [reflexivity |].
  rewrite !filter_filter.
  rewrite (filter_none
             (fun x =>
                negb (RefreshTokenModel.or_userId_userAgent uid ua x)
                && RefreshTokenModel.or_userId_userAgent uid ua x)).
  - simpl. f_equal. apply filter_ext. intros x.
    destruct (RefreshTokenModel.or_userId_userAgent uid ua x); reflexivity.
  - intros x _.
    destruct (RefreshTokenModel.or_userId_userAgent uid ua x); reflexivity.
Qed.

Lemma revoke_idempotent_witness :
  RefreshTokenController.revokeUserRefreshTokensByUserAgent
    Driver.healthy "66f0c0ffee00000000000001" "Jest"
    (snd (RefreshTokenController.revokeUserRefreshTokensByUserAgent
            Driver.healthy "66f0c0ffee00000000000001" "Jest"
            Sample.twoSessions))
  = (false,
     [IRefreshTokenDocument.mk "66f0c0ffee00000000000002" (NotJws "t3")
        "Safari" 7000 3000]).
Proof.
  apply (revoke_idempotent Driver.healthy Driver.healthy
           "66f0c0ffee00000000000001" "Jest" Sample.twoSessions eq_refl).
Defined.

(** X8.  After a revoke that went through, no lookup finds a record on the
    revoked client-context, and no lookup finds a record of the revoked
    user on any client-context: whatever a lookup still returns belongs to
    another user and another client-context. *)
Theorem revoke_then_find
        (driver driver' : Driver.t) (uid : ObjectId) (ua : string)
        (coll : Collection)
        (Hok : Driver.deleteMany_rejects driver = false) :
  let coll' :=
    snd (RefreshTokenController.revokeUserRefreshTokensByUserAgent
           driver uid ua coll) in
  (forall token,
      RefreshTokenController.findRefreshToken driver' token ua coll' = None)
  /\ (forall token ua' d,
         RefreshTokenController.findRefreshToken driver' token ua' coll'
         = Some d ->
         IRefreshTokenDocument.userId d <> uid /\ ua' <> ua).
Proof.
  cbv zeta. rewrite revoke_eq, Hok. cbn [snd].
  assert (Hleft : forall d,
             In d (List.filter
                     (fun d =>
                        negb (RefreshTokenModel.or_userId_userAgent
                                uid ua d)) coll) ->
             IRefreshTokenDocument.userId d <> uid
             /\ IRefreshTokenDocument.userAgent d <> ua).
  { intros d Hin. apply filter_In in Hin as [_ Hkeep].
    apply negb_true_iff in Hkeep.
    split; intros Heq;
      assert (Hrev : revocable uid ua d) by (unfold revocable; tauto);
      apply or_userId_userAgent_spec in Hrev; congruence. }
  split.
  - intros token. rewrite findRefreshToken_eq.
    destruct (Driver.findOne_rejects driver'); [reflexivity |].
    apply find_all_false. intros x Hx.
    destruct (RefreshTokenModel.refreshToken_and_userAgent token ua x)
      eqn:E; [| reflexivity].
    apply refreshToken_and_userAgent_spec in E as [_ E].
    apply Hleft in Hx. tauto.
  - intros token ua' d. rewrite findRefreshToken_eq.
    destruct (Driver.findOne_rejects driver'); [discriminate |].
    intros Hfound. apply find_some in Hfound as [Hin Hm].
    apply refreshToken_and_userAgent_spec in Hm as [_ Hm].
    apply Hleft in Hin as [Huid Hagent]. split; [exact Huid | congruence].
Qed.

Lemma revoke_then_find_witness :
  RefreshTokenController.findRefreshToken Driver.healthy (NotJws "t1")
    "Jest"
    (snd (RefreshTokenController.revokeUserRefreshTokensByUserAgent
            Driver.healthy "66f0c0ffee00000000000002" "Jest"
            Sample.twoSessions))
  = None.
Proof.
  apply (revoke_then_find Driver.healthy Driver.healthy
           "66f0c0ffee00000000000002" "Jest" Sample.twoSessions eq_refl).
Defined.

(** X9.  Whatever the program has stored can be found again: in every
    reachable state of the collection, looking a stored record up by its
    own token string and client-context returns that very record. *)
Theorem find_returns_stored_record
        (driver : Driver.t) (coll : Collection)
        (d : IRefreshTokenDocument.t)
        (Hreach : reachable coll)
        (Hstored : In d coll)
        (Hlookup : Driver.findOne_rejects driver = false) :
  RefreshTokenController.findRefreshToken driver
    (IRefreshTokenDocument.refreshToken d)
    (IRefreshTokenDocument.userAgent d) coll
  = Some d.
Proof.
  rewrite findRefreshToken_eq, Hlookup.
  apply find_own_record; auto using reachable_userAgent_unique.
Qed.

Lemma find_returns_stored_record_witness :
  exists d,
    snd Sample.firstLogin = [d]
    /\ RefreshTokenController.findRefreshToken Driver.healthy
         (IRefreshTokenDocument.refreshToken d)
         (IRefreshTokenDocument.userAgent d) (snd Sample.firstLogin)
       = Some d.
Proof.
  eexists. split; [reflexivity |].
  apply (find_returns_stored_record Driver.healthy (snd Sample.firstLogin)).
  - apply (login_reachable Sample.configuration Sample.comparePassword
             Driver.healthy Sample.users 1000000 Sample.loginRequest []).
    constructor.
  - left. reflexivity.
  - reflexivity.
Defined.

(** What a [false] from the revocation means: either the driver
    rejected the delete, or no stored record belongs to the user or the
    client-context.  The caller cannot tell the two apart, but in both the
    collection is left exactly as it was. *)
Theorem revoke_false_iff
        (driver : Driver.t) (uid : ObjectId) (ua : string)
        (coll : Collection) :
  (fst (RefreshTokenController.revokeUserRefreshTokensByUserAgent
          driver uid ua coll)
   = false
   <-> Driver.deleteMany_rejects driver = true
       \/ forall d, In d coll -> ~ revocable uid ua d)
  /\ (fst (RefreshTokenController.revokeUserRefreshTokensByUserAgent
             driver uid ua coll)
      = false ->
      snd (RefreshTokenController.revokeUserRefreshTokensByUserAgent
             driver uid ua coll)
      = coll).
Proof.
  rewrite revoke_eq.
  destruct (Driver.deleteMany_rejects driver); cbn [fst snd].
  - split; [| reflexivity]. split; auto.
  - assert (Hnone :
              (0 <? Z.of_nat
                      (List.length
                         (List.filter
                            (RefreshTokenModel.or_userId_userAgent uid ua)
                            coll))) = false
              <-> forall d, In d coll -> ~ revocable uid ua d).
    { split.
      - intros Hzero d Hin Hrev.
        apply or_userId_userAgent_spec in Hrev.
        assert (Hd : In d (List.filter
                             (RefreshTokenModel.or_userId_userAgent uid ua)
                             coll))
          by (apply filter_In; auto).
        destruct (List.filter _ coll); [contradiction |].
        simpl List.length in Hzero. apply Z.ltb_ge in Hzero. lia.
      - intros Hall. rewrite filter_none; [reflexivity |].
        intros x Hx.
        destruct (RefreshTokenModel.or_userId_userAgent uid ua x) eqn:E;
          [| reflexivity].
        apply or_userId_userAgent_spec in E. now apply Hall in Hx. }
    split.
    + rewrite Hnone. split; [auto |]. intros [H | H]; [discriminate | auto].
    + intros Hzero. pose proof (proj1 Hnone Hzero) as Hall.
      rewrite <- (filter_true coll) at 2.
      apply filter_ext_in. intros x Hx.
      destruct (RefreshTokenModel.or_userId_userAgent uid ua x) eqn:E;
        [| reflexivity].
      apply or_userId_userAgent_spec in E. now apply Hall in Hx.
Qed.

(** ** Login: when it answers, and what it leaves behind *)

Lemma generateAccessToken_Some cfg now p :
  Configuration.SECRET_KEY cfg <> "" ->
  exists res,
    generateAccessToken cfg now p = Some res
    /\ ITokenResult.expiresIn res = Configuration.EXPIRES_IN cfg.
Proof.
  intros Hkey. unfold generateAccessToken.
  rewrite (sign_Some now p _ (Configuration.EXPIRES_IN cfg) Hkey).
  eexists; split; reflexivity.
Qed.

Lemma generateAccessToken_key cfg now p res :
  generateAccessToken cfg now p = Some res ->
  Configuration.SECRET_KEY cfg <> ""
  /\ ITokenResult.expiresIn res = Configuration.EXPIRES_IN cfg.
Proof.
  unfold generateAccessToken.
  destruct (jwt.sign now p _ _) as [token |] eqn:Hsign; [| discriminate].
  intros H; inversion H; subst. apply sign_inv in Hsign. tauto.
Qed.

Lemma generateAccessToken_None cfg now p :
  generateAccessToken cfg now p = None ->
  Configuration.SECRET_KEY cfg = "".
Proof.
  unfold generateAccessToken, jwt.sign.
  destruct (string_dec (Configuration.SECRET_KEY cfg) "");
    [auto | discriminate].
Qed.

Lemma generateRefreshToken_Some cfg now p :
  Configuration.REFRESH_TOKEN_SECRET_KEY cfg <> "" ->
  exists res, generateRefreshToken cfg now p = Some res.
Proof.
  intros Hkey. unfold generateRefreshToken.
  rewrite (sign_Some now p _
             (Configuration.REFRESH_TOKEN_EXPIRES_IN cfg) Hkey).
  eexists; reflexivity.
Qed.

Lemma generateRefreshToken_key cfg now p res :
  generateRefreshToken cfg now p = Some res ->
  Configuration.REFRESH_TOKEN_SECRET_KEY cfg <> "".
Proof.
  unfold generateRefreshToken.
  destruct (jwt.sign now p _ _) as [token |] eqn:Hsign; [| discriminate].
  intros _. apply sign_inv in Hsign. tauto.
Qed.

Lemma generateRefreshToken_None cfg now p :
  generateRefreshToken cfg now p = None ->
  Configuration.REFRESH_TOKEN_SECRET_KEY cfg = "".
Proof.
  unfold generateRefreshToken, jwt.sign.
  destruct (string_dec (Configuration.REFRESH_TOKEN_SECRET_KEY cfg) "");
    [auto | discriminate].
Qed.

(** X11.  The login handler answers 201 exactly when: e-mail and password
    are present and non-empty, the awaited user lookup does not reject and
    finds a user with that e-mail, the awaited password comparison does
    not reject and accepts the password against the stored hash, both
    signing secrets are non-empty, and the User-Agent header is present
    and non-empty (the two lifetimes being whole numbers of seconds, as
    the configuration record has them).  Neither the contents of the
    refresh-token collection nor the outcome of the two store calls has
    any say in it. *)
Theorem login_answers_iff
        (cfg : Configuration.t) (cmp : string -> string -> bool)
        (awaits : LoginAwaits.t) (driver : Driver.t)
        (users : list IUserDocument.t) (now : Z)
        (req : LoginRequest.t) (coll : Collection) :
  (exists body coll',
      login_handler cfg cmp awaits driver users now req coll
      = Some (res_status_json 201 body, coll'))
  <-> exists email password u ua,
        truthy (LoginRequest.email req) = Some email
        /\ truthy (LoginRequest.password req) = Some password
        /\ LoginAwaits.findByUserEmail_rejects awaits = false
        /\ UserController.findByUserEmail users email = Some u
        /\ LoginAwaits.comparePassword_rejects awaits = false
        /\ cmp password (IUserDocument.password u) = true
        /\ Configuration.SECRET_KEY cfg <> ""
        /\ Configuration.REFRESH_TOKEN_SECRET_KEY cfg <> ""
        /\ truthy (LoginRequest.user_agent req) = Some ua.
Proof.
  unfold login_handler. split.
  - intros (body & coll' & Hhandler).
    assert (Hlogin : login cfg cmp driver users now req coll
                     = (res_status_json 201 body, coll')
                     /\ (forall email u,
                            truthy (LoginRequest.email req) = Some email ->
                            UserController.findByUserEmail users email
                            = Some u ->
                            LoginAwaits.findByUserEmail_rejects awaits
                            = false
                            /\ LoginAwaits.comparePassword_rejects awaits
                               = false)).
    { revert Hhandler.
      destruct (truthy (LoginRequest.email req)) as [email |] eqn:He0.
      2:{ intros H; injection H as H.
          apply login_answer_inv in H
            as (e1 & p1 & u1 & a1 & r1 & ua1 & He1 & _).
          congruence. }
      destruct (truthy (LoginRequest.password req)) as [password |]
        eqn:Hp0.
      2:{ intros H; injection H as H.
          apply login_answer_inv in H
            as (e1 & p1 & u1 & a1 & r1 & ua1 & _ & Hp1 & _).
          congruence. }
      destruct (LoginAwaits.findByUserEmail_rejects awaits);
        [discriminate |].
      destruct (UserController.findByUserEmail users email) as [u |]
        eqn:Hu.
      - destruct (LoginAwaits.comparePassword_rejects awaits);
          [discriminate |].
        intros H; injection H as H. split; [exact H |].
        intros email' u' He' _. auto.
      - intros H; injection H as H. split; [exact H |].
        intros email' u' He' Hu'. inversion He'; subst. congruence. }
    destruct Hlogin as [Hlogin Hawaits].
    apply login_answer_inv in Hlogin
      as (email & password & u & access & refresh & ua & He & Hp & Hu
          & Hc & Ha & Hr & Hua & _).
    destruct (Hawaits email u He Hu) as [Hf Hcmp].
    exists email, password, u, ua.
    apply generateAccessToken_key in Ha as [Ha _].
    apply generateRefreshToken_key in Hr.
    repeat split; assumption.
  - intros (email & password & u & ua & He & Hp & Hf & Hu & Hcr & Hc
            & Hka & Hkr & Hua).
    rewrite He, Hp, Hf, Hu, Hcr.
    destruct (generateAccessToken_Some cfg now (principal_of u) Hka)
      as (access & Ha & _).
    destruct (generateRefreshToken_Some cfg now (principal_of u) Hkr)
      as (refresh & Hr).
    pose proof (login_answers_regardless_of_store cfg cmp driver users now
                  req coll email password u access refresh ua
                  He Hp Hu Hc Ha Hr Hua) as Hanswer.
    destruct (login cfg cmp driver users now req coll) as [o coll'].
    cbn [fst] in Hanswer. subst o. eexists; eexists; reflexivity.
Qed.

(** X12.  A login that hands an error to [next] has not touched the
    collection, and the error is one of six: four bad requests (missing
    e-mail or password, unknown user, wrong password, missing User-Agent)
    and two server faults, which (with lifetimes that are whole numbers of
    seconds) arise only from an empty signing secret. *)
Theorem login_error_keeps_collection
        (cfg : Configuration.t) (cmp : string -> string -> bool)
        (driver : Driver.t) (users : list IUserDocument.t) (now : Z)
        (req : LoginRequest.t) (coll coll' : Collection)
        (err : BaseError.t)
        (Hnext : login cfg cmp driver users now req coll
                 = (next err, coll')) :
  coll' = coll
  /\ In err
        [BadRequestError "Email and password are required fields.";
         BadRequestError "The user is not registered.";
         BadRequestError "Password is incorrect.";
         BadRequestError "User-Agent header is missing";
         ServerFailedError "Failed to generate access token.";
         ServerFailedError "Failed to generate refresh token."]
  /\ (BaseError.statusCode err = 500 ->
      Configuration.SECRET_KEY cfg = ""
      \/ Configuration.REFRESH_TOKEN_SECRET_KEY cfg = "").
Proof.
  revert Hnext. unfold login.
  destruct (truthy (LoginRequest.email req)) as [email |];
    [| intros H; inversion H; subst; simpl; intuition discriminate].
  destruct (truthy (LoginRequest.password req)) as [password |];
    [| intros H; inversion H; subst; simpl; intuition discriminate].
  destruct (UserController.findByUserEmail users email) as [u |];
    [| intros H; inversion H; subst; simpl; intuition discriminate].
  destruct (cmp password (IUserDocument.password u)); cbn [negb];
    [| intros H; inversion H; subst; simpl; intuition discriminate].
  destruct (generateAccessToken cfg now _) as [access |] eqn:Ha.
  2:{ intros H; inversion H; subst.
      apply generateAccessToken_None in Ha. simpl; intuition. }
  destruct (generateRefreshToken cfg now _) as [refresh |] eqn:Hr.
  2:{ intros H; inversion H; subst.
      apply generateRefreshToken_None in Hr. simpl; intuition. }
  destruct (truthy (LoginRequest.user_agent req)) as [ua |];
    [| intros H; inversion H; subst; simpl; intuition discriminate].
  destruct (RefreshTokenController.revokeUserRefreshTokensByUserAgent
              _ _ _ _).
  destruct (RefreshTokenController.createRefreshToken _ _ _ _).
  discriminate.
Qed.

Lemma login_error_keeps_collection_witness :
  snd (login Sample.configuration Sample.comparePassword Driver.healthy
         Sample.users 1000000
         (LoginRequest.mk (Some "testuser@gmail.com") (Some "wrong")
            (Some "Jest"))
         Sample.twoSessions)
  = Sample.twoSessions.
Proof.
  apply (login_error_keeps_collection Sample.configuration
           Sample.comparePassword Driver.healthy Sample.users 1000000
           (LoginRequest.mk (Some "testuser@gmail.com") (Some "wrong")
              (Some "Jest"))
           Sample.twoSessions _
           (BadRequestError "Password is incorrect.") eq_refl).
Defined.

(** X13.  A login whose revoke and create calls succeed (the driver takes
    them and the expiry is a valid Date) signs the user out everywhere
    else: afterwards the user owns exactly one record (on any
    client-context), the client-context holds exactly one record (of any
    user), both being the record just created, and every record that is
    neither the user's nor on that client-context is as it was. *)
Theorem login_evicts_user_and_context
        (cfg : Configuration.t) (cmp : string -> string -> bool)
        (driver : Driver.t) (users : list IUserDocument.t) (now : Z)
        (req : LoginRequest.t) (coll coll' : Collection)
        (code : Z) (body : ITokenResponse.t)
        (Hlogin : login cfg cmp driver users now req coll
                  = (res_status_json code body, coll'))
        (Hdel : Driver.deleteMany_rejects driver = false)
        (Hsave : Driver.save_rejects driver = false)
        (Hdate : Date_valid
                   (now + Configuration.REFRESH_TOKEN_EXPIRES_IN cfg)
                 = true) :
  exists email u ua doc,
    truthy (LoginRequest.email req) = Some email
    /\ UserController.findByUserEmail users email = Some u
    /\ truthy (LoginRequest.user_agent req) = Some ua
    /\ IRefreshTokenDocument.refreshToken doc
       = ITokenResponse.refresh_token body
    /\ List.filter
         (fun d => if string_dec (IRefreshTokenDocument.userId d)
                        (IUserDocument._id u) then true else false)
         coll'
       = [doc]
    /\ List.filter
         (fun d => if string_dec (IRefreshTokenDocument.userAgent d) ua
                   then true else false)
         coll'
       = [doc]
    /\ (forall d,
           IRefreshTokenDocument.userId d <> IUserDocument._id u ->
           IRefreshTokenDocument.userAgent d <> ua ->
           (In d coll' <-> In d coll)).
Proof.
  destruct (login_store_effect _ _ _ _ _ _ _ _ _ _ Hlogin Hdel Hsave Hdate)
    as (email & u & ua & He & Hu & Hua & ->).
  exists email, u, ua.
  exists (IRefreshTokenDocument.mk (IUserDocument._id u)
            (ITokenResponse.refresh_token body) ua
            (now + Configuration.REFRESH_TOKEN_EXPIRES_IN cfg) now).
  repeat (split; [assumption |]).
  split; [reflexivity |].
  assert (Hkept : forall x,
             In x (List.filter
                     (fun d =>
                        negb (RefreshTokenModel.or_userId_userAgent
                                (IUserDocument.id u) ua d)) coll) ->
             IRefreshTokenDocument.userId x <> IUserDocument._id u
             /\ IRefreshTokenDocument.userAgent x <> ua).
  { intros x Hx. apply filter_In in Hx as [_ Hkeep].
    apply negb_true_iff in Hkeep.
    split; intros Heq;
      assert (Hrev : revocable (IUserDocument.id u) ua x)
        by (unfold revocable, IUserDocument.id; tauto);
      apply or_userId_userAgent_spec in Hrev; congruence. }
  split; [| split].
  - rewrite filter_app, filter_none.
    + simpl. destruct (string_dec _ _); [reflexivity | contradiction].
    + intros x Hx. apply Hkept in Hx as [Hx _].
      destruct (string_dec _ _); [contradiction | reflexivity].
  - rewrite filter_app, filter_none.
    + simpl. destruct (string_dec ua ua); [reflexivity | contradiction].
    + intros x Hx. apply Hkept in Hx as [_ Hx].
      destruct (string_dec _ _); [contradiction | reflexivity].
  - intros d Hd1 Hd2. rewrite in_app_iff, filter_In. simpl. split.
    + intros [[Hin _] | [<- | []]]; [assumption |].
      simpl in Hd2. contradiction.
    + intros Hin. left. split; [assumption |].
      destruct (RefreshTokenModel.or_userId_userAgent
                  (IUserDocument.id u) ua d) eqn:E; [| reflexivity].
      apply or_userId_userAgent_spec in E.
      unfold revocable, IUserDocument.id in E. tauto.
Qed.

Lemma login_evicts_user_and_context_witness :
  exists doc,
    List.filter
      (fun d => if string_dec (IRefreshTokenDocument.userId d)
                     "66f0c0ffee00000000000001" then true else false)
      (snd (login Sample.configuration Sample.comparePassword
              Driver.healthy Sample.users 1000000 Sample.loginRequest
              Sample.twoSessions))
    = [doc]
    /\ IRefreshTokenDocument.userAgent doc = "Jest".
Proof.
  destruct (login_evicts_user_and_context
              Sample.configuration Sample.comparePassword Driver.healthy
              Sample.users 1000000 Sample.loginRequest Sample.twoSessions
              (snd (login Sample.configuration Sample.comparePassword
                      Driver.healthy Sample.users 1000000
                      Sample.loginRequest Sample.twoSessions))
              201
              (ITokenResponse.mk "Login successful" "success"
                 (Jws (JwtClaims.mk Sample.testPayload 1000 4600)
                    (HS256 "access-secret"
                       (JwtClaims.mk Sample.testPayload 1000 4600)))
                 3600
                 (Jws (JwtClaims.mk Sample.testPayload 1000 605800)
                    (HS256 "refresh-secret"
                       (JwtClaims.mk Sample.testPayload 1000 605800))))
              eq_refl eq_refl eq_refl eq_refl)
    as (email & u & ua & doc & He & Hu & Hua & _ & Huser & Hagent & _).
  inversion He; subst email. inversion Hu; subst u.
  exists doc. split; [exact Huser |].
  cbv in Huser. inversion Huser. reflexivity.
Defined.

(** X14.  The [expires_in] a login answers with is the access token's
    true lifetime: the token passes [verifyAccessToken] at exactly the
    times before [expires_in] seconds past the second of issue, and what it
    then yields is the principal built from the user record. *)
Theorem login_access_token_validity_window
        (cfg : Configuration.t) (cmp : string -> string -> bool)
        (driver : Driver.t) (users : list IUserDocument.t) (now : Z)
        (req : LoginRequest.t) (coll coll' : Collection)
        (code : Z) (body : ITokenResponse.t)
        (Hlogin : login cfg cmp driver users now req coll
                  = (res_status_json code body, coll')) :
  ITokenResponse.expires_in body = Configuration.EXPIRES_IN cfg
  /\ forall t,
      (exists claims,
          verifyAccessToken cfg t (ITokenResponse.access_token body)
          = Some claims)
      <-> t < 1000 * (now / 1000 + ITokenResponse.expires_in body).
Proof.
  apply login_answer_inv in Hlogin
    as (email & password & u & access & refresh & ua & _ & _ & _ & _
        & Ha & _ & _ & _ & -> & _).
  cbn [ITokenResponse.expires_in ITokenResponse.access_token].
  destruct (generateAccessToken_key _ _ _ _ Ha) as [Hkey ->].
  rewrite (generateAccessToken_inv _ _ _ _ Ha).
  split; [reflexivity |]. intros t.
  unfold verifyAccessToken, verifyToken.
  rewrite (verify_signed t _ _ Hkey). cbn [JwtClaims.exp].
  rewrite <- seconds_before.
  destruct (Z.leb_spec (now / 1000 + Configuration.EXPIRES_IN cfg)
              (t / 1000)).
  - split; [intros [claims Hsome]; discriminate | lia].
  - split; [auto | intros _; eexists; reflexivity].
Qed.

Lemma login_access_token_validity_window_witness :
  (exists claims,
      verifyAccessToken Sample.configuration 4599999
        (Jws (JwtClaims.mk Sample.testPayload 1000 4600)
           (HS256 "access-secret"
              (JwtClaims.mk Sample.testPayload 1000 4600)))
      = Some claims)
  <-> 4599999 < 1000 * (1000000 / 1000 + 3600).
Proof.
  apply (login_access_token_validity_window
           Sample.configuration Sample.comparePassword Driver.healthy
           Sample.users 1000000 Sample.loginRequest []
           (snd Sample.firstLogin) 201
           (ITokenResponse.mk "Login successful" "success"
              (Jws (JwtClaims.mk Sample.testPayload 1000 4600)
                 (HS256 "access-secret"
                    (JwtClaims.mk Sample.testPayload 1000 4600)))
              3600
              (Jws (JwtClaims.mk Sample.testPayload 1000 605800)
                 (HS256 "refresh-secret"
                    (JwtClaims.mk Sample.testPayload 1000 605800))))
           eq_refl).
Defined.

(** ** The refresh flow *)

Lemma principal_eta (p : IPayload.t) :
  IPayload.mk (IPayload.id p) (IPayload.full_name p) (IPayload.role p)
    (IPayload.permissions p)
  = p.
Proof. destruct p; reflexivity. Qed.

(** The steps a refresh that answers has gone through. *)
Lemma refresh_answer_inv cfg driver now req coll code body :
  refreshToken cfg driver now req coll = res_status_json code body ->
  exists token claims ua found access,
    token_truthy (RefreshRequest.refresh_token req) = Some token
    /\ verifyRefreshToken cfg now token = Some claims
    /\ truthy (RefreshRequest.user_agent req) = Some ua
    /\ RefreshTokenController.findRefreshToken driver token ua coll
       = Some found
    /\ generateAccessToken cfg now (RefreshRequest.user req) = Some access
    /\ code = 201
    /\ body
       = RefreshTokenResponse.mk "Created a access token" "success"
           (ITokenResult.accessToken access)
           (ITokenResult.expiresIn access).
Proof.
  unfold refreshToken. rewrite principal_eta.
  destruct (token_truthy (RefreshRequest.refresh_token req)) as [token |];
    [| discriminate].
  destruct (verifyRefreshToken cfg now token) as [claims |] eqn:Hverify;
    [| discriminate].
  destruct (truthy (RefreshRequest.user_agent req)) as [ua |];
    [| discriminate].
  destruct (RefreshTokenController.findRefreshToken driver token ua coll)
    as [found |] eqn:Hfound; [| discriminate].
  destruct (generateAccessToken cfg now (RefreshRequest.user req))
    as [access |] eqn:Haccess; [| discriminate].
  intros H; inversion H; subst.
  exists token, claims, ua, found, access. repeat split; assumption.
Qed.

(** X15.  Login, then refresh: after a login whose revoke and create
    calls succeeded (the driver took them and the expiry is a valid Date),
    presenting the refresh token it answered with, on the same
    User-Agent, to the refresh flow on the collection login left, at any
    time before the token's expiry and with the lookup not rejected, is
    answered 201 with a fresh access token for the principal attached to
    the request, reported with the configured lifetime. *)
Theorem login_then_refresh
        (cfg : Configuration.t) (cmp : string -> string -> bool)
        (driver driver' : Driver.t) (users : list IUserDocument.t)
        (now t : Z) (req : LoginRequest.t) (coll coll' : Collection)
        (code : Z) (body : ITokenResponse.t) (principal : IPayload.t)
        (Hlogin : login cfg cmp driver users now req coll
                  = (res_status_json code body, coll'))
        (Hdel : Driver.deleteMany_rejects driver = false)
        (Hsave : Driver.save_rejects driver = false)
        (Hdate : Date_valid
                   (now + Configuration.REFRESH_TOKEN_EXPIRES_IN cfg)
                 = true)
        (Hlookup : Driver.findOne_rejects driver' = false)
        (Hlive : t / 1000
                 < now / 1000 + Configuration.REFRESH_TOKEN_EXPIRES_IN cfg) :
  exists access,
    generateAccessToken cfg t principal = Some access
    /\ refreshToken cfg driver' t
         (RefreshRequest.mk (Some (ITokenResponse.refresh_token body))
            (LoginRequest.user_agent req) principal)
         coll'
       = res_status_json 201
           (RefreshTokenResponse.mk "Created a access token" "success"
              (ITokenResult.accessToken access)
              (Configuration.EXPIRES_IN cfg)).
Proof.
  destruct (login_store_effect _ _ _ _ _ _ _ _ _ _ Hlogin Hdel Hsave Hdate)
    as (email & u & ua & He & Hu & Hua & Hcoll').
  apply login_answer_inv in Hlogin
    as (email1 & password1 & u1 & access1 & refresh1 & ua1 & _ & _ & _
        & _ & Ha1 & Hr1 & _ & _ & Hbody & _).
  destruct (generateAccessToken_key _ _ _ _ Ha1) as [Hka _].
  pose proof (generateRefreshToken_key _ _ _ _ Hr1) as Hkr.
  destruct (generateAccessToken_Some cfg t principal Hka)
    as (access & Ha & Hexp).
  exists access. split; [exact Ha |].
  assert (Htoken : ITokenResponse.refresh_token body
                   = IRefreshTokenResult.refreshToken refresh1)
    by (rewrite Hbody; reflexivity).
  unfold refreshToken.
  cbn [RefreshRequest.refresh_token RefreshRequest.user_agent
         RefreshRequest.user].
  rewrite principal_eta, Ha, Hexp, Hua.
  rewrite Hcoll', Htoken.
  rewrite (generateRefreshToken_inv _ _ _ _ Hr1). cbn [token_truthy].
  unfold verifyRefreshToken, verifyToken.
  rewrite (verify_signed t _ _ Hkr). cbn [JwtClaims.exp].
  destruct (Z.leb_spec
              (now / 1000 + Configuration.REFRESH_TOKEN_EXPIRES_IN cfg)
              (t / 1000)); [lia |].
  rewrite findRefreshToken_eq, Hlookup, find_app.
  rewrite find_all_false.
  - simpl.
    replace (RefreshTokenModel.refreshToken_and_userAgent _ _ _) with true;
      [reflexivity |].
    symmetry. apply refreshToken_and_userAgent_spec. simpl.
    rewrite <- (generateRefreshToken_inv _ _ _ _ Hr1). auto.
  - intros x Hx. apply filter_In in Hx as [_ Hkeep].
    apply negb_true_iff in Hkeep.
    unfold RefreshTokenModel.refreshToken_and_userAgent.
    unfold RefreshTokenModel.or_userId_userAgent in Hkeep.
    destruct (string_dec (IRefreshTokenDocument.userAgent x) ua).
    + rewrite orb_true_r in Hkeep. discriminate.
    + apply andb_false_r.
Qed.

Lemma login_then_refresh_witness :
  exists access,
    generateAccessToken Sample.configuration 1002000 Sample.testPayload
    = Some access
    /\ refreshToken Sample.configuration Driver.healthy 1002000
         Sample.refreshWithFirstToken (snd Sample.firstLogin)
       = res_status_json 201
           (RefreshTokenResponse.mk "Created a access token" "success"
              (ITokenResult.accessToken access) 3600).
Proof.
  apply (login_then_refresh
           Sample.configuration Sample.comparePassword Driver.healthy
           Driver.healthy Sample.users 1000000 1002000 Sample.loginRequest
           [] (snd Sample.firstLogin) 201
           (ITokenResponse.mk "Login successful" "success"
              (Jws (JwtClaims.mk Sample.testPayload 1000 4600)
                 (HS256 "access-secret"
                    (JwtClaims.mk Sample.testPayload 1000 4600)))
              3600
              (Jws (JwtClaims.mk Sample.testPayload 1000 605800)
                 (HS256 "refresh-secret"
                    (JwtClaims.mk Sample.testPayload 1000 605800))))
           Sample.testPayload eq_refl eq_refl eq_refl eq_refl eq_refl eq_refl).
Defined.

(** X16.  After a login whose store calls went through, the one refresh
    token the refresh flow accepts on that User-Agent is the token that
    login answered with: a refresh request on the same User-Agent that is
    answered at all carried exactly that token string. *)
Theorem only_latest_token_accepted
        (cfg : Configuration.t) (cmp : string -> string -> bool)
        (driver driver' : Driver.t) (users : list IUserDocument.t)
        (now t : Z) (req : LoginRequest.t) (coll coll' : Collection)
        (code code' : Z) (body : ITokenResponse.t)
        (rreq : RefreshRequest.t) (rbody : RefreshTokenResponse.t)
        (Hlogin : login cfg cmp driver users now req coll
                  = (res_status_json code body, coll'))
        (Hdel : Driver.deleteMany_rejects driver = false)
        (Hsave : Driver.save_rejects driver = false)
        (Hagent : truthy (RefreshRequest.user_agent rreq)
                  = truthy (LoginRequest.user_agent req))
        (Hrefresh : refreshToken cfg driver' t rreq coll'
                    = res_status_json code' rbody) :
  RefreshRequest.refresh_token rreq
  = Some (ITokenResponse.refresh_token body).
Proof.
  apply login_answer_inv in Hlogin
    as (email & password & u & access & refresh & ua & _ & _ & _ & _ & _
        & _ & Hua & _ & -> & ->).
  cbn [ITokenResponse.refresh_token].
  apply refresh_answer_inv in Hrefresh
    as (token & claims & ua' & found & access' & Htok & _ & Hua' & Hfound
        & _).
  assert (ua' = ua) by congruence. subst ua'.
  rewrite findRefreshToken_eq in Hfound.
  destruct (Driver.findOne_rejects driver'); [discriminate |].
  apply find_some in Hfound as [Hin Hm].
  apply refreshToken_and_userAgent_spec in Hm as [Htoken Hagent'].
  rewrite revoke_eq, Hdel in Hin. cbn [snd] in Hin.
  assert (Hkept : ~ In found
                      (List.filter
                         (fun d =>
                            negb (RefreshTokenModel.or_userId_userAgent
                                    (IUserDocument.id u) ua d)) coll)).
  { intros Hkept. apply filter_In in Hkept as [_ Hkeep].
    apply negb_true_iff in Hkeep.
    assert (Hrev : revocable (IUserDocument.id u) ua found) by now right.
    apply or_userId_userAgent_spec in Hrev. congruence. }
  destruct (create_cases driver now
              (refresh_record cfg now u
                 (IRefreshTokenResult.refreshToken refresh) ua)
              (List.filter
                 (fun d =>
                    negb (RefreshTokenModel.or_userId_userAgent
                            (IUserDocument.id u) ua d)) coll))
    as [[Hc _] | [Hc _]]; rewrite Hc in Hin; cbn [snd] in Hin.
  - contradiction.
  - apply in_app_iff in Hin as [Hin | [<- | []]]; [contradiction |].
    cbn [refresh_record IRefreshToken.refreshToken
           IRefreshTokenDocument.refreshToken] in Htoken.
    subst token.
    revert Htok. unfold token_truthy.
    destruct (RefreshRequest.refresh_token rreq) as [[s | c tg] |];
      [| intros H; exact H | discriminate].
    destruct (string_dec s ""); [discriminate | intros H; exact H].
Qed.

Lemma only_latest_token_accepted_witness :
  RefreshRequest.refresh_token Sample.refreshWithFirstToken
  = Some (Jws (JwtClaims.mk Sample.testPayload 1000 605800)
            (HS256 "refresh-secret"
               (JwtClaims.mk Sample.testPayload 1000 605800))).
Proof.
  apply (only_latest_token_accepted
           Sample.configuration Sample.comparePassword Driver.healthy
           Driver.healthy Sample.users 1000000 1002000 Sample.loginRequest
           [] (snd Sample.firstLogin) 201 201
           (ITokenResponse.mk "Login successful" "success"
              (Jws (JwtClaims.mk Sample.testPayload 1000 4600)
                 (HS256 "access-secret"
                    (JwtClaims.mk Sample.testPayload 1000 4600)))
              3600
              (Jws (JwtClaims.mk Sample.testPayload 1000 605800)
                 (HS256 "refresh-secret"
                    (JwtClaims.mk Sample.testPayload 1000 605800))))
           Sample.refreshWithFirstToken
           (RefreshTokenResponse.mk "Created a access token" "success"
              (Jws (JwtClaims.mk Sample.testPayload 1002 4602)
                 (HS256 "access-secret"
                    (JwtClaims.mk Sample.testPayload 1002 4602)))
              3600)
           eq_refl eq_refl eq_refl eq_refl eq_refl).
Defined.

(** X17.  What a refresh that answers has checked, and what it has not.
    The request carried a token string that is a JWS tagged under the
    refresh secret over its own claims and not yet expired; the User-Agent
    was present; a record with that token string and that client-context is
    stored.  The answer is always 201 and carries an access token issued
    now, for the configured lifetime, to the principal attached to the
    request, which is not compared with the principal inside the refresh
    token nor with the owner of the record. *)
Theorem refresh_answers_only_for_stored_valid_token
        (cfg : Configuration.t) (driver : Driver.t) (now : Z)
        (req : RefreshRequest.t) (coll : Collection)
        (code : Z) (body : RefreshTokenResponse.t)
        (Hrefresh : refreshToken cfg driver now req coll
                    = res_status_json code body) :
  code = 201
  /\ RefreshTokenResponse.expires_in body = Configuration.EXPIRES_IN cfg
  /\ jwt.decode (RefreshTokenResponse.access_token body)
     = Some (JwtClaims.mk (RefreshRequest.user req) (now / 1000)
               (now / 1000 + Configuration.EXPIRES_IN cfg))
  /\ exists claims ua found,
      RefreshRequest.refresh_token req
      = Some (Jws claims
                (HS256 (Configuration.REFRESH_TOKEN_SECRET_KEY cfg) claims))
      /\ now / 1000 < JwtClaims.exp claims
      /\ truthy (RefreshRequest.user_agent req) = Some ua
      /\ In found coll
      /\ IRefreshTokenDocument.refreshToken found
         = Jws claims
             (HS256 (Configuration.REFRESH_TOKEN_SECRET_KEY cfg) claims)
      /\ IRefreshTokenDocument.userAgent found = ua.
Proof.
  apply refresh_answer_inv in Hrefresh
    as (token & claims & ua & found & access & Htok & Hverify & Hua
        & Hfound & Ha & -> & ->).
  cbn [RefreshTokenResponse.expires_in RefreshTokenResponse.access_token].
  destruct (generateAccessToken_key _ _ _ _ Ha) as [_ Hexp].
  rewrite (generateAccessToken_inv _ _ _ _ Ha).
  repeat (split; [first [reflexivity | assumption] |]).
  unfold verifyRefreshToken in Hverify.
  apply verifyToken_Some_inv in Hverify
    as (_ & -> & Hlive).
  rewrite findRefreshToken_eq in Hfound.
  destruct (Driver.findOne_rejects driver); [discriminate |].
  apply find_some in Hfound as [Hin Hm].
  apply refreshToken_and_userAgent_spec in Hm as [Hm1 Hm2].
  exists claims, ua, found. repeat split; try assumption.
  revert Htok. unfold token_truthy.
  destruct (RefreshRequest.refresh_token req) as [[s | c tg] |];
    [| intros H; exact H | discriminate].
  destruct (string_dec s ""); discriminate.
Qed.

Lemma refresh_answers_only_for_stored_valid_token_witness :
  jwt.decode
    (Jws (JwtClaims.mk Sample.testPayload 1002 4602)
       (HS256 "access-secret" (JwtClaims.mk Sample.testPayload 1002 4602)))
  = Some (JwtClaims.mk (RefreshRequest.user Sample.refreshWithFirstToken)
            (1002000 / 1000)
            (1002000 / 1000
             + Configuration.EXPIRES_IN Sample.configuration)).
Proof.
  apply (refresh_answers_only_for_stored_valid_token
           Sample.configuration Driver.healthy 1002000
           Sample.refreshWithFirstToken (snd Sample.firstLogin) 201
           (RefreshTokenResponse.mk "Created a access token" "success"
              (Jws (JwtClaims.mk Sample.testPayload 1002 4602)
                 (HS256 "access-secret"
                    (JwtClaims.mk Sample.testPayload 1002 4602)))
              3600)
           eq_refl).
Defined.





(** X20.  Whether a refresh request is answered does not depend on the
    principal attached to it: two requests that differ only in [req.user]
    get the same status.  In particular a valid refresh token of one user
    refreshes the session of whichever principal the guard attached. *)
Theorem refresh_status_ignores_attached_principal
        (cfg : Configuration.t) (driver : Driver.t) (now : Z)
        (token : option TokenString) (ua : option string)
        (p q : IPayload.t) (coll : Collection) :
  http_status
    (refreshToken cfg driver now (RefreshRequest.mk token ua p) coll)
  = http_status
      (refreshToken cfg driver now (RefreshRequest.mk token ua q) coll).
Proof.
  unfold refreshToken.
  cbn [RefreshRequest.refresh_token RefreshRequest.user_agent
         RefreshRequest.user].
  destruct (token_truthy token); [| reflexivity].
  destruct (verifyRefreshToken cfg now _); [| reflexivity].
  destruct (truthy ua); [| reflexivity].
  destruct (RefreshTokenController.findRefreshToken _ _ _ _);
    [| reflexivity].
  rewrite !principal_eta.
  unfold generateAccessToken, jwt.sign.
  destruct (string_dec (Configuration.SECRET_KEY cfg) ""); reflexivity.
Qed.

(** X21.  An access token is no refresh token: when the two secrets
    differ, presenting a token issued by [generateAccessToken] as
    [refresh_token] fails with "Invalid refresh token.", at any time, with
    any User-Agent and whatever is stored. *)
Theorem refresh_rejects_access_token
        (cfg : Configuration.t) (driver : Driver.t) (now t : Z)
        (p principal : IPayload.t) (ua : option string)
        (coll : Collection) (access : ITokenResult.t)
        (Hdistinct : Configuration.SECRET_KEY cfg
                     <> Configuration.REFRESH_TOKEN_SECRET_KEY cfg)
        (Hissued : generateAccessToken cfg now p = Some access) :
  refreshToken cfg driver t
    (RefreshRequest.mk (Some (ITokenResult.accessToken access)) ua
       principal)
    coll
  = next (BadRequestError "Invalid refresh token.").
Proof.
  unfold refreshToken. cbn [RefreshRequest.refresh_token].
  rewrite (generateAccessToken_inv _ _ _ _ Hissued). cbn [token_truthy].
  unfold verifyRefreshToken, verifyToken.
  rewrite verify_other_key; [reflexivity | assumption].
Qed.

Lemma refresh_rejects_access_token_witness :
  refreshToken Sample.configuration Driver.healthy 1002000
    (RefreshRequest.mk
       (Some (Jws (JwtClaims.mk Sample.testPayload 1000 4600)
                (HS256 "access-secret"
                   (JwtClaims.mk Sample.testPayload 1000 4600))))
       (Some "Jest") Sample.testPayload)
    (snd Sample.firstLogin)
  = next (BadRequestError "Invalid refresh token.").
Proof.
  apply (refresh_rejects_access_token Sample.configuration Driver.healthy
           1000000 1002000 Sample.testPayload Sample.testPayload
           (Some "Jest") (snd Sample.firstLogin)
           (ITokenResult.mk
              (Jws (JwtClaims.mk Sample.testPayload 1000 4600)
                 (HS256 "access-secret"
                    (JwtClaims.mk Sample.testPayload 1000 4600)))
              3600)).
  - discriminate.
  - reflexivity.
Defined.

(** ** Registration and the users collection *)

Lemma email_taken_spec email users :
  UserModel.email_taken email users = true
  <-> In email (map IUserDocument.email users).
Proof.
  unfold UserModel.email_taken. rewrite existsb_exists, in_map_iff.
  split; intros [u [H1 H2]]; exists u.
  - destruct (string_dec (IUserDocument.email u) email);
      [tauto | discriminate].
  - split; [assumption |].
    destruct (string_dec (IUserDocument.email u) email);
      [reflexivity | contradiction].
Qed.

Lemma findByUserEmail_None users email :
  UserController.findByUserEmail users email = None
  <-> ~ In email (map IUserDocument.email users).
Proof.
  unfold UserController.findByUserEmail. split.
  - intros Hnone Hin. apply in_map_iff in Hin as [u [Hu Hin]].
    apply (find_none _ _ Hnone) in Hin.
    destruct (string_dec (IUserDocument.email u) email);
      [discriminate | contradiction].
  - intros Hnotin. apply find_all_false. intros u Hu.
    destruct (string_dec (IUserDocument.email u) email); [| reflexivity].
    exfalso. apply Hnotin. apply in_map_iff. eauto.
Qed.

Lemma findByUserEmail_Some users email u :
  UserController.findByUserEmail users email = Some u ->
  In u users /\ IUserDocument.email u = email.
Proof.
  unfold UserController.findByUserEmail. intros H.
  apply find_some in H as [Hin Hm].
  destruct (string_dec (IUserDocument.email u) email);
    [auto | discriminate].
Qed.

Lemma findByUserEmail_snoc users email u :
  UserController.findByUserEmail users email = None ->
  IUserDocument.email u = email ->
  UserController.findByUserEmail (users ++ [u]) email = Some u.
Proof.
  unfold UserController.findByUserEmail. intros Hnone Hemail.
  rewrite find_app, Hnone. simpl.
  destruct (string_dec (IUserDocument.email u) email);
    [reflexivity | contradiction].
Qed.

(** What [createUser] does, by cases. *)
Lemma createUser_cases driver oid user users :
  (exists err,
      UserController.createUser driver oid user users = (inl err, users)
      /\ (UserDriver.validation_fails driver <> None
          \/ UserDriver.save_rejects driver <> None
          \/ In (RegisterDTO.email user)
                (map IUserDocument.email users))
      /\ (forall message,
             err = ValidationError message ->
             UserDriver.validation_fails driver = Some message)
      /\ (forall message,
             err = OtherError message ->
             UserDriver.save_rejects driver = Some message
             \/ In (RegisterDTO.email user)
                   (map IUserDocument.email users)))
  \/ (UserController.createUser driver oid user users
      = (inr (UserModel.new oid user), users ++ [UserModel.new oid user])
      /\ UserDriver.validation_fails driver = None
      /\ UserDriver.save_rejects driver = None
      /\ ~ In (RegisterDTO.email user) (map IUserDocument.email users)).
Proof.
  unfold UserController.createUser, UserModel.save.
  destruct (UserDriver.validation_fails driver) as [m |].
  { left. eexists. split; [reflexivity |].
    split; [left; discriminate |].
    split; intros m' H; inversion H; subst; auto. }
  destruct (UserDriver.save_rejects driver) as [m |].
  { left. eexists. split; [reflexivity |].
    split; [right; left; discriminate |].
    split; intros m' H; inversion H; subst; auto. }
  destruct (UserModel.email_taken (RegisterDTO.email user) users) eqn:E.
  - apply email_taken_spec in E.
    left. eexists. split; [reflexivity |].
    split; [auto |]. split; intros m' H; inversion H; subst; auto.
  - right. repeat split; try reflexivity.
    intros Hin. apply email_taken_spec in Hin. congruence.
Qed.

(** X22.  Registration succeeds in exactly one way.  It answers 201 with
    the success message exactly when all three fields are present and
    non-empty, the lookup is not rejected and finds no user with that
    e-mail, hashing gives a non-empty hash, and the save neither fails
    validation nor is rejected.  The users collection then grows by one
    document: the given e-mail and name, the hash (never the password as
    sent) as [password], role "user", capability bitfield [DEFAULT]. *)
Theorem register_answers_iff
        (hashPassword : string -> option string)
        (driver : UserDriver.t) (oid : ObjectId)
        (req : RegisterRequest.t) (users users' : list IUserDocument.t) :
  register hashPassword driver oid req users
  = (res_status_json 201
       (IMessageResponse.mk "Created a user successfully" "success"),
     users')
  <-> exists email password full_name hashedPassword,
        truthy (RegisterRequest.email req) = Some email
        /\ truthy (RegisterRequest.password req) = Some password
        /\ truthy (RegisterRequest.full_name req) = Some full_name
        /\ UserDriver.findOne_rejects driver = None
        /\ UserController.findByUserEmail users email = None
        /\ truthy (hashPassword password) = Some hashedPassword
        /\ UserDriver.validation_fails driver = None
        /\ UserDriver.save_rejects driver = None
        /\ users'
           = users
             ++ [IUserDocument.mk oid email false full_name hashedPassword
                   "" "http://localhost:8080/images/default_avatar.jpeg"
                   0 0 USER PermissionsBitfield.DEFAULT None].
Proof.
  unfold register. split.
  - destruct (truthy (RegisterRequest.email req)) as [email |];
      [| discriminate].
    destruct (truthy (RegisterRequest.password req)) as [password |];
      [| discriminate].
    destruct (truthy (RegisterRequest.full_name req)) as [full_name |];
      [| discriminate].
    destruct (UserDriver.findOne_rejects driver) eqn:Hfind;
      [discriminate |].
    destruct (UserController.findByUserEmail users email) eqn:Hnone;
      [discriminate |].
    destruct (truthy (hashPassword password)) as [hashed |] eqn:Hhash;
      [| discriminate].
    destruct (createUser_cases driver oid
                (RegisterDTO.mk email full_name hashed) users)
      as [(err & -> & _) | (-> & Hval & Hsave & _)];
      [discriminate |].
    intros H; inversion H; subst.
    exists email, password, full_name, hashed. repeat split; assumption.
  - intros (email & password & full_name & hashed & -> & -> & -> & ->
            & Hnone & -> & Hval & Hsave & ->).
    rewrite Hnone.
    destruct (createUser_cases driver oid
                (RegisterDTO.mk email full_name hashed) users)
      as [(err & _ & [H | [H | H]] & _) | (-> & _)];
      [congruence | congruence | | reflexivity].
    apply findByUserEmail_None in Hnone. contradiction.
Qed.

(** X23.  A registration that hands an error to [next] leaves the users
    collection as it was, and the error is one of six: the missing-fields
    and already-registered bad requests, the hashing fault, the rejected
    lookup or rejected insert as server faults with the driver's message,
    or the validation failure as a bad request with mongoose's message.
    The unique index on [email] is never what stops a registration: the
    lookup has already answered for it. *)
Theorem register_error_keeps_users
        (hashPassword : string -> option string)
        (driver : UserDriver.t) (oid : ObjectId)
        (req : RegisterRequest.t) (users users' : list IUserDocument.t)
        (err : BaseError.t)
        (Hnext : register hashPassword driver oid req users
                 = (next err, users')) :
  users' = users
  /\ (err = BadRequestError
              "Email, password, and full name are required fields"
      \/ err = BadRequestError "User is already registered"
      \/ err = ServerFailedError "Hashing password failed"
      \/ (exists message,
             UserDriver.findOne_rejects driver = Some message
             /\ err = ServerFailedError message)
      \/ (exists message,
             UserDriver.validation_fails driver = Some message
             /\ err = BadRequestError message)
      \/ (exists message,
             UserDriver.save_rejects driver = Some message
             /\ err = ServerFailedError message)).
Proof.
  revert Hnext. unfold register.
  destruct (truthy (RegisterRequest.email req)) as [email |];
    [| intros H; inversion H; auto].
  destruct (truthy (RegisterRequest.password req)) as [password |];
    [| intros H; inversion H; auto].
  destruct (truthy (RegisterRequest.full_name req)) as [full_name |];
    [| intros H; inversion H; auto].
  destruct (UserDriver.findOne_rejects driver) as [m |] eqn:Hfind.
  { intros H; inversion H; subst. split; [reflexivity |].
    right; right; right; left. eauto. }
  destruct (UserController.findByUserEmail users email) eqn:Hnone;
    [intros H; inversion H; auto |].
  destruct (truthy (hashPassword password)) as [hashed |];
    [| intros H; inversion H; auto 6].
  destruct (createUser_cases driver oid
              (RegisterDTO.mk email full_name hashed) users)
    as [(thrown & -> & _ & Hv & Ho) | (-> & _)]; [| discriminate].
  intros H; inversion H; subst. split; [reflexivity |].
  destruct thrown as [m | m]; cbn [register_catch].
  - right; right; right; right; left. eauto.
  - destruct (Ho m eq_refl) as [Hs | Hdup].
    + right; right; right; right; right. eauto.
    + apply findByUserEmail_None in Hnone. contradiction.
Qed.

Lemma register_error_keeps_users_witness :
  snd (register Deployment.hashPassword UserDriver.healthy
         "66f0c0ffee00000000000009"
         (RegisterRequest.mk (Some "testuser@gmail.com") (Some "another1!")
            (Some "Test Again"))
         Sample.users)
  = Sample.users.
Proof.
  apply (register_error_keeps_users
           Deployment.hashPassword UserDriver.healthy
           "66f0c0ffee00000000000009"
           (RegisterRequest.mk (Some "testuser@gmail.com")
              (Some "another1!") (Some "Test Again"))
           Sample.users _
           (BadRequestError "User is already registered") eq_refl).
Defined.

(** Registration either fails and leaves the users as they were, or
    appends one document whose e-mail was not there before. *)
Lemma register_cases hashPassword driver oid req users :
  (exists err,
      register hashPassword driver oid req users = (next err, users))
  \/ (exists body u,
         register hashPassword driver oid req users
         = (res_status_json 201 body, users ++ [u])
         /\ ~ In (IUserDocument.email u) (map IUserDocument.email users)).
Proof.
  unfold register.
  destruct (truthy (RegisterRequest.email req)) as [email |]; [| eauto].
  destruct (truthy (RegisterRequest.password req)) as [password |];
    [| eauto].
  destruct (truthy (RegisterRequest.full_name req)) as [full_name |];
    [| eauto].
  destruct (UserDriver.findOne_rejects driver); [eauto |].
  destruct (UserController.findByUserEmail users email) eqn:Hnone;
    [eauto |].
  destruct (truthy (hashPassword password)) as [hashed |]; [| eauto].
  destruct (createUser_cases driver oid
              (RegisterDTO.mk email full_name hashed) users)
    as [(thrown & -> & _) | (-> & _ & _ & Hfree)]; [eauto |].
  right. eexists; eexists. split; [reflexivity | exact Hfree].
Qed.

(** X24.  Registration keeps the e-mails of the users collection pairwise
    distinct, whatever the request and whatever the driver does. *)
Theorem register_keeps_emails_unique
        (hashPassword : string -> option string)
        (driver : UserDriver.t) (oid : ObjectId)
        (req : RegisterRequest.t) (users : list IUserDocument.t)
        (Hunique : email_unique users) :
  email_unique (snd (register hashPassword driver oid req users)).
Proof.
  unfold email_unique in *.
  destruct (register_cases hashPassword driver oid req users)
    as [(err & ->) | (body & u & -> & Hfree)]; cbn [snd];
    [assumption | now apply NoDup_map_snoc].
Qed.

Lemma register_keeps_emails_unique_witness :
  email_unique Sample.users
  /\ email_unique
       (snd (register Deployment.hashPassword
               UserDriver.healthy "66f0c0ffee00000000000009"
               (RegisterRequest.mk (Some "second@gmail.com")
                  (Some "another1!") (Some "Second User"))
               Sample.users)).
Proof.
  assert (H : email_unique Sample.users).
  { unfold email_unique. simpl. constructor; [intros [] | constructor]. }
  split; [exact H |].
  apply (register_keeps_emails_unique
           Deployment.hashPassword UserDriver.healthy
           "66f0c0ffee00000000000009"
           (RegisterRequest.mk (Some "second@gmail.com") (Some "another1!")
              (Some "Second User"))
           Sample.users H).
Defined.

(** X25.  Register, then log in.  When the comparison primitive accepts
    every password against the hash the hashing primitive made of it, both
    signing secrets are non-empty (with lifetimes that are whole numbers of
    seconds, as the configuration record has them) and neither the user
    lookup nor the password comparison of the login rejects, a registration
    that answered is followed by a successful login with the same e-mail
    and password from any non-empty User-Agent: the login handler answers
    201, and the principal in the access token is the registered user, with
    role "user" and the bitfield the Permission Model computes for that
    role. *)
Theorem register_then_login
        (hashPassword : string -> option string)
        (cmp : string -> string -> bool) (cfg : Configuration.t)
        (udriver : UserDriver.t) (awaits : LoginAwaits.t)
        (driver : Driver.t) (oid : ObjectId)
        (req : RegisterRequest.t) (users users' : list IUserDocument.t)
        (code : Z) (body : IMessageResponse.t)
        (now : Z) (ua : string) (coll : Collection)
        (Hprimitives : forall password hashed,
            truthy (hashPassword password) = Some hashed ->
            cmp password hashed = true)
        (Hlookup : LoginAwaits.findByUserEmail_rejects awaits = false)
        (Hcompare : LoginAwaits.comparePassword_rejects awaits = false)
        (Haccess : Configuration.SECRET_KEY cfg <> "")
        (Hrefresh : Configuration.REFRESH_TOKEN_SECRET_KEY cfg <> "")
        (Hagent : ua <> "")
        (Hregistered : register hashPassword udriver oid req users
                       = (res_status_json code body, users')) :
  exists answer coll' claims full_name,
    login_handler cfg cmp awaits driver users' now
      (LoginRequest.mk (RegisterRequest.email req)
         (RegisterRequest.password req) (Some ua))
      coll
    = Some (res_status_json 201 answer, coll')
    /\ jwt.decode (ITokenResponse.access_token answer) = Some claims
    /\ truthy (RegisterRequest.full_name req) = Some full_name
    /\ JwtClaims.payload claims
       = IPayload.mk oid full_name USER (calculatePermissions USER).
Proof.
  revert Hregistered. unfold register.
  destruct (truthy (RegisterRequest.email req)) as [email |] eqn:He;
    [| discriminate].
  destruct (truthy (RegisterRequest.password req)) as [password |] eqn:Hp;
    [| discriminate].
  destruct (truthy (RegisterRequest.full_name req)) as [full_name |];
    [| discriminate].
  destruct (UserDriver.findOne_rejects udriver); [discriminate |].
  destruct (UserController.findByUserEmail users email) eqn:Hnone;
    [discriminate |].
  destruct (truthy (hashPassword password)) as [hashed |] eqn:Hhash;
    [| discriminate].
  destruct (createUser_cases udriver oid
              (RegisterDTO.mk email full_name hashed) users)
    as [(thrown & -> & _) | (-> & _)]; [discriminate |].
  intros H; inversion H; subst; clear H.
  set (u := UserModel.new oid (RegisterDTO.mk email full_name hashed)).
  destruct (generateAccessToken_Some cfg now (principal_of u) Haccess)
    as (access & Ha & _).
  destruct (generateRefreshToken_Some cfg now (principal_of u) Hrefresh)
    as (refresh & Hr).
  assert (Hfound : UserController.findByUserEmail (users ++ [u]) email
                   = Some u)
    by (apply findByUserEmail_snoc; [assumption | reflexivity]).
  assert (Hua : truthy (Some ua) = Some ua)
    by (simpl; destruct (string_dec ua ""); [contradiction | reflexivity]).
  pose proof (login_answers_regardless_of_store cfg cmp driver
                (users ++ [u]) now
                (LoginRequest.mk (RegisterRequest.email req)
                   (RegisterRequest.password req) (Some ua))
                coll email password u access refresh ua
                He Hp Hfound (Hprimitives _ _ Hhash) Ha Hr Hua) as Hanswer.
  unfold login_handler.
  cbn [LoginRequest.email LoginRequest.password].
  rewrite He, Hp, Hlookup, Hfound, Hcompare.
  destruct (login cfg cmp driver (users ++ [u]) now _ coll) as [o coll'].
  cbn [fst] in Hanswer. subst o.
  eexists; exists coll'; eexists; exists full_name.
  split; [reflexivity |].
  cbn [ITokenResponse.access_token].
  rewrite (generateAccessToken_inv _ _ _ _ Ha).
  split; [reflexivity |]. split; reflexivity.
Qed.

Lemma register_then_login_witness :
  exists answer coll' claims,
    login_handler Sample.configuration Sample.comparePassword
      LoginAwaits.resolved Driver.healthy
      [UserModel.new "66f0c0ffee00000000000009"
         (RegisterDTO.mk "a@b.com" "A B" "bcrypt:Passw0rd!")]
      1000000
      (LoginRequest.mk (Some "a@b.com") (Some "Passw0rd!") (Some "X"))
      []
    = Some (res_status_json 201 answer, coll')
    /\ jwt.decode (ITokenResponse.access_token answer) = Some claims
    /\ JwtClaims.payload claims
       = IPayload.mk "66f0c0ffee00000000000009" "A B" USER 1.
Proof.
  destruct (register_then_login
              Deployment.hashPassword
              Sample.comparePassword Sample.configuration
              UserDriver.healthy LoginAwaits.resolved Driver.healthy
              "66f0c0ffee00000000000009"
              (RegisterRequest.mk (Some "a@b.com") (Some "Passw0rd!")
                 (Some "A B"))
              []
              [UserModel.new "66f0c0ffee00000000000009"
                 (RegisterDTO.mk "a@b.com" "A B" "bcrypt:Passw0rd!")]
              201
              (IMessageResponse.mk "Created a user successfully" "success")
              1000000 "X" [])
    as (answer & coll' & claims & full_name & Hlogin & Hdecode & Hname
        & Hpayload).
  - intros password hashed Hh. unfold truthy in Hh.
    unfold Deployment.hashPassword in Hh.
    destruct (string_dec ("bcrypt:" ++ password) ""); [discriminate |].
    inversion Hh; subst. unfold Sample.comparePassword.
    destruct (string_dec _ _); [reflexivity | contradiction].
  - reflexivity.
  - reflexivity.
  - discriminate.
  - discriminate.
  - discriminate.
  - reflexivity.
  - inversion Hname; subst full_name.
    exists answer, coll', claims. repeat split; assumption.
Defined.

Lemma deleteOne_spec email users :
  email_unique users ->
  let (deletedCount, users') := UserModel.deleteOne email users in
  (forall u, In u users'
             <-> In u users /\ IUserDocument.email u <> email)
  /\ email_unique users'
  /\ (0 <? deletedCount)
     = match UserController.findByUserEmail users email with
       | Some _ => true
       | None => false
       end.
Proof.
  unfold email_unique, UserController.findByUserEmail.
  induction users as [| x users IH]; simpl; intros Hu.
  - split; [intros u; tauto |]. split; [constructor | reflexivity].
  - inversion Hu as [| ? ? Hnotin Hrest]; subst.
    destruct (string_dec (IUserDocument.email x) email) as [Hx | Hx].
    + split; [| split; [assumption | reflexivity]].
      intros u. split.
      * intros Hin. split; [now right |].
        intros Heq. apply Hnotin. rewrite Hx, <- Heq. now apply in_map.
      * intros [[<- | Hin] Hne]; [contradiction | assumption].
    + specialize (IH Hrest).
      destruct (UserModel.deleteOne email users) as [n rest'].
      destruct IH as (Hin & Huniq & Hcount).
      split; [| split].
      * intros u. simpl. rewrite Hin. split.
        -- intros [<- | [H1 H2]]; auto.
        -- intros [[<- | H1] H2]; auto.
      * simpl. constructor; [| assumption].
        intros H. apply Hnotin. apply in_map_iff in H as [y [Hy Hyin]].
        apply in_map_iff. exists y. split; [assumption |].
        apply Hin in Hyin. tauto.
      * exact Hcount.
Qed.

(** X26.  Create a user, then find it: when [createUser] returns a
    document, that document is the registration data completed by the
    schema defaults, the collection has grown by exactly it, a lookup by
    its e-mail returns it, and lookups by any other e-mail are as
    before. *)
Theorem createUser_then_find
        (driver : UserDriver.t) (oid : ObjectId) (user : RegisterDTO.t)
        (users users' : list IUserDocument.t) (newUser : IUserDocument.t)
        (Hcreated : UserController.createUser driver oid user users
                    = (inr newUser, users')) :
  newUser = UserModel.new oid user
  /\ users' = users ++ [newUser]
  /\ UserController.findByUserEmail users' (RegisterDTO.email user)
     = Some newUser
  /\ forall email,
      email <> RegisterDTO.email user ->
      UserController.findByUserEmail users' email
      = UserController.findByUserEmail users email.
Proof.
  destruct (createUser_cases driver oid user users)
    as [(err & Herr & _) | (Hok & _ & _ & Hfree)];
    rewrite Hcreated in *; [discriminate |].
  inversion Hok; subst. split; [reflexivity |]. split; [reflexivity |].
  split.
  - apply findByUserEmail_snoc; [| reflexivity].
    now apply findByUserEmail_None.
  - intros email Hne. unfold UserController.findByUserEmail.
    rewrite find_app. destruct (List.find _ users); [reflexivity |].
    simpl. destruct (string_dec _ email); [| reflexivity].
    exfalso. apply Hne. symmetry. assumption.
Qed.

Lemma createUser_then_find_witness :
  UserController.findByUserEmail
    (Sample.users
     ++ [UserModel.new "66f0c0ffee00000000000009"
           (RegisterDTO.mk "second@gmail.com" "Second User" "bcrypt:x")])
    "second@gmail.com"
  = Some (UserModel.new "66f0c0ffee00000000000009"
            (RegisterDTO.mk "second@gmail.com" "Second User" "bcrypt:x")).
Proof.
  apply (createUser_then_find UserDriver.healthy
           "66f0c0ffee00000000000009"
           (RegisterDTO.mk "second@gmail.com" "Second User" "bcrypt:x")
           Sample.users _ _ eq_refl).
Defined.

(** X27.  Delete a user, then find it: on a collection with pairwise
    distinct e-mails, a [deleteByUserEmail] that is not rejected leaves no
    user with that e-mail, keeps every other user, and returns [true]
    exactly when a user with that e-mail was there. *)
Theorem deleteByUserEmail_then_find
        (driver : UserDriver.t) (email : string)
        (users users' : list IUserDocument.t) (deleted : bool)
        (Hunique : email_unique users)
        (Hdeleted : UserController.deleteByUserEmail driver email users
                    = (inr deleted, users')) :
  UserController.findByUserEmail users' email = None
  /\ (forall u, In u users'
                <-> In u users /\ IUserDocument.email u <> email)
  /\ (deleted = true
      <-> exists u, UserController.findByUserEmail users email = Some u)
  /\ email_unique users'.
Proof.
  revert Hdeleted. unfold UserController.deleteByUserEmail.
  destruct (UserDriver.deleteOne_rejects driver); [discriminate |].
  pose proof (deleteOne_spec email users Hunique) as Hspec.
  destruct (UserModel.deleteOne email users) as [n rest].
  destruct Hspec as (Hin & Huniq & Hcount).
  intros H; inversion H; subst; clear H.
  split; [| split; [exact Hin | split; [| exact Huniq]]].
  - apply findByUserEmail_None. intros Hmem.
    apply in_map_iff in Hmem as [u [Hu Huin]].
    apply Hin in Huin. tauto.
  - rewrite Hcount.
    destruct (UserController.findByUserEmail users email);
      split; eauto; try discriminate.
    intros [u Hu]. discriminate.
Qed.

Lemma deleteByUserEmail_then_find_witness :
  UserController.findByUserEmail
    (snd (UserController.deleteByUserEmail UserDriver.healthy
            "testuser@gmail.com" Sample.users))
    "testuser@gmail.com"
  = None.
Proof.
  apply (deleteByUserEmail_then_find UserDriver.healthy
           "testuser@gmail.com" Sample.users _ true).
  - unfold email_unique. simpl. constructor; [intros [] | constructor].
  - reflexivity.
Defined.

(** ** Permission Model: the bitfield against the table *)

(** X28.  The bitfield encodes the role table exactly: for each role and
    each of the three capability constants, the bit is set in
    [calculatePermissions role] exactly when the table lists the
    capability for the role.  Hence the bitfields are nested along the
    order user, moderator, admin: one role's bitfield is contained in
    another's exactly when the first role ranks no higher. *)
Theorem bitfield_encodes_table_exactly :
  (forall role capability,
      In capability
         [PermissionsBitfield.DEFAULT; PermissionsBitfield.MANAGE_BLOG;
          PermissionsBitfield.MANAGE_USERS] ->
      (Z.land (calculatePermissions role) capability = capability
       <-> In capability (rolePermissions role)))
  /\ (forall r1 r2,
         Z.land (calculatePermissions r1) (calculatePermissions r2)
         = calculatePermissions r1
         <-> role_rank r1 <= role_rank r2).
Proof.
  split.
  - intros role capability Hin. simpl in Hin.
    destruct Hin as [<- | [<- | [<- | []]]]; destruct role;
      vm_compute; split; intros H;
        try reflexivity; try discriminate; try tauto;
        repeat (destruct H as [H | H]; try discriminate); try contradiction.
  - intros r1 r2. destruct r1, r2; vm_compute; split; intros H;
      try reflexivity; try discriminate; try (exfalso; now apply H).
Qed.

(** ** Configuration loading *)

Lemma checkRequired_None env variables :
  checkRequired env variables = None
  <-> forall v, In v variables -> truthy (env v) <> None.
Proof.
  induction variables as [| x rest IH]; simpl.
  - split; [intros _ v [] | reflexivity].
  - destruct (truthy (env x)) eqn:E.
    + rewrite IH. split.
      * intros H v [<- | Hv]; [congruence | auto].
      * intros H v Hv. apply H. now right.
    + split; [discriminate |]. intros H. exfalso.
      apply (H x); [now left | assumption].
Qed.

Lemma checkRequired_Some env variables e :
  checkRequired env variables = Some e
  <-> exists before v after,
        variables = before ++ v :: after
        /\ e = MissingVariableError v
        /\ truthy (env v) = None
        /\ forall w, In w before -> truthy (env w) <> None.
Proof.
  induction variables as [| x rest IH]; simpl.
  - split; [discriminate |].
    intros (before & v & after & H & _). destruct before; discriminate.
  - destruct (truthy (env x)) eqn:E.
    + rewrite IH. split.
      * intros (before & v & after & -> & -> & Hv & Hbefore).
        exists (x :: before), v, after. repeat split; try assumption.
        intros w [<- | Hw]; [congruence | auto].
      * intros (before & v & after & Heq & -> & Hv & Hbefore).
        destruct before as [| y before]; simpl in Heq; inversion Heq; subst.
        -- congruence.
        -- exists before, v, after. repeat split; try assumption.
           intros w Hw. apply Hbefore. now right.
    + split.
      * intros H; inversion H; subst.
        exists [], x, rest. repeat split; try assumption. intros w [].
      * intros (before & v & after & Heq & -> & Hv & Hbefore).
        destruct before as [| y before]; simpl in Heq; inversion Heq; subst.
        -- reflexivity.
        -- exfalso. apply (Hbefore y); [now left | assumption].
Qed.

Lemma truthy_env_string env variable :
  truthy (env variable) <> None ->
  env variable = Some (env_string env variable)
  /\ env_string env variable <> "".
Proof.
  unfold truthy, env_string. destruct (env variable) as [s |];
    [| congruence].
  destruct (string_dec s ""); [congruence | auto].
Qed.

(** X29.  Loading stops at the first required variable that is unset or
    empty, in the order of the list: it throws [MissingVariableError] for
    a variable exactly when that variable is required, is unset or empty,
    and every required variable listed before it is set and non-empty.  No
    number is parsed before all ten are known to be present. *)
Theorem loadConfiguration_missing_variable
        (Number : string -> option Z) (env : ProcessEnv)
        (variable : string) :
  loadConfiguration Number env = inl (MissingVariableError variable)
  <-> exists before after,
        requiredVariables = before ++ variable :: after
        /\ truthy (env variable) = None
        /\ forall w, In w before -> truthy (env w) <> None.
Proof.
  unfold loadConfiguration. split.
  - destruct (checkRequired env requiredVariables) as [e |] eqn:Hcheck.
    + intros H; inversion H; subst.
      apply checkRequired_Some in Hcheck
        as (before & v & after & Heq & Hv & Hnone & Hbefore).
      inversion Hv; subst. eauto.
    + unfold env_number.
      repeat match goal with
             | |- context [match Number ?s with _ => _ end] =>
                 destruct (Number s)
             end; discriminate.
  - intros (before & after & Heq & Hnone & Hbefore).
    assert (Hcheck : checkRequired env requiredVariables
                     = Some (MissingVariableError variable)).
    { apply checkRequired_Some. exists before, variable, after. auto. }
    rewrite Hcheck. reflexivity.
Qed.

Lemma string_of_list_ascii_snoc l c s :
  (string_of_list_ascii (l ++ [c]) ++ s)%string
  = (string_of_list_ascii l ++ String c s)%string.
Proof. induction l as [| a l IH]; simpl; [reflexivity | now rewrite IH]. Qed.

Lemma append_nil_right s : (s ++ "")%string = s.
Proof. induction s as [| c s IH]; simpl; [reflexivity | now rewrite IH]. Qed.

Lemma append_assoc_string a b c :
  ((a ++ b) ++ c)%string = (a ++ (b ++ c))%string.
Proof. induction a as [| x a IH]; simpl; [reflexivity | now rewrite IH]. Qed.

Lemma split_comma_from_nonempty current s : split_comma_from current s <> [].
Proof.
  revert current. induction s as [| c s IH]; intros current; simpl.
  - discriminate.
  - destruct (Ascii.ascii_dec c comma); [discriminate | apply IH].
Qed.

Lemma concat_split_comma_from current s :
  String.concat "," (split_comma_from current s)
  = (string_of_list_ascii (rev current) ++ s)%string.
Proof.
  revert current. induction s as [| c s IH]; intros current; simpl.
  - now rewrite append_nil_right.
  - destruct (Ascii.ascii_dec c comma) as [-> | Hc].
    + pose proof (split_comma_from_nonempty [] s) as Hne.
      specialize (IH []).
      destruct (split_comma_from [] s) as [| y ys]; [contradiction |].
      change (String.concat "," (string_of_list_ascii (rev current) :: y :: ys))
        with (string_of_list_ascii (rev current)
              ++ "," ++ String.concat "," (y :: ys))%string.
      rewrite IH. reflexivity.
    + rewrite IH. simpl rev. apply string_of_list_ascii_snoc.
Qed.

Lemma split_comma_from_pieces current s piece :
  ~ In comma current ->
  In piece (split_comma_from current s) ->
  ~ In comma (list_ascii_of_string piece).
Proof.
  revert current. induction s as [| c s IH]; intros current Hcur; simpl.
  - intros [<- | []]. rewrite list_ascii_of_string_of_list_ascii.
    now rewrite <- in_rev.
  - destruct (Ascii.ascii_dec c comma) as [-> | Hc].
    + intros [<- | Hin].
      * rewrite list_ascii_of_string_of_list_ascii. now rewrite <- in_rev.
      * apply (IH []); [intros [] | assumption].
    + apply IH. intros [Heq | Hin]; [congruence | contradiction].
Qed.

Lemma login_500_needs_empty_secret cfg cmp driver users now req coll :
  http_status (fst (login cfg cmp driver users now req coll)) = 500 ->
  Configuration.SECRET_KEY cfg = ""
  \/ Configuration.REFRESH_TOKEN_SECRET_KEY cfg = "".
Proof.
  unfold login.
  destruct (truthy (LoginRequest.email req)); [| discriminate].
  destruct (truthy (LoginRequest.password req)); [| discriminate].
  destruct (UserController.findByUserEmail users _); [| discriminate].
  destruct (cmp _ _); cbn [negb]; [| discriminate].
  destruct (generateAccessToken cfg now _) eqn:Ha;
    [| apply generateAccessToken_None in Ha; auto].
  destruct (generateRefreshToken cfg now _) eqn:Hr;
    [| apply generateRefreshToken_None in Hr; auto].
  destruct (truthy (LoginRequest.user_agent req)); [| discriminate].
  destruct (RefreshTokenController.revokeUserRefreshTokensByUserAgent
              _ _ _ _).
  destruct (RefreshTokenController.createRefreshToken _ _ _ _).
  discriminate.
Qed.

(** X30.  A configuration that loads is fit for issuing tokens.  Its two
    signing secrets are the non-empty strings of the environment, its
    lifetimes are what [Number] reads from it, and its allow-list is the
    [ALLOW_LIST] string cut at the commas (joining the pieces with commas
    gives the string back, and no piece holds a comma).  With it, and with
    numeric variables that denote whole numbers, neither token generator
    ever returns [null], so login never answers 500. *)
Theorem loaded_configuration_issues_tokens
        (Number : string -> option Z) (env : ProcessEnv)
        (c : LoadedConfiguration.t)
        (Hloaded : loadConfiguration Number env = inr c) :
  (env "SECRET_KEY" = Some (LoadedConfiguration.SECRET_KEY c)
   /\ LoadedConfiguration.SECRET_KEY c <> "")
  /\ (env "REFRESH_TOKEN_SECRET_KEY"
      = Some (LoadedConfiguration.REFRESH_TOKEN_SECRET_KEY c)
      /\ LoadedConfiguration.REFRESH_TOKEN_SECRET_KEY c <> "")
  /\ Number (env_string env "EXPIRES_IN")
     = Some (LoadedConfiguration.EXPIRES_IN c)
  /\ Number (env_string env "REFRESH_TOKEN_EXPIRES_IN")
     = Some (LoadedConfiguration.REFRESH_TOKEN_EXPIRES_IN c)
  /\ (String.concat "," (LoadedConfiguration.ALLOW_LIST c)
      = env_string env "ALLOW_LIST"
      /\ forall piece,
          In piece (LoadedConfiguration.ALLOW_LIST c) ->
          ~ In comma (list_ascii_of_string piece))
  /\ (forall now p,
         generateAccessToken (LoadedConfiguration.session c) now p <> None
         /\ generateRefreshToken (LoadedConfiguration.session c) now p
            <> None)
  /\ (forall cmp driver users now req coll,
         http_status
           (fst (login (LoadedConfiguration.session c) cmp driver users now
                   req coll))
         <> 500).
Proof.
  revert Hloaded. unfold loadConfiguration.
  destruct (checkRequired env requiredVariables) eqn:Hcheck;
    [discriminate |].
  assert (Hpresent : forall v, In v requiredVariables ->
                               truthy (env v) <> None)
    by now apply checkRequired_None.
  unfold env_number.
  destruct (Number (env_string env "PORT")); [| discriminate].
  destruct (Number (env_string env "API_VERSION")); [| discriminate].
  destruct (Number (env_string env "SALT_ROUNDS")); [| discriminate].
  destruct (Number (env_string env "EXPIRES_IN")) eqn:Hexp;
    [| discriminate].
  destruct (Number (env_string env "REFRESH_TOKEN_EXPIRES_IN")) eqn:Hrexp;
    [| discriminate].
  intros H; inversion H; subst; clear H.
  cbn [LoadedConfiguration.SECRET_KEY
         LoadedConfiguration.REFRESH_TOKEN_SECRET_KEY
         LoadedConfiguration.EXPIRES_IN
         LoadedConfiguration.REFRESH_TOKEN_EXPIRES_IN
         LoadedConfiguration.ALLOW_LIST].
  assert (Hs : truthy (env "SECRET_KEY") <> None)
    by (apply Hpresent; simpl; tauto).
  assert (Hr : truthy (env "REFRESH_TOKEN_SECRET_KEY") <> None)
    by (apply Hpresent; simpl; tauto).
  apply truthy_env_string in Hs. apply truthy_env_string in Hr.
  split; [exact Hs |]. split; [exact Hr |].
  split; [reflexivity |]. split; [reflexivity |].
  split; [| split].
  - split.
    + unfold split_comma. rewrite concat_split_comma_from. reflexivity.
    + intros piece Hin.
      apply (split_comma_from_pieces [] (env_string env "ALLOW_LIST"));
        [intros [] | exact Hin].
  - intros now p. split.
    + destruct (generateAccessToken_Some
                  (LoadedConfiguration.session
                     (LoadedConfiguration.mk (env "NODE_ENV") z
                        (split_comma (env_string env "ALLOW_LIST")) z0
                        (env_string env "MONGO_CONNECTION_URI")
                        (env_string env "MONGO_DATABASE_NAME") z1
                        (env_string env "SECRET_KEY") z2
                        (env_string env "REFRESH_TOKEN_SECRET_KEY") z3))
                  now p (proj2 Hs)) as (res & -> & _).
      discriminate.
    + destruct (generateRefreshToken_Some
                  (LoadedConfiguration.session
                     (LoadedConfiguration.mk (env "NODE_ENV") z
                        (split_comma (env_string env "ALLOW_LIST")) z0
                        (env_string env "MONGO_CONNECTION_URI")
                        (env_string env "MONGO_DATABASE_NAME") z1
                        (env_string env "SECRET_KEY") z2
                        (env_string env "REFRESH_TOKEN_SECRET_KEY") z3))
                  now p (proj2 Hr)) as (res & ->).
      discriminate.
  - intros cmp driver users now req coll H500.
    apply login_500_needs_empty_secret in H500.
    cbn in H500. destruct H500 as [H0 | H0];
      [apply (proj2 Hs) | apply (proj2 Hr)]; exact H0.
Qed.

Lemma loaded_configuration_issues_tokens_witness :
  loadConfiguration Deployment.Number Deployment.env
  = inr Deployment.loaded
  /\ LoadedConfiguration.session Deployment.loaded = Sample.configuration
  /\ String.concat "," (LoadedConfiguration.ALLOW_LIST Deployment.loaded)
     = "http://localhost:3000,http://localhost:5173"
  /\ http_status
       (fst (login (LoadedConfiguration.session Deployment.loaded)
               Sample.comparePassword Sample.saveDown Sample.users 1000000
               Sample.loginRequest []))
     <> 500.
Proof.
  assert (Hloaded : loadConfiguration Deployment.Number Deployment.env
                    = inr Deployment.loaded) by reflexivity.
  split; [exact Hloaded |]. split; [reflexivity |].
  destruct (loaded_configuration_issues_tokens
              Deployment.Number Deployment.env Deployment.loaded Hloaded)
    as (_ & _ & _ & _ & [Hjoin _] & _ & Hlogin).
  split; [exact Hjoin | apply Hlogin].
Defined.
